(** * Health-Ease: the slot-based appointment scheduling engine

  A shallow embedding of

  - [host_agent_adk/host/medical_scheduling_tools.py]
    ([initialize_medical_schedule], [list_appointment_availabilities],
    [book_medical_appointment]),
  - [neurologist_agent_adk/agent.py]
    ([initialize_neurologist_appointment_schedule],
    [check_neurologist_appointment_availability]),
  - [pulmonologist_agent_crewai/agent.py]
    ([generate_appointment_schedule], [AppointmentAvailabilityTool._run]),

  together with the part of Python's [str], [dict], [datetime],
  [_strptime] and [uuid] that these functions call, as CPython 3.11
  defines it.

  Conventions of the embedding.

  - A Python [str] is a [string] whose characters are the code points
    0..255.  On that alphabet the decimal digits are '0'..'9' and the
    white space characters are those of [PyStr.isspace].
  - A Python [dict] is an insertion-ordered association list without
    duplicate keys ([PyDict]).
  - The module-level schedule is passed in and out explicitly; every
    reading of the clock ([date.today()]) and every random draw
    ([uuid.uuid4()], [random.sample]) is an argument.
  - A Python exception that the code does not catch is the [Raise]
    outcome of the [res] monad. *)

From Stdlib Require Import ZArith List String Ascii Bool Lia.
From Stdlib Require Import Sorting.Sorted Sorting.Permutation.
Import ListNotations.

Local Open Scope string_scope.
Local Open Scope Z_scope.

(* ================================================================== *)
(** ** Exceptions *)

Inductive exn : Type := ValueError | OverflowError | KeyError.

Inductive res (A : Type) : Type :=
| Ret (a : A)
| Raise (e : exn).

Arguments Ret {A} a.
Arguments Raise {A} e.

Definition bind {A B : Type} (m : res A) (k : A -> res B) : res B :=
match m with
| Ret a => k a
| Raise e => Raise e
end.

Notation "x <- m ;; k" := (bind m (fun x => k))
(at level 61, m at next level, right associativity).

(** [for x in xs: body] over an accumulator, stopping at the first raise. *)
Fixpoint for_each {A S : Type} (xs : list A) (body : A -> S -> res S) (s : S)
: res S :=
match xs with
| [] => Ret s
| x :: xs' => s' <- body x s ;; for_each xs' body s'
end.

(** [range(lo, hi)] *)
Definition py_range (lo hi : Z) : list Z :=
map (fun i => lo + Z.of_nat i) (seq 0 (Z.to_nat (hi - lo))).

(* ================================================================== *)
(** ** Python strings *)

Module PyStr.

(** [str.isspace] of one character (code points below 256). *)
Definition isspace (c : ascii) : bool :=
  let n := N_of_ascii c in
  (((9 <=? n) && (n <=? 13)) || ((28 <=? n) && (n <=? 32))
   || (n =? 133) || (n =? 160))%N.

Fixpoint lstrip (s : string) : string :=
  match s with
  | String c r => if isspace c then lstrip r else s
  | EmptyString => EmptyString
  end.

Fixpoint rstrip (s : string) : string :=
  match s with
  | String c r =>
      match rstrip r with
      | EmptyString => if isspace c then EmptyString else String c EmptyString
      | r' => String c r'
      end
  | EmptyString => EmptyString
  end.

(** [s.strip()] *)
Definition strip (s : string) : string := lstrip (rstrip s).

(** Truth value of a string: [not s] is [negb (truthy s)]. *)
Definition truthy (s : string) : bool :=
  match s with EmptyString => false | _ => true end.

(** [sep.join(l)] *)
Fixpoint join (sep : string) (l : list string) : string :=
  match l with
  | [] => ""
  | [x] => x
  | x :: r => x ++ sep ++ join sep r
  end.

Fixpoint split_go (sep : string) (skip : nat) (s cur : string) : list string :=
  match s with
  | EmptyString => [cur]
  | String c r =>
      match skip with
      | S k => split_go sep k r cur
      | O => if String.prefix sep s
             then cur :: split_go sep (length sep - 1) r ""
             else split_go sep 0 r (cur ++ String c "")
      end
  end.

(** [s.split(sep)] for a non-empty [sep] *)
Definition split (sep s : string) : list string := split_go sep 0 s "".

(** The line feed of ["\n"]. *)
Definition LF : string := String (ascii_of_N 10) "".

Definition digit_char (d : Z) : ascii := ascii_of_N (48 + Z.to_N d).

Fixpoint digits_of (fuel : nat) (n : Z) (acc : string) : string :=
  match fuel with
  | O => acc
  | S f =>
      let acc' := String (digit_char (n mod 10)) acc in
      if n / 10 =? 0 then acc' else digits_of f (n / 10) acc'
  end.

(** [str(n)] for [0 <= n]. *)
Definition decimal (n : Z) : string :=
  digits_of (S (Z.to_nat (Z.log2 n))) n "".

Fixpoint zeros (k : nat) : string :=
  match k with O => "" | S k' => String "0" (zeros k') end.

(** [format(n, "0{w}d")] for [0 <= n]: zero-filled to width [w]. *)
Definition fmt_0d (w : nat) (n : Z) : string :=
  let s := decimal n in zeros (w - length s) ++ s.

Definition digit_val (c : ascii) : option Z :=
  let n := N_of_ascii c in
  if ((48 <=? n) && (n <=? 57))%N then Some (Z.of_N n - 48) else None.

Definition isdigit (c : ascii) : bool :=
  match digit_val c with Some _ => true | None => false end.

Fixpoint int_digits (s : string) (acc : Z) : option Z :=
  match s with
  | EmptyString => Some acc
  | String c r =>
      match digit_val c with
      | Some d => int_digits r (10 * acc + d)
      | None => None
      end
  end.

(** [int(s)] on unsigned decimal text; surrounding white space is
    ignored, anything else is a [ValueError]. *)
Definition int (s : string) : res Z :=
  match strip s with
  | EmptyString => Raise ValueError
  | t => match int_digits t 0 with
         | Some n => Ret n
         | None => Raise ValueError
         end
  end.

End PyStr.

(* ================================================================== *)
(** ** Python dictionaries (insertion ordered) *)

Module PyDict.

Definition dict (V : Type) : Type := list (string * V).

(** [d.get(k)] *)
Fixpoint get {V : Type} (d : dict V) (k : string) : option V :=
  match d with
  | [] => None
  | (k', v) :: r => if String.eqb k k' then Some v else get r k
  end.

(** [d[k]] *)
Definition getitem {V : Type} (d : dict V) (k : string) : res V :=
  match get d k with Some v => Ret v | None => Raise KeyError end.

(** [d.get(k, dflt)] *)
Definition get_default {V : Type} (d : dict V) (k : string) (dflt : V) : V :=
  match get d k with Some v => v | None => dflt end.

(** [k in d] *)
Definition contains {V : Type} (d : dict V) (k : string) : bool :=
  match get d k with Some _ => true | None => false end.

(** [d[k] = v]: an existing key keeps its position, a new key goes last. *)
Fixpoint set {V : Type} (d : dict V) (k : string) (v : V) : dict V :=
  match d with
  | [] => [(k, v)]
  | (k', v') :: r =>
      if String.eqb k k' then (k', v) :: r else (k', v') :: set r k v
  end.

(** [list(d)], the keys in insertion order. *)
Definition keys {V : Type} (d : dict V) : list string := map fst d.

(** [len(d)] *)
Definition len {V : Type} (d : dict V) : Z := Z.of_nat (List.length d).

(** Truth value of a dictionary: the empty one is false. *)
Definition truthy {V : Type} (d : dict V) : bool :=
  match d with [] => false | _ => true end.

(** A dictionary has no key twice. *)
Definition wf {V : Type} (d : dict V) : Prop := NoDup (keys d).

(** [{k: v for k, v in items}] *)
Definition from_items {V : Type} (items : list (string * V)) : dict V :=
  fold_left (fun d '(k, v) => set d k v) items [].

(** [{k: f(k) for k in ks}] *)
Definition comprehension {V : Type} (ks : list string) (f : string -> V)
  : dict V :=
  fold_left (fun d k => set d k (f k)) ks [].

End PyDict.

(* ================================================================== *)
(** ** [datetime.date], [datetime.datetime], [timedelta] *)

Module PyDate.

Record date : Type := mkdate { year : Z; month : Z; day : Z }.

Definition MINYEAR : Z := 1.
Definition MAXYEAR : Z := 9999.
Definition MAXORDINAL : Z := 3652059.

(** [_is_leap] *)
Definition is_leap (y : Z) : bool :=
  (y mod 4 =? 0) && (negb (y mod 100 =? 0) || (y mod 400 =? 0)).

Definition DAYS_IN_MONTH : list Z :=
  [-1; 31; 28; 31; 30; 31; 30; 31; 31; 30; 31; 30; 31].

Definition DAYS_BEFORE_MONTH : list Z :=
  [-1; 0; 31; 59; 90; 120; 151; 181; 212; 243; 273; 304; 334].

(** [_days_before_year] *)
Definition days_before_year (y : Z) : Z :=
  let y' := y - 1 in y' * 365 + y' / 4 - y' / 100 + y' / 400.

(** [_days_in_month] *)
Definition days_in_month (y m : Z) : Z :=
  if (m =? 2) && is_leap y then 29
  else nth (Z.to_nat m) DAYS_IN_MONTH 0.

(** [_days_before_month] *)
Definition days_before_month (y m : Z) : Z :=
  nth (Z.to_nat m) DAYS_BEFORE_MONTH 0
  + (if (2 <? m) && is_leap y then 1 else 0).

(** [_ymd2ord] and [date.toordinal] *)
Definition toordinal (d : date) : Z :=
  days_before_year (year d) + days_before_month (year d) (month d) + day d.

(** [_check_date_fields]: what the constructor accepts. *)
Definition valid (d : date) : bool :=
  (MINYEAR <=? year d) && (year d <=? MAXYEAR)
  && (1 <=? month d) && (month d <=? 12)
  && (1 <=? day d) && (day d <=? days_in_month (year d) (month d)).

(** [date(y, m, d)] *)
Definition make (y m d : Z) : res date :=
  let x := mkdate y m d in if valid x then Ret x else Raise ValueError.

Definition max : date := mkdate 9999 12 31.

(** Comparison is that of the tuples [(year, month, day)]. *)
Definition compare (a b : date) : comparison :=
  match year a ?= year b with
  | Eq => match month a ?= month b with
          | Eq => day a ?= day b
          | c => c
          end
  | c => c
  end.

Definition ltb (a b : date) : bool :=
  match compare a b with Lt => true | _ => false end.
Definition gtb (a b : date) : bool := ltb b a.
Definition leb (a b : date) : bool := negb (ltb b a).

(** The day after [d]; there is none after [date.max]. *)
Definition tomorrow (d : date) : res date :=
  if day d <? days_in_month (year d) (month d) then
    Ret (mkdate (year d) (month d) (day d + 1))
  else if month d <? 12 then
    Ret (mkdate (year d) (month d + 1) 1)
  else if year d <? MAXYEAR then
    Ret (mkdate (year d + 1) 1 1)
  else Raise OverflowError.

Fixpoint add_days_nat (d : date) (n : nat) : res date :=
  match n with
  | O => Ret d
  | S n' => d' <- tomorrow d ;; add_days_nat d' n'
  end.

(** [d + timedelta(days=n)] for [0 <= n] (the only offsets the code
    uses come from [range]): the date [n] days later, [OverflowError]
    beyond [date.max]. *)
Definition add_days (d : date) (n : Z) : res date :=
  add_days_nat d (Z.to_nat n).

(** [(a - b).days] *)
Definition sub_days (a b : date) : Z := toordinal a - toordinal b.

(** [d.strftime("%Y-%m-%d")].  CPython hands the format to the
    [strftime] of the C library, and that of glibc prints [%Y] as the
    year in decimal without padding: a year below 1000 has fewer than
    four digits (["999-01-01"]), and [strptime], whose [%Y] asks for
    four digits, does not read it back. *)
Definition strftime (d : date) : string :=
  PyStr.decimal (year d) ++ "-" ++ PyStr.fmt_0d 2 (month d) ++ "-"
  ++ PyStr.fmt_0d 2 (day d).

Record datetime : Type :=
  mkdatetime { dt_date : date; hour : Z; minute : Z }.

Definition dt_compare (a b : datetime) : comparison :=
  match compare (dt_date a) (dt_date b) with
  | Eq => match hour a ?= hour b with
          | Eq => minute a ?= minute b
          | c => c
          end
  | c => c
  end.

Definition dt_ltb (a b : datetime) : bool :=
  match dt_compare a b with Lt => true | _ => false end.
Definition dt_geb (a b : datetime) : bool := negb (dt_ltb a b).

(** What the constructor [datetime(y, m, d, H, M)] accepts. *)
Definition dt_valid (t : datetime) : bool :=
  valid (dt_date t) && (0 <=? hour t) && (hour t <=? 23)
  && (0 <=? minute t) && (minute t <=? 59).

Definition dt_make (d : date) (H M : Z) : res datetime :=
  let t := mkdatetime d H M in if dt_valid t then Ret t else Raise ValueError.

(** [t + timedelta(hours=h)] for [0 <= h]. *)
Definition dt_add_hours (t : datetime) (h : Z) : res datetime :=
  d' <- add_days (dt_date t) ((hour t + h) / 24) ;;
  Ret (mkdatetime d' ((hour t + h) mod 24) (minute t)).

(** [t.strftime("%H:%M")] *)
Definition strftime_HM (t : datetime) : string :=
  PyStr.fmt_0d 2 (hour t) ++ ":" ++ PyStr.fmt_0d 2 (minute t).

End PyDate.

(* ================================================================== *)
(** ** [datetime.strptime]

    [_strptime] turns the format into a regular expression, takes the
    first match of that expression at the start of the text (Python's
    [re] is a backtracking matcher: alternatives are tried left to
    right, [+] is greedy), rejects text with unconverted data after the
    match, converts the groups with [int] and hands them to the
    [datetime] constructor.  A matcher returns its matches in the order
    the backtracking search finds them; the head of the list is the
    match [re.match] returns. *)

Module PyStrptime.

Import PyDate.

Definition matcher : Type := string -> list (string * string).

(** One character of a class; the match is the one-character text. *)
Definition m_class (p : ascii -> bool) : matcher :=
  fun s => match s with
           | String c r => if p c then [(String c "", r)] else []
           | EmptyString => []
           end.

Definition m_lit (c : ascii) : matcher := m_class (Ascii.eqb c).

Definition m_range (lo hi : ascii) : matcher :=
  m_class (fun c => (N_of_ascii lo <=? N_of_ascii c)%N
                    && (N_of_ascii c <=? N_of_ascii hi)%N).

(** [\d] *)
Definition m_digit : matcher := m_class PyStr.isdigit.

(** Concatenation [pq]. *)
Definition m_cat (p q : matcher) : matcher :=
  fun s => flat_map (fun '(a, r) => map (fun '(b, r') => (a ++ b, r')) (q r))
                    (p s).

(** Alternation [p|q]. *)
Definition m_alt (p q : matcher) : matcher := fun s => (p s ++ q s)%list.

Fixpoint m_alts (ps : list matcher) : matcher :=
  match ps with
  | [] => fun _ => []
  | p :: ps' => m_alt p (m_alts ps')
  end.

(** [\s*], greedy *)
Fixpoint m_ws_star (s : string) : list (string * string) :=
  match s with
  | String c r =>
      if PyStr.isspace c
      then (map (fun '(a, r') => (String c a, r')) (m_ws_star r)
            ++ [("", s)])%list
      else [("", s)]
  | EmptyString => [("", s)]
  end.

(** [\s+], greedy *)
Definition m_ws_plus : matcher := m_cat (m_class PyStr.isspace) m_ws_star.

(** [%Y] is [\d\d\d\d] *)
Definition re_Y : matcher :=
  m_cat m_digit (m_cat m_digit (m_cat m_digit m_digit)).

(** [%m] is [1[0-2]|0[1-9]|[1-9]] *)
Definition re_m : matcher :=
  m_alts [ m_cat (m_lit "1") (m_range "0" "2");
           m_cat (m_lit "0") (m_range "1" "9");
           m_range "1" "9" ].

(** [%d] is [3[0-1]|[1-2]\d|0[1-9]|[1-9]| [1-9]] *)
Definition re_d : matcher :=
  m_alts [ m_cat (m_lit "3") (m_range "0" "1");
           m_cat (m_range "1" "2") m_digit;
           m_cat (m_lit "0") (m_range "1" "9");
           m_range "1" "9";
           m_cat (m_lit " ") (m_range "1" "9") ].

(** [%H] is [2[0-3]|[0-1]\d|\d] *)
Definition re_H : matcher :=
  m_alts [ m_cat (m_lit "2") (m_range "0" "3");
           m_cat (m_range "0" "1") m_digit;
           m_digit ].

(** [%M] is [[0-5]\d|\d] *)
Definition re_M : matcher :=
  m_alts [ m_cat (m_range "0" "5") m_digit;
           m_digit ].

(** The groups of a sequence of sub-expressions, in order, with the text
    left after the match; an entry flagged [false] is a sub-expression that
    is not a group. *)
Fixpoint m_groups (ps : list (bool * matcher)) (s : string)
  : list (list string * string) :=
  match ps with
  | [] => [([], s)]
  | (g, p) :: ps' =>
      flat_map (fun '(a, r) =>
                  map (fun '(gs, r') => (if g then a :: gs else gs, r'))
                      (m_groups ps' r))
               (p s)
  end.

(** The expression of ["%Y-%m-%d"]. *)
Definition re_date : list (bool * matcher) :=
  [ (true, re_Y); (false, m_lit "-"); (true, re_m); (false, m_lit "-");
    (true, re_d) ].

(** The expression of ["%Y-%m-%d %H:%M"]; the blank of the format is
    [\s+]. *)
Definition re_datetime : list (bool * matcher) :=
  (re_date ++ [ (false, m_ws_plus); (true, re_H); (false, m_lit ":");
                (true, re_M) ])%list.

(** [re.match] followed by the test for unconverted data. *)
Definition full_match (ps : list (bool * matcher)) (s : string)
  : res (list string) :=
  match m_groups ps s with
  | [] => Raise ValueError
  | (gs, EmptyString) :: _ => Ret gs
  | (_, String _ _) :: _ => Raise ValueError
  end.

(** [datetime.strptime(s, "%Y-%m-%d").date()] *)
Definition strptime_date (s : string) : res date :=
  gs <- full_match re_date s ;;
  match gs with
  | [Y; m; d] =>
      y' <- PyStr.int Y ;; m' <- PyStr.int m ;; d' <- PyStr.int d ;;
      make y' m' d'
  | _ => Raise ValueError
  end.

(** [datetime.strptime(s, "%Y-%m-%d %H:%M")] *)
Definition strptime_datetime (s : string) : res datetime :=
  gs <- full_match re_datetime s ;;
  match gs with
  | [Y; m; d; H; M] =>
      y' <- PyStr.int Y ;; m' <- PyStr.int m ;; d' <- PyStr.int d ;;
      H' <- PyStr.int H ;; M' <- PyStr.int M ;;
      dd <- make y' m' d' ;;
      dt_make dd H' M'
  | _ => Raise ValueError
  end.

(** A test used to check the two-digit fields over their whole range:
    the printed field reads back as its value. *)
Definition check_fmt2 (n : Z) : bool :=
  match PyStr.int (PyStr.fmt_0d 2 n) with
  | Ret v => v =? n
  | Raise _ => false
  end.

End PyStrptime.

Import PyDate PyStrptime.

(* ================================================================== *)
(** ** Values returned to the caller *)

#[warnings="-register-all"]
Inductive pyval : Type :=
| VStr (s : string)
| VInt (n : Z)
| VNone
| VList (l : list string)
| VStrDict (d : PyDict.dict string)
| VDict (d : list (string * pyval)).

(** [f"{x}"] of an [Optional[str]] *)
Definition fmt_opt (x : option string) : string :=
  match x with Some s => s | None => "None" end.

Definition val_opt (x : option string) : pyval :=
  match x with Some s => VStr s | None => VNone end.

(* ================================================================== *)
(** ** [uuid.UUID.__str__] *)

Module PyUuid.

Definition hex_char (d : N) : ascii :=
  if (d <? 10)%N then ascii_of_N (48 + d) else ascii_of_N (87 + d).

(** The [k] lowest hexadecimal digits of [n], most significant first. *)
Fixpoint hex_digits (k : nat) (n : N) (acc : string) : string :=
  match k with
  | O => acc
  | S k' => hex_digits k' (n / 16)%N (String (hex_char (n mod 16)%N) acc)
  end.

(** ['%032x' % n] for [n < 2^128] *)
Definition hex32 (n : N) : string := hex_digits 32 n "".

(** [str(u)] for the UUID whose [int] is [n] *)
Definition str (n : N) : string :=
  let h := hex32 n in
  substring 0 8 h ++ "-" ++ substring 8 4 h ++ "-" ++ substring 12 4 h
  ++ "-" ++ substring 16 4 h ++ "-" ++ substring 20 12 h.

End PyUuid.

(* ================================================================== *)
(** ** [medical_scheduling_tools.py] *)

(** [MEDICAL_APPOINTMENT_SCHEDULE : Dict[str, Dict[str, str]]] *)
Definition schedule : Type := PyDict.dict (PyDict.dict string).

Definition OFFICE_HOURS_start_hour : Z := 8.
Definition OFFICE_HOURS_end_hour : Z := 17.
Definition OFFICE_HOURS_appointment_duration : Z := 1.

(** [[f"{hour:02d}:00" for hour in range(start_hour, end_hour)]] *)
Definition available_time_slots : list string :=
  map (fun hour => PyStr.fmt_0d 2 hour ++ ":00")
      (py_range OFFICE_HOURS_start_hour OFFICE_HOURS_end_hour).

(** [initialize_medical_schedule()], with [today] the value of
    [date.today()].  Each day receives a dictionary of its own. *)
Definition initialize_medical_schedule (today : date) (sched : schedule)
  : res schedule :=
  for_each (py_range 0 7)
    (fun day_offset sched =>
       schedule_date <- add_days today day_offset ;;
       let date_key := strftime schedule_date in
       Ret (PyDict.set sched date_key
              (PyDict.comprehension available_time_slots
                 (fun _ => "available"))))
    sched.

(** The module is loaded with an empty schedule. *)
Definition module_load (today : date) : res schedule :=
  initialize_medical_schedule today [].

Definition error_result (message error_code : string)
  : PyDict.dict pyval :=
  [ ("status", VStr "error"); ("message", VStr message);
    ("error_code", VStr error_code) ].

(** The dictionary returned for a date without slots. *)
Definition empty_report (appointment_date : string) : PyDict.dict pyval :=
  [ ("status", VStr "success");
    ("message", VStr ("No appointment slots configured for "
                      ++ appointment_date ++ "."));
    ("available_slots", VList []);
    ("booked_appointments", VStrDict []);
    ("total_slots", VInt 0) ].

(** The dictionary returned for a date with slots. *)
Definition day_report (appointment_date : string)
  (available_time_slots : list string)
  (booked_appointments : PyDict.dict string) (total_slots : Z)
  : PyDict.dict pyval :=
  [ ("status", VStr "success");
    ("message", VStr ("Medical appointment schedule for "
                      ++ appointment_date ++ "."));
    ("available_slots", VList available_time_slots);
    ("booked_appointments", VStrDict booked_appointments);
    ("total_slots", VInt total_slots);
    ("available_count", VInt (Z.of_nat (List.length available_time_slots)));
    ("booked_count", VInt (PyDict.len booked_appointments)) ].

(** [list_appointment_availabilities(appointment_date)]; [today] is the
    value of [date.today()] at the call.  The function reads the
    schedule and assigns to nothing. *)
Definition list_appointment_availabilities
  (today : date) (sched : schedule) (appointment_date : string)
  : res (PyDict.dict pyval) :=
  match strptime_date appointment_date with
  | Raise ValueError =>
      Ret (error_result
             "Invalid date format. Please provide date in YYYY-MM-DD format."
             "INVALID_DATE_FORMAT")
  | Raise e => Raise e
  | Ret parsed_date =>
      if ltb parsed_date today then
        Ret (error_result
               ("Cannot check availability for past date: "
                ++ appointment_date)
               "PAST_DATE_NOT_ALLOWED")
      else
        match PyDict.get sched appointment_date with
        | None | Some [] =>
            Ret (empty_report appointment_date)
        | Some daily_appointment_schedule =>
            let available_time_slots :=
              map fst (filter (fun '(_, booking_status) =>
                                 String.eqb booking_status "available")
                              daily_appointment_schedule) in
            let booked_appointments :=
              PyDict.from_items
                (filter (fun '(_, patient_info) =>
                           negb (String.eqb patient_info "available"))
                        daily_appointment_schedule) in
            Ret (day_report appointment_date available_time_slots
                   booked_appointments
                   (PyDict.len daily_appointment_schedule))
        end
  end.

(** The loop

    [while current_slot_time < appointment_end:
         required_time_slots.append(current_slot_time.strftime("%H:%M"))
         current_slot_time += timedelta(hours=1)]

    run for at most [fuel] tests of its condition; [None] is a loop
    that is still running then. *)
Fixpoint slots_loop (fuel : nat) (current_slot_time appointment_end : datetime)
  (required_time_slots : list string) : option (res (list string)) :=
  match fuel with
  | O => None
  | S fuel' =>
      if dt_ltb current_slot_time appointment_end then
        match dt_add_hours current_slot_time
                OFFICE_HOURS_appointment_duration with
        | Ret next =>
            slots_loop fuel' next appointment_end
              (required_time_slots ++ [strftime_HM current_slot_time])%list
        | Raise e => Some (Raise e)
        end
      else Some (Ret required_time_slots)
  end.

(** Minutes since the start of day 0 of the proleptic calendar. *)
Definition dt_minutes (t : datetime) : Z :=
  (toordinal (dt_date t) * 24 + hour t) * 60 + minute t.

(** A number of condition tests that the loop cannot exceed: every
    iteration moves [current_slot_time] forward by one hour. *)
Definition slots_fuel (appointment_start appointment_end : datetime) : nat :=
  S (Z.to_nat ((dt_minutes appointment_end - dt_minutes appointment_start + 59)
               / 60)).

Definition calc_required_time_slots
  (appointment_start appointment_end : datetime)
  : option (res (list string)) :=
  slots_loop (slots_fuel appointment_start appointment_end)
    appointment_start appointment_end [].

(** The first slot of the span that is not ["available"], with the
    occupant the code reports for it:

    [for time_slot in required_time_slots:
         if daily_schedule.get(time_slot, "booked") != "available":
             existing_patient = daily_schedule.get(time_slot, "unknown patient")
             return {...}] *)
Fixpoint first_conflict (daily_schedule : PyDict.dict string)
  (required_time_slots : list string) : option (string * string) :=
  match required_time_slots with
  | [] => None
  | time_slot :: rest =>
      if negb (String.eqb (PyDict.get_default daily_schedule time_slot "booked")
                          "available")
      then Some (time_slot,
                 PyDict.get_default daily_schedule time_slot "unknown patient")
      else first_conflict daily_schedule rest
  end.

(** The dictionary returned for a slot that is taken. *)
Definition slot_conflict_result
  (appointment_date time_slot existing_patient : string) : PyDict.dict pyval :=
  [ ("status", VStr "error");
    ("message",
      VStr ("Appointment slot " ++ time_slot ++ " on " ++ appointment_date
            ++ " is already booked for " ++ existing_patient ++ "."));
    ("error_code", VStr "SLOT_ALREADY_BOOKED");
    ("conflicting_slot", VStr time_slot);
    ("existing_patient", VStr existing_patient) ].

(** The dictionary returned for a booking. *)
Definition booking_success_result
  (appointment_id patient_name : string) (appointment_type : option string)
  (appointment_date start_time end_time : string)
  (required_time_slots : list string) : PyDict.dict pyval :=
  [ ("status", VStr "success");
    ("message",
      VStr ("Medical appointment successfully booked for "
            ++ patient_name ++ "."));
    ("appointment_details",
      VDict
        [ ("appointment_id", VStr appointment_id);
          ("patient_name", VStr patient_name);
          ("appointment_type", val_opt appointment_type);
          ("date", VStr appointment_date);
          ("start_time", VStr start_time);
          ("end_time", VStr end_time);
          ("duration_hours",
            VInt (Z.of_nat (List.length required_time_slots)));
          ("booked_slots", VList required_time_slots) ]) ].

(** [appointment_id = str(uuid.uuid4())[:8]] *)
Definition booking_id (uuid4 : N) : string := substring 0 8 (PyUuid.str uuid4).

(** [patient_booking_info = f"{patient_name} ({appointment_type})"] *)
Definition booking_info (patient_name : string)
  (appointment_type : option string) : string :=
  patient_name ++ " (" ++ fmt_opt appointment_type ++ ")".

(** [MEDICAL_APPOINTMENT_SCHEDULE[appointment_date][time_slot] = info]:
    the day's dictionary is updated in place, so the schedule sees it. *)
Definition book_slot (appointment_date patient_booking_info : string)
  (time_slot : string) (sched : schedule) : res schedule :=
  daily <- PyDict.getitem sched appointment_date ;;
  Ret (PyDict.set sched appointment_date
         (PyDict.set daily time_slot patient_booking_info)).

(** [book_medical_appointment(appointment_date, start_time, end_time,
    patient_name, appointment_type)]; [uuid4] is the [int] of the value
    [uuid.uuid4()] returns.  The result is the returned dictionary and
    the schedule after the call.  The function reads no clock. *)
Definition book_medical_appointment (uuid4 : N) (sched : schedule)
  (appointment_date start_time end_time patient_name : string)
  (appointment_type : option string)
  : option (res (PyDict.dict pyval * schedule)) :=
  if negb (PyStr.truthy patient_name)
     || negb (PyStr.truthy (PyStr.strip patient_name))
  then
    Some (Ret (error_result
                 "Patient name is required to book an appointment."
                 "MISSING_PATIENT_NAME", sched))
  else
    match
      (appointment_start <-
         strptime_datetime (appointment_date ++ " " ++ start_time) ;;
       appointment_end <-
         strptime_datetime (appointment_date ++ " " ++ end_time) ;;
       Ret (appointment_start, appointment_end))
    with
    | Raise ValueError =>
        Some (Ret (error_result
                     "Invalid date or time format. Please use YYYY-MM-DD for date and HH:MM for time."
                     "INVALID_DATETIME_FORMAT", sched))
    | Raise e => Some (Raise e)
    | Ret (appointment_start, appointment_end) =>
        if dt_geb appointment_start appointment_end then
          Some (Ret (error_result
                       "Appointment start time must be before end time."
                       "INVALID_TIME_RANGE", sched))
        else if negb (PyDict.contains sched appointment_date) then
          Some (Ret (error_result
                       ("No appointment slots available on "
                        ++ appointment_date ++ ".")
                       "DATE_NOT_AVAILABLE", sched))
        else
          match calc_required_time_slots appointment_start appointment_end with
          | None => None
          | Some (Raise e) => Some (Raise e)
          | Some (Ret required_time_slots) =>
              let daily_schedule :=
                PyDict.get_default sched appointment_date [] in
              match first_conflict daily_schedule required_time_slots with
              | Some (time_slot, existing_patient) =>
                  Some (Ret (slot_conflict_result appointment_date time_slot
                               existing_patient, sched))
              | None =>
                  let appointment_id := booking_id uuid4 in
                  let patient_booking_info :=
                    booking_info patient_name appointment_type in
                  match for_each required_time_slots
                          (book_slot appointment_date patient_booking_info)
                          sched with
                  | Raise e => Some (Raise e)
                  | Ret sched' =>
                      Some (Ret
                        (booking_success_result appointment_id patient_name
                           appointment_type appointment_date start_time
                           end_time required_time_slots, sched'))
                  end
              end
          end
    end.

(* ================================================================== *)
(** ** [sorted] on lists of [str] *)

Fixpoint insert_sorted (x : string) (l : list string) : list string :=
  match l with
  | [] => [x]
  | y :: r => if String.leb x y then x :: l else y :: insert_sorted x r
  end.

(** [sorted(l)]: the elements of [l] in code point order (an insertion
    sort; it is stable, as Python's sort is). *)
Definition sorted (l : list string) : list string :=
  fold_right insert_sorted [] l.

(** Truth value of a list. *)
Definition list_truthy {A : Type} (l : list A) : bool :=
  match l with [] => false | _ => true end.

(** U+1F4C5, which the messages of the neurologist's tool start with;
    it is outside the alphabet of the model and carried as its UTF-8
    bytes. *)
Definition CALENDAR : string :=
  String "240" (String "159" (String "147" (String "133" ""))).

(* ================================================================== *)
(** ** [neurologist_agent_adk/agent.py] *)

Module Neurologist.

Definition office_hours_start : Z := 8.
Definition office_hours_end : Z := 17.
Definition slots_per_day : Z := 6.
Definition schedule_days_ahead : Z := 7.

Definition office_time_slots : list string :=
  map (fun hour => PyStr.fmt_0d 2 hour ++ ":00")
      (py_range office_hours_start office_hours_end).

(** [initialize_neurologist_appointment_schedule()]; [sample day_offset]
    is what [random.sample(office_time_slots, slots_per_day)] returns in
    the iteration for [day_offset].  (The [print] is not modelled.) *)
Definition initialize_neurologist_appointment_schedule
  (today : date) (sample : Z -> list string)
  : res (PyDict.dict (list string)) :=
  for_each (py_range 0 schedule_days_ahead)
    (fun day_offset appointment_schedule =>
       schedule_date <- add_days today day_offset ;;
       let date_key := strftime schedule_date in
       let available_appointment_slots := sorted (sample day_offset) in
       Ret (PyDict.set appointment_schedule date_key
              available_appointment_slots))
    [].

(** The body of the loop over the days of the range: the line appended
    to [availability_results] for [date_string]. *)
Definition day_availability (sched : PyDict.dict (list string))
  (date_string : string) : string :=
  let available_time_slots := PyDict.get_default sched date_string [] in
  if list_truthy available_time_slots then
    CALENDAR ++ " " ++ date_string ++ ": Neurologist available at "
    ++ PyStr.join ", " available_time_slots ++ " for consultations."
  else
    CALENDAR ++ " " ++ date_string
    ++ ": No neurologist appointment slots available.".

Definition MSG_RANGE : string :=
  "Error: Start date cannot be after end date. Please provide a valid date range.".
Definition MSG_PAST : string :=
  "Error: Cannot check availability for past dates. Please provide future dates.".
Definition MSG_FORMAT : string :=
  "Error: Invalid date format detected. Please use YYYY-MM-DD format for both start and end dates (e.g., 2024-03-15).".

(** [check_neurologist_appointment_availability(requested_start_date,
    requested_end_date)] against [NEUROLOGIST_APPOINTMENT_SCHEDULE];
    [today] is the value of [date.today()].  The function returns text
    and assigns to nothing. *)
Definition check_neurologist_appointment_availability
  (today : date) (sched : PyDict.dict (list string))
  (requested_start_date requested_end_date : string) : res string :=
  match
    (start_date_obj <- strptime_date requested_start_date ;;
     end_date_obj <- strptime_date requested_end_date ;;
     if gtb start_date_obj end_date_obj then Ret MSG_RANGE
     else if ltb end_date_obj today then Ret MSG_PAST
     else
       let date_range_delta := sub_days end_date_obj start_date_obj in
       availability_results <-
         for_each (py_range 0 (date_range_delta + 1))
           (fun day_offset availability_results =>
              check_date <- add_days start_date_obj day_offset ;;
              let date_string := strftime check_date in
              Ret (availability_results
                   ++ [day_availability sched date_string])%list)
           [] ;;
       Ret (if list_truthy availability_results
            then PyStr.join PyStr.LF availability_results
            else "No availability data found."))
  with
  | Raise ValueError => Ret MSG_FORMAT
  | r => r
  end.

End Neurologist.

(* ================================================================== *)
(** ** [pulmonologist_agent_crewai/agent.py] *)

Module Pulmonologist.

Definition possible_times : list string :=
  map (fun h => PyStr.fmt_0d 2 h ++ ":00") (py_range 8 17).

(** [generate_appointment_schedule()]; [sample i] is what
    [random.sample(possible_times, 6)] returns in iteration [i]. *)
Definition generate_appointment_schedule
  (today : date) (sample : Z -> list string)
  : res (PyDict.dict (list string)) :=
  for_each (py_range 0 7)
    (fun i schedule =>
       current_date <- add_days today i ;;
       let date_str := strftime current_date in
       let available_slots := sorted (sample i) in
       Ret (PyDict.set schedule date_str available_slots))
    [].

Definition availability (sched : PyDict.dict (list string))
  (date_str : string) : string :=
  let available_slots := PyDict.get_default sched date_str [] in
  if list_truthy available_slots then
    "On " ++ date_str
    ++ ", the pulmonologist has available appointment slots at: "
    ++ PyStr.join ", " available_slots ++ "."
  else "No appointment slots available on " ++ date_str ++ ".".

Definition MSG_RANGE : string :=
  "Invalid date range. The start date cannot be after the end date.".
Definition MSG_FORMAT : string :=
  "I couldn't understand the date. Please provide appointment availability request for a date like 'YYYY-MM-DD'.".

(** [AppointmentAvailabilityTool._run(date_range)] against
    [PULMONOLOGIST_SCHEDULE]. *)
Definition _run (sched : PyDict.dict (list string)) (date_range : string)
  : res string :=
  let dates_to_check := map PyStr.strip (PyStr.split "to" date_range) in
  let start_date_str := hd "" dates_to_check in
  let end_date_str := last dates_to_check "" in
  match
    (start <- strptime_date start_date_str ;;
     end_ <- strptime_date end_date_str ;;
     if gtb start end_ then Ret MSG_RANGE
     else
       let delta := sub_days end_ start in
       results <-
         for_each (py_range 0 (delta + 1))
           (fun i results =>
              day <- add_days start i ;;
              let date_str := strftime day in
              Ret (results ++ [availability sched date_str])%list)
           [] ;;
       Ret (PyStr.join PyStr.LF results))
  with
  | Raise ValueError => Ret MSG_FORMAT
  | r => r
  end.

End Pulmonologist.

(* ================================================================== *)
(** ** Vocabulary of the properties *)

(** The slot of a date and a time: [None] when there is no such slot. *)
Definition slot_state (sched : schedule) (d t : string) : option string :=
  match PyDict.get sched d with
  | Some daily => PyDict.get daily t
  | None => None
  end.

(** The day's dictionary after the commit loop
    [for time_slot in required_time_slots: ...[time_slot] = info]. *)
Definition commit (daily : PyDict.dict string) (slots : list string)
  (info : string) : PyDict.dict string :=
  fold_left (fun d s => PyDict.set d s info) slots daily.

(** The key of the slot [k] hours after [t]. *)
Definition slot_key (t : datetime) (k : nat) : string :=
  PyStr.fmt_0d 2 ((hour t + Z.of_nat k) mod 24) ++ ":"
  ++ PyStr.fmt_0d 2 (minute t).

(** The number of [k >= 0] with [a + k hours < b]. *)
Definition span_length (a b : datetime) : nat :=
  Z.to_nat ((dt_minutes b - dt_minutes a + 59) / 60).

(** The dictionary every day gets from [initialize_medical_schedule]. *)
Definition fresh_day : PyDict.dict string :=
  PyDict.comprehension available_time_slots (fun _ => "available").

(** The dates [start + timedelta(days=i)] for [i] in [range(n)]. *)
Definition days_from (start : date) (n : nat) : list date :=
  flat_map (fun i => match add_days_nat start i with
                     | Ret d => [d]
                     | Raise _ => []
                     end)
           (seq 0 n).

(** Fields of a returned dictionary. *)
Definition status_of (r : PyDict.dict pyval) : option pyval :=
  PyDict.get r "status".

Definition error_code_of (r : PyDict.dict pyval) : option pyval :=
  PyDict.get r "error_code".

Definition details_of (r : PyDict.dict pyval) (field : string)
  : option pyval :=
  match PyDict.get r "appointment_details" with
  | Some (VDict details) => PyDict.get details field
  | _ => None
  end.

Definition booked_slots_of (r : PyDict.dict pyval) : list string :=
  match details_of r "booked_slots" with
  | Some (VList slots) => slots
  | _ => []
  end.

(** The requests the scheduling tools serve, with the values of the
    clock and of the random source at each call. *)
Inductive request : Type :=
| ListAvailability (today : date) (appointment_date : string)
| BookAppointment (uuid4 : N)
    (appointment_date start_time end_time patient_name : string)
    (appointment_type : option string).

(** The schedule after a request.  A call that raises has assigned
    nothing. *)
Definition handle (sched : schedule) (q : request) : schedule :=
  match q with
  | ListAvailability _ _ => sched
  | BookAppointment uuid4 d st et name type =>
      match book_medical_appointment uuid4 sched d st et name type with
      | Some (Ret (_, sched')) => sched'
      | _ => sched
      end
  end.

Definition run (sched : schedule) (qs : list request) : schedule :=
  fold_left handle qs sched.

(** Every day's dictionary of a schedule is a dictionary. *)
Definition schedule_wf (sched : schedule) : Prop :=
  PyDict.wf sched /\ Forall (fun kv => PyDict.wf (snd kv)) sched.

(** The text YYYY-MM-DD of a date, the year zero-filled to four digits
    (what [date.isoformat()] returns): the form in which a request names
    a date.  The code never prints it; from the year 1000 on it is what
    [strftime] prints. *)
Definition isoformat (d : date) : string :=
  PyStr.fmt_0d 4 (year d) ++ "-" ++ PyStr.fmt_0d 2 (month d) ++ "-"
  ++ PyStr.fmt_0d 2 (day d).

(** Whether [t] is one of [slots]. *)
Definition mem(t : string) (slots : list string) : bool :=
  if in_dec string_dec t slots then true else false.

(** Whether the slot [t] of a day is free. *)
Definition is_available (daily : PyDict.dict string) (t : string) : bool :=
  match PyDict.get daily t with
  | Some v => String.eqb v "available"
  | None => false
  end.

(** What holds of the schedule of the module at any time: its keys are
    the seven days from the day it was loaded, as [strftime] prints
    them, every day has the office
    hours as keys, and a slot holds either the marker of a free slot or
    what a booking request served so far has stored. *)
Definition calendar_shape (today : date) (qs : list request)
  (sched : schedule) : Prop :=
  PyDict.keys sched = map strftime (days_from today 7)
  /\ forall d daily,
       PyDict.get sched d = Some daily ->
       PyDict.keys daily = available_time_slots
       /\ forall t v,
            PyDict.get daily t = Some v ->
            v = "available"
            \/ exists uuid4 st et name type,
                 In (BookAppointment uuid4 d st et name type) qs
                 /\ v = booking_info name type.

Fixpoint all_chars (p : ascii -> bool) (s : string) : bool :=
  match s with
  | EmptyString => true
  | String c r => p c && all_chars p r
  end.

(** A character that is neither white space nor the letter t. *)
Definition date_char (c : ascii) : bool :=
  negb (PyStr.isspace c) && negb (Ascii.eqb c "t").

(** A draw of six times a day, and the read-only schedule made of it on
    2024-07-01. *)
Definition scenario_sample (day_offset : Z) : list string :=
  ["16:00"; "09:00"; "12:00"; "08:00"; "14:00"; "10:00"].

Definition scenario_neurologist : PyDict.dict (list string) :=
  match Neurologist.initialize_neurologist_appointment_schedule
          (mkdate 2024 7 1) scenario_sample with
  | Ret s => s
  | Raise _ => []
  end.

(** The scenario of the specification: office hours 08:00-17:00, the
    schedule initialised on 2024-07-01, and Jane Doe's booking of
    09:00-11:00 on that day. *)
Definition jul1 : date := mkdate 2024 7 1.

Definition scenario_schedule : schedule :=
  match module_load jul1 with Ret s => s | Raise _ => [] end.

Definition scenario_booked : schedule :=
  match book_medical_appointment 0 scenario_schedule "2024-07-01" "09:00"
          "11:00" "Jane Doe" (Some "consultation") with
  | Some (Ret (_, s)) => s
  | _ => []
  end.

(** That schedule after John Roe's booking of 11:00-12:00 on the same
    day. *)
Definition scenario_booked_twice : schedule :=
  match book_medical_appointment 1 scenario_booked "2024-07-01" "11:00"
          "12:00" "John Roe" (Some "follow-up") with
  | Some (Ret (_, s)) => s
  | _ => []
  end.

(** That schedule, initialised again two days later. *)
Definition scenario_reinitialised : schedule :=
  match initialize_medical_schedule (mkdate 2024 7 3) scenario_booked with
  | Ret s => s
  | Raise _ => []
  end.

(* ================================================================== *)
(** * Properties *)

(** ** Dictionaries *)

Module PyDictFacts.
Import PyDict.

Lemma get_set_same {V : Type} (d : dict V) k v :
  get (set d k v) k = Some v.
Proof.
  induction d as [|[k' v'] r IH]; simpl.
  - now rewrite String.eqb_refl.
  - destruct (String.eqb k k') eqn:E; simpl; rewrite E; auto.
Qed.

Lemma get_set_other {V : Type} (d : dict V) k k' v :
  k <> k' -> get (set d k v) k' = get d k'.
Proof.
  intros N. induction d as [|[k0 v0] r IH]; simpl.
  - destruct (String.eqb_spec k' k); congruence.
  - destruct (String.eqb_spec k k0) as [->|]; simpl.
    + destruct (String.eqb_spec k' k0); congruence.
    + now rewrite IH.
Qed.

Lemma get_set {V : Type} (d : dict V) k k' v :
  get (set d k v) k' = if String.eqb k k' then Some v else get d k'.
Proof.
  destruct (String.eqb_spec k k') as [->|N].
  - apply get_set_same.
  - now apply get_set_other.
Qed.

Lemma keys_set_present {V : Type} (d : dict V) k v :
  get d k <> None -> keys (set d k v) = keys d.
Proof.
  unfold keys. induction d as [|[k0 v0] r IH]; simpl; [congruence|].
  destruct (String.eqb_spec k k0); simpl; intros H; [reflexivity|].
  now rewrite IH.
Qed.

Lemma set_same_value {V : Type} (d : dict V) k v :
  get d k = Some v -> set d k v = d.
Proof.
  induction d as [|[k0 v0] r IH]; simpl; [congruence|].
  destruct (String.eqb_spec k k0) as [->|]; intros H.
  - congruence.
  - now rewrite IH.
Qed.

Lemma get_In {V : Type} (d : dict V) k v : get d k = Some v -> In (k, v) d.
Proof.
  induction d as [|[k0 v0] r IH]; simpl; [congruence|].
  destruct (String.eqb_spec k k0) as [->|]; intros H.
  - left. congruence.
  - right. auto.
Qed.

Lemma get_In_keys {V : Type} (d : dict V) k :
  get d k <> None <-> In k (keys d).
Proof.
  unfold keys. induction d as [|[k0 v0] r IH]; simpl.
  - split; [congruence | tauto].
  - destruct (String.eqb_spec k k0) as [->|N].
    + split; [auto | congruence].
    + rewrite IH. split; [auto | intros [E|H]; congruence].
Qed.

Lemma In_get {V : Type} (d : dict V) k v :
  wf d -> In (k, v) d -> get d k = Some v.
Proof.
  unfold wf, keys. induction d as [|[k0 v0] r IH]; simpl; [tauto|].
  intros W [E|H].
  - inversion E; subst. now rewrite String.eqb_refl.
  - inversion W as [|? ? Hn Hr]; subst.
    destruct (String.eqb_spec k k0) as [->|].
    + exfalso. apply Hn. now apply (in_map fst) in H.
    + auto.
Qed.

Lemma keys_set {V : Type} (d : dict V) k v :
  keys (set d k v) = if contains d k then keys d else (keys d ++ [k])%list.
Proof.
  unfold contains, keys. induction d as [|[k0 v0] r IH]; simpl; [reflexivity|].
  destruct (String.eqb_spec k k0) as [->|]; simpl; [reflexivity|].
  rewrite IH. now destruct (get r k).
Qed.

Lemma wf_set {V : Type} (d : dict V) k v : wf d -> wf (set d k v).
Proof.
  unfold wf. rewrite keys_set. unfold contains.
  destruct (get d k) eqn:E; [auto|].
  intros W. apply NoDup_app; [assumption | repeat constructor; simpl; tauto |].
  intros x Hx [<-|[]]. apply get_In_keys in Hx. congruence.
Qed.

End PyDictFacts.

(** ** The calendar *)

Module PyDateFacts.
Import PyDate.

Ltac Zify.zify_post_hook ::= Z.to_euclidean_division_equations.

Lemma days_before_year_succ y :
  days_before_year (y + 1)
  = days_before_year y + (if is_leap y then 366 else 365).
Proof.
  unfold days_before_year, is_leap.
  destruct (Z.eqb_spec (y mod 4) 0), (Z.eqb_spec (y mod 100) 0),
    (Z.eqb_spec (y mod 400) 0); simpl; lia.
Qed.

Lemma days_before_year_mono a b :
  a <= b -> days_before_year a <= days_before_year b.
Proof. unfold days_before_year. lia. Qed.

Ltac month_cases m :=
  let H := fresh in
  assert (H : m = 1 \/ m = 2 \/ m = 3 \/ m = 4 \/ m = 5 \/ m = 6 \/ m = 7
              \/ m = 8 \/ m = 9 \/ m = 10 \/ m = 11 \/ m = 12) by lia;
  repeat (destruct H as [H|H]); subst m.

Lemma days_before_month_succ y m :
  1 <= m < 12 ->
  days_before_month y (m + 1) = days_before_month y m + days_in_month y m.
Proof.
  intros H. unfold days_before_month, days_in_month.
  month_cases m; try lia; destruct (is_leap y); reflexivity.
Qed.

Lemma days_in_month_pos y m : 1 <= m <= 12 -> 28 <= days_in_month y m <= 31.
Proof.
  intros H. unfold days_in_month.
  month_cases m; destruct (is_leap y); simpl; lia.
Qed.

Lemma days_before_month_bounds y m :
  1 <= m <= 12 ->
  0 <= days_before_month y m
  /\ days_before_month y m + days_in_month y m
     <= (if is_leap y then 366 else 365).
Proof.
  intros H. unfold days_before_month, days_in_month.
  month_cases m; destruct (is_leap y); simpl; lia.
Qed.

Lemma days_before_month_mono y m m' :
  1 <= m -> m < m' -> m' <= 12 ->
  days_before_month y m + days_in_month y m <= days_before_month y m'.
Proof.
  intros H1 H2 H3. unfold days_before_month, days_in_month.
  month_cases m; month_cases m'; try lia; destruct (is_leap y); simpl; lia.
Qed.

Lemma valid_iff d :
  valid d = true <->
  1 <= year d <= 9999 /\ 1 <= month d <= 12
  /\ 1 <= day d <= days_in_month (year d) (month d).
Proof. unfold valid, MINYEAR, MAXYEAR. lia. Qed.

Lemma compare_lt_iff a b :
  compare a b = Lt <->
  year a < year b
  \/ (year a = year b /\ (month a < month b
                          \/ (month a = month b /\ day a < day b))).
Proof.
  unfold compare.
  destruct (Z.compare_spec (year a) (year b));
    destruct (Z.compare_spec (month a) (month b));
    destruct (Z.compare_spec (day a) (day b));
    split; intros; try discriminate; try reflexivity; lia.
Qed.

Lemma ltb_iff a b :
  ltb a b = true <->
  year a < year b
  \/ (year a = year b /\ (month a < month b
                          \/ (month a = month b /\ day a < day b))).
Proof.
  rewrite <- compare_lt_iff. unfold ltb.
  destruct (compare a b); split; congruence.
Qed.

Lemma toordinal_mono a b :
  valid a = true -> valid b = true -> ltb a b = true ->
  toordinal a < toordinal b.
Proof.
  rewrite !valid_iff, ltb_iff. unfold toordinal.
  destruct a as [ya ma da], b as [yb mb db]; simpl.
  intros (Hy & Hm & Hd) (Hy' & Hm' & Hd') [L|[-> [L|[-> L]]]].
  - pose proof (days_before_month_bounds ya ma Hm).
    pose proof (days_before_month_bounds yb mb Hm').
    pose proof (days_before_year_succ ya).
    pose proof (days_before_year_mono (ya + 1) yb).
    destruct (is_leap ya); lia.
  - pose proof (days_before_month_mono yb ma mb). lia.
  - lia.
Qed.

Lemma ltb_irrefl a : ltb a a = false.
Proof.
  destruct (ltb a a) eqn:E; [|reflexivity]. apply ltb_iff in E. lia.
Qed.

Lemma ltb_trans a b c : ltb a b = true -> ltb b c = true -> ltb a c = true.
Proof. rewrite !ltb_iff. lia. Qed.

Lemma ltb_total a b : ltb a b = true \/ a = b \/ ltb b a = true.
Proof.
  rewrite !ltb_iff. destruct a as [ya ma da], b as [yb mb db]; simpl.
  destruct (Z.lt_total ya yb) as [|[->|]]; [lia| |lia].
  destruct (Z.lt_total ma mb) as [|[->|]]; [lia| |lia].
  destruct (Z.lt_total da db) as [|[->|]]; [lia| |lia].
  right. left. reflexivity.
Qed.

Lemma toordinal_inj a b :
  valid a = true -> valid b = true -> toordinal a = toordinal b -> a = b.
Proof.
  intros Va Vb E. destruct (ltb_total a b) as [L|[->|L]]; [|reflexivity|];
    apply toordinal_mono in L; auto; lia.
Qed.

Lemma toordinal_max : toordinal max = MAXORDINAL.
Proof. reflexivity. Qed.

Lemma tomorrow_ret d d' :
  valid d = true -> tomorrow d = Ret d' ->
  valid d' = true /\ toordinal d' = toordinal d + 1 /\ ltb d d' = true.
Proof.
  rewrite valid_iff. intros (Hy & Hm & Hd). unfold tomorrow, MAXYEAR.
  destruct (Z.ltb_spec (day d) (days_in_month (year d) (month d))).
  { intros [= <-]. rewrite valid_iff, ltb_iff. unfold toordinal. simpl. lia. }
  destruct (Z.ltb_spec (month d) 12).
  { intros [= <-]. rewrite valid_iff, ltb_iff. unfold toordinal. simpl.
    pose proof (days_in_month_pos (year d) (month d + 1)).
    pose proof (days_before_month_succ (year d) (month d)). lia. }
  destruct (Z.ltb_spec (year d) 9999); [|discriminate].
  intros [= <-]. rewrite valid_iff, ltb_iff. unfold toordinal. simpl.
  assert (month d = 12) as Em by lia. rewrite Em in *.
  pose proof (days_before_year_succ (year d)).
  unfold days_before_month, days_in_month in *. simpl in *.
  destruct (is_leap (year d)); simpl in *; lia.
Qed.

Lemma tomorrow_raise d e :
  valid d = true -> tomorrow d = Raise e -> d = max /\ e = OverflowError.
Proof.
  rewrite valid_iff. intros (Hy & Hm & Hd). unfold tomorrow, MAXYEAR.
  destruct (Z.ltb_spec (day d) (days_in_month (year d) (month d)));
    [discriminate|].
  destruct (Z.ltb_spec (month d) 12); [discriminate|].
  destruct (Z.ltb_spec (year d) 9999); [discriminate|].
  intros [= <-]. split; [|reflexivity].
  destruct d as [y m dd]; simpl in *.
  assert (y = 9999) as -> by lia. assert (m = 12) as -> by lia.
  change (days_in_month 9999 12) with 31 in *. unfold max. f_equal. lia.
Qed.

Lemma add_days_nat_ret d n d' :
  valid d = true -> add_days_nat d n = Ret d' ->
  valid d' = true /\ toordinal d' = toordinal d + Z.of_nat n.
Proof.
  revert d. induction n as [|n IH]; intros d V; simpl.
  - intros [= <-]. split; [assumption | lia].
  - destruct (tomorrow d) as [d1|] eqn:T; simpl; [|discriminate].
    destruct (tomorrow_ret _ _ V T) as (V1 & O1 & _).
    intros H. destruct (IH _ V1 H) as (V' & O'). split; [assumption | lia].
Qed.

Lemma add_days_nat_raise d n e :
  valid d = true -> add_days_nat d n = Raise e ->
  e = OverflowError /\ MAXORDINAL < toordinal d + Z.of_nat n.
Proof.
  revert d. induction n as [|n IH]; intros d V; simpl; [discriminate|].
  destruct (tomorrow d) as [d1|e1] eqn:T; simpl.
  - destruct (tomorrow_ret _ _ V T) as (V1 & O1 & _).
    intros H. destruct (IH _ V1 H) as (-> & L). split; [reflexivity | lia].
  - intros [= <-]. destruct (tomorrow_raise _ _ V T) as (-> & ->).
    rewrite toordinal_max. split; [reflexivity | lia].
Qed.

Lemma toordinal_le_max d : valid d = true -> toordinal d <= MAXORDINAL.
Proof.
  intros V. destruct (ltb_total d max) as [L|[->|L]].
  - apply toordinal_mono in L; auto. rewrite toordinal_max in L. lia.
  - rewrite toordinal_max. lia.
  - exfalso. apply ltb_iff in L. apply valid_iff in V. simpl in L.
    destruct V as (Hy & Hm & Hd).
    pose proof (days_in_month_pos (year d) (month d) Hm). lia.
Qed.

(** [d + timedelta(days=n)] is [date.fromordinal(d.toordinal() + n)]. *)
Lemma add_days_spec d n :
  valid d = true -> 0 <= n ->
  (toordinal d + n <= MAXORDINAL ->
   exists d', add_days d n = Ret d' /\ valid d' = true
              /\ toordinal d' = toordinal d + n)
  /\ (MAXORDINAL < toordinal d + n -> add_days d n = Raise OverflowError).
Proof.
  intros V Hn. unfold add_days.
  destruct (add_days_nat d (Z.to_nat n)) as [d'|e] eqn:E.
  - destruct (add_days_nat_ret _ _ _ V E) as (V' & O').
    rewrite Z2Nat.id in O' by assumption.
    pose proof (toordinal_le_max d' V'). split; [|lia].
    intros _. eauto.
  - destruct (add_days_nat_raise _ _ _ V E) as (-> & L).
    rewrite Z2Nat.id in L by assumption. split; [lia | reflexivity].
Qed.

Lemma ltb_of_toordinal a b :
  valid a = true -> valid b = true -> toordinal a < toordinal b ->
  ltb a b = true.
Proof.
  intros Va Vb L. destruct (ltb_total a b) as [H|[->|H]]; [assumption|lia|].
  apply toordinal_mono in H; auto. lia.
Qed.

Lemma leb_iff_toordinal a b :
  valid a = true -> valid b = true ->
  (leb a b = true <-> toordinal a <= toordinal b).
Proof.
  intros Va Vb. unfold leb. split.
  - intros H. destruct (ltb_total a b) as [L|[->|L]].
    + apply toordinal_mono in L; auto. lia.
    + lia.
    + rewrite L in H. discriminate.
  - intros H. destruct (ltb b a) eqn:L; [|reflexivity].
    apply toordinal_mono in L; auto. lia.
Qed.

End PyDateFacts.

(** ** Parsing and printing dates *)

Module PyStrptimeFacts.
Import PyDate PyStrptime PyDateFacts.

Lemma py_range_In lo hi x : In x (py_range lo hi) <-> lo <= x < hi.
Proof.
  unfold py_range. rewrite in_map_iff. split.
  - intros (i & <- & Hi). apply in_seq in Hi. lia.
  - intros H. exists (Z.to_nat (x - lo)). split; [lia|]. apply in_seq. lia.
Qed.

(** Checking a decidable property on every number of a range. *)
Lemma py_range_forallb (P : Z -> bool) lo hi :
  forallb P (py_range lo hi) = true ->
  forall x, lo <= x < hi -> P x = true.
Proof.
  intros H x Hx. rewrite forallb_forall in H. apply H, py_range_In, Hx.
Qed.

Ltac split_range x lo :=
  first [ exfalso; lia
        | destruct (Z.eq_dec x lo) as [->|];
          [ | let lo' := eval compute in (lo + 1) in split_range x lo' ] ].

Lemma int_raise s e : PyStr.int s = Raise e -> e = ValueError.
Proof.
  unfold PyStr.int. destruct (PyStr.strip s); [congruence|].
  destruct (PyStr.int_digits _ _); congruence.
Qed.

Lemma make_raise y m d e : make y m d = Raise e -> e = ValueError.
Proof. unfold make. destruct (valid _); congruence. Qed.

Lemma make_ret y m d x :
  make y m d = Ret x -> x = mkdate y m d /\ valid x = true.
Proof. unfold make. destruct (valid _) eqn:V; intros [= <-]; auto. Qed.

Lemma dt_make_raise d H M e : dt_make d H M = Raise e -> e = ValueError.
Proof. unfold dt_make. destruct (dt_valid _); congruence. Qed.

Lemma dt_make_ret d H M t :
  dt_make d H M = Ret t -> t = mkdatetime d H M /\ dt_valid t = true.
Proof. unfold dt_make. destruct (dt_valid _) eqn:V; intros [= <-]; auto. Qed.

Lemma full_match_raise ps s e : full_match ps s = Raise e -> e = ValueError.
Proof.
  unfold full_match. destruct (m_groups ps s) as [|[gs [|c r]] tl]; congruence.
Qed.

Ltac bind_cases H :=
  repeat match type of H with
    | bind ?m _ = _ =>
        let E := fresh "E" in destruct m eqn:E; simpl in H
    | match ?l with [] => _ | _ :: _ => _ end = _ => destruct l; simpl in H
    end.

(** [strptime] raises nothing but [ValueError]. *)
Lemma strptime_date_raise s e : strptime_date s = Raise e -> e = ValueError.
Proof.
  unfold strptime_date. intros H. bind_cases H;
    try congruence;
    repeat match goal with
      | E : full_match _ _ = Raise _ |- _ => apply full_match_raise in E
      | E : PyStr.int _ = Raise _ |- _ => apply int_raise in E
      end; try congruence.
  now apply make_raise in H.
Qed.

Lemma strptime_datetime_raise s e :
  strptime_datetime s = Raise e -> e = ValueError.
Proof.
  unfold strptime_datetime. intros H. bind_cases H;
    try congruence;
    repeat match goal with
      | E : full_match _ _ = Raise _ |- _ => apply full_match_raise in E
      | E : PyStr.int _ = Raise _ |- _ => apply int_raise in E
      | E : make _ _ _ = Raise _ |- _ => apply make_raise in E
      end; try congruence.
  now apply dt_make_raise in H.
Qed.

(** What [strptime] returns passed the constructor's checks. *)
Lemma strptime_date_valid s d : strptime_date s = Ret d -> valid d = true.
Proof.
  unfold strptime_date. intros H. bind_cases H; try congruence.
  now apply make_ret in H.
Qed.

Lemma strptime_datetime_valid s t :
  strptime_datetime s = Ret t -> dt_valid t = true.
Proof.
  unfold strptime_datetime. intros H. bind_cases H; try congruence.
  now apply dt_make_ret in H.
Qed.

(** The first match of a sequence is made of the first matches of its
    parts when these go through. *)
Lemma m_groups_hd (g : bool) p ps s a r gs r' :
  hd_error (p s) = Some (a, r) ->
  hd_error (m_groups ps r) = Some (gs, r') ->
  hd_error (m_groups ((g, p) :: ps) s)
  = Some (if g then a :: gs else gs, r').
Proof.
  simpl. destruct (p s) as [|[a0 r0] tl]; simpl; [discriminate|].
  intros [= -> ->]. destruct (m_groups ps r) as [|[gs0 r1] tl']; simpl;
    [discriminate|]. now intros [= -> ->].
Qed.

Lemma full_match_hd ps s gs :
  hd_error (m_groups ps s) = Some (gs, "") -> full_match ps s = Ret gs.
Proof.
  unfold full_match. destruct (m_groups ps s) as [|[gs0 r] tl]; simpl;
    [discriminate|]. now intros [= -> ->].
Qed.

(** *** The printed fields *)

Lemma isspace_digit k :
  0 <= k <= 9 -> PyStr.isspace (PyStr.digit_char k) = false.
Proof. intros H. split_range k 0; reflexivity. Qed.

Lemma digit_val_char k :
  0 <= k <= 9 -> PyStr.digit_val (PyStr.digit_char k) = Some k.
Proof. intros H. split_range k 0; reflexivity. Qed.

Lemma isdigit_char k : 0 <= k <= 9 -> PyStr.isdigit (PyStr.digit_char k) = true.
Proof. intros H. unfold PyStr.isdigit. now rewrite digit_val_char. Qed.

Lemma log2_fuel y k :
  2 ^ Z.of_nat k <= y -> exists f, Z.to_nat (Z.log2 y) = (k + f)%nat.
Proof.
  intros H. exists (Z.to_nat (Z.log2 y) - k)%nat.
  assert (Z.of_nat k <= Z.log2 y); [|lia].
  apply Z.log2_le_pow2; lia.
Qed.

(** Zero-filled to four, a year is its four decimal digits. *)
Lemma fmt4_digits y :
  0 <= y <= 9999 ->
  PyStr.fmt_0d 4 y
  = String (PyStr.digit_char (y / 1000))
      (String (PyStr.digit_char (y / 100 mod 10))
         (String (PyStr.digit_char (y / 10 mod 10))
            (String (PyStr.digit_char (y mod 10)) ""))).
Proof.
  intros H. unfold PyStr.fmt_0d, PyStr.decimal.
  destruct (Z_lt_le_dec y 10) as [L1|L1].
  { simpl. replace (y / 10 =? 0) with true by lia. simpl.
    replace (y / 1000) with 0 by lia. replace (y / 100 mod 10) with 0 by lia.
    replace (y / 10 mod 10) with 0 by lia. reflexivity. }
  destruct (Z_lt_le_dec y 100) as [L2|L2].
  { destruct (log2_fuel y 1) as (f & ->); [simpl; lia|]. simpl.
    replace (y / 10 =? 0) with false by lia.
    replace (y / 10 / 10 =? 0) with true by lia. simpl.
    replace (y / 1000) with 0 by lia. replace (y / 100 mod 10) with 0 by lia.
    reflexivity. }
  destruct (Z_lt_le_dec y 1000) as [L3|L3].
  { destruct (log2_fuel y 2) as (f & ->); [simpl; lia|]. simpl.
    replace (y / 10 =? 0) with false by lia.
    replace (y / 10 / 10 =? 0) with false by lia.
    replace (y / 10 / 10 / 10 =? 0) with true by lia. simpl.
    replace (y / 1000) with 0 by lia.
    replace (y / 10 / 10 mod 10) with (y / 100 mod 10) by lia.
    reflexivity. }
  destruct (log2_fuel y 3) as (f & ->); [simpl; lia|]. simpl.
  replace (y / 10 =? 0) with false by lia.
  replace (y / 10 / 10 =? 0) with false by lia.
  replace (y / 10 / 10 / 10 =? 0) with false by lia.
  replace (y / 10 / 10 / 10 / 10 =? 0) with true by lia. simpl.
  replace (y / 10 / 10 / 10 mod 10) with (y / 1000) by lia.
  replace (y / 10 / 10 mod 10) with (y / 100 mod 10) by lia.
  reflexivity.
Qed.

Lemma int_4digits a b c d :
  0 <= a <= 9 -> 0 <= b <= 9 -> 0 <= c <= 9 -> 0 <= d <= 9 ->
  PyStr.int (String (PyStr.digit_char a) (String (PyStr.digit_char b)
               (String (PyStr.digit_char c) (String (PyStr.digit_char d) ""))))
  = Ret (1000 * a + 100 * b + 10 * c + d).
Proof.
  intros Ha Hb Hc Hd. unfold PyStr.int, PyStr.strip.
  cbn [PyStr.rstrip]. rewrite (isspace_digit d Hd).
  cbn [PyStr.lstrip]. rewrite (isspace_digit a Ha).
  cbn [PyStr.int_digits].
  rewrite !digit_val_char by assumption. f_equal. lia.
Qed.

Lemma fmt4_year y rest :
  1 <= y <= 9999 ->
  hd_error (re_Y (PyStr.fmt_0d 4 y ++ rest)) = Some (PyStr.fmt_0d 4 y, rest)
  /\ PyStr.int (PyStr.fmt_0d 4 y) = Ret y.
Proof.
  intros Hy. rewrite fmt4_digits by lia.
  assert (0 <= y / 1000 <= 9) as H3 by lia.
  assert (0 <= y / 100 mod 10 <= 9) as H2 by lia.
  assert (0 <= y / 10 mod 10 <= 9) as H1 by lia.
  assert (0 <= y mod 10 <= 9) as H0 by lia.
  split.
  - unfold re_Y, m_cat, m_digit, m_class. simpl.
    rewrite (isdigit_char _ H3). simpl. rewrite (isdigit_char _ H2). simpl.
    rewrite (isdigit_char _ H1). simpl. rewrite (isdigit_char _ H0).
    reflexivity.
  - rewrite int_4digits by assumption. f_equal. lia.
Qed.

Lemma check_fmt2_all : forallb check_fmt2 (py_range 0 100) = true.
Proof. vm_compute. reflexivity. Qed.

Lemma fmt2_int n : 0 <= n <= 99 -> PyStr.int (PyStr.fmt_0d 2 n) = Ret n.
Proof.
  intros Hn.
  pose proof (py_range_forallb _ _ _ check_fmt2_all n ltac:(lia)) as C.
  unfold check_fmt2 in C. destruct (PyStr.int _) as [v|]; [|discriminate].
  apply Z.eqb_eq in C. now subst.
Qed.

Lemma fmt2_month m rest :
  1 <= m <= 12 ->
  hd_error (re_m (PyStr.fmt_0d 2 m ++ String "-" rest))
  = Some (PyStr.fmt_0d 2 m, String "-" rest).
Proof. intros H. split_range m 1; reflexivity. Qed.

Lemma fmt2_day d rest :
  1 <= d <= 31 ->
  hd_error (re_d (PyStr.fmt_0d 2 d ++ rest)) = Some (PyStr.fmt_0d 2 d, rest).
Proof. intros H. split_range d 1; reflexivity. Qed.

Lemma fmt2_day_end d :
  1 <= d <= 31 ->
  hd_error (re_d (PyStr.fmt_0d 2 d)) = Some (PyStr.fmt_0d 2 d, "").
Proof. intros H. split_range d 1; reflexivity. Qed.

Lemma fmt2_blank_hour h rest :
  0 <= h <= 23 ->
  hd_error (m_ws_plus (String " " (PyStr.fmt_0d 2 h ++ rest)))
  = Some (" ", PyStr.fmt_0d 2 h ++ rest).
Proof. intros H. split_range h 0; reflexivity. Qed.

Lemma fmt2_hour h rest :
  0 <= h <= 23 ->
  hd_error (re_H (PyStr.fmt_0d 2 h ++ String ":" rest))
  = Some (PyStr.fmt_0d 2 h, String ":" rest).
Proof. intros H. split_range h 0; reflexivity. Qed.

Lemma fmt2_minute m :
  0 <= m <= 59 ->
  hd_error (re_M (PyStr.fmt_0d 2 m)) = Some (PyStr.fmt_0d 2 m, "").
Proof. intros H. split_range m 0; reflexivity. Qed.

Lemma append_assoc (a b c : string) : (a ++ b) ++ c = a ++ (b ++ c).
Proof. induction a as [|x a IH]; simpl; [reflexivity | now rewrite IH]. Qed.

(** Parsing the zero-filled text of a date gives the date back. *)
Lemma strptime_isoformat d :
  valid d = true -> strptime_date (isoformat d) = Ret d.
Proof.
  intros V. pose proof V as V'. apply valid_iff in V'.
  destruct V' as (Hy & Hm & Hd).
  pose proof (days_in_month_pos (year d) (month d) Hm) as Hdim.
  unfold strptime_date, isoformat.
  rewrite (full_match_hd _ _ [PyStr.fmt_0d 4 (year d);
                              PyStr.fmt_0d 2 (month d);
                              PyStr.fmt_0d 2 (day d)]).
  - simpl. rewrite (proj2 (fmt4_year _ "" Hy)). simpl.
    rewrite !fmt2_int by lia. simpl.
    unfold make. destruct d; simpl in *. now rewrite V.
  - unfold re_date.
    eapply (m_groups_hd true); [apply fmt4_year, Hy|].
    eapply (m_groups_hd false); [reflexivity|].
    eapply (m_groups_hd true); [apply fmt2_month, Hm|].
    eapply (m_groups_hd false); [reflexivity|].
    eapply (m_groups_hd true); [apply fmt2_day_end; lia|].
    reflexivity.
Qed.

(** The same for a date and a time of day. *)
Lemma strptime_isoformat_HM d H M :
  valid d = true -> 0 <= H <= 23 -> 0 <= M <= 59 ->
  strptime_datetime
    (isoformat d ++ " " ++ strftime_HM (mkdatetime d H M))
  = Ret (mkdatetime d H M).
Proof.
  intros V HH HM. pose proof V as V'. apply valid_iff in V'.
  destruct V' as (Hy & Hm & Hd).
  pose proof (days_in_month_pos (year d) (month d) Hm) as Hdim.
  assert (isoformat d ++ " " ++ strftime_HM (mkdatetime d H M)
          = PyStr.fmt_0d 4 (year d)
            ++ String "-" (PyStr.fmt_0d 2 (month d)
            ++ String "-" (PyStr.fmt_0d 2 (day d)
            ++ String " " (PyStr.fmt_0d 2 H
            ++ String ":" (PyStr.fmt_0d 2 M))))) as ->.
  { unfold isoformat, strftime_HM. cbn [hour minute dt_date].
    rewrite !append_assoc. reflexivity. }
  unfold strptime_datetime.
  rewrite (full_match_hd _ _ [PyStr.fmt_0d 4 (year d);
                              PyStr.fmt_0d 2 (month d);
                              PyStr.fmt_0d 2 (day d);
                              PyStr.fmt_0d 2 H; PyStr.fmt_0d 2 M]).
  - cbn [bind]. rewrite (proj2 (fmt4_year _ "" Hy)). cbn [bind].
    rewrite !fmt2_int by lia. cbn [bind].
    unfold make, dt_make, dt_valid. destruct d; cbn [year month day] in *.
    rewrite V. cbn [bind dt_date hour minute]. rewrite V.
    replace (true && (0 <=? H) && (H <=? 23) && (0 <=? M) && (M <=? 59))
      with true by lia.
    reflexivity.
  - change re_datetime with
      [ (true, re_Y); (false, m_lit "-"); (true, re_m); (false, m_lit "-");
        (true, re_d); (false, m_ws_plus); (true, re_H); (false, m_lit ":");
        (true, re_M) ].
    eapply (m_groups_hd true); [apply fmt4_year, Hy|].
    eapply (m_groups_hd false); [reflexivity|].
    eapply (m_groups_hd true); [apply fmt2_month, Hm|].
    eapply (m_groups_hd false); [reflexivity|].
    eapply (m_groups_hd true); [apply fmt2_day; lia|].
    eapply (m_groups_hd false); [apply fmt2_blank_hour, HH|].
    eapply (m_groups_hd true); [apply fmt2_hour, HH|].
    eapply (m_groups_hd false); [reflexivity|].
    eapply (m_groups_hd true); [apply fmt2_minute, HM|].
    reflexivity.
Qed.

(** *** What [strftime] prints *)

(** A year from 1000 on has four digits: it prints the same with and
    without the zero filling. *)
Lemma decimal_year y :
  1000 <= y <= 9999 -> PyStr.decimal y = PyStr.fmt_0d 4 y.
Proof.
  intros H. unfold PyStr.fmt_0d. cbv zeta.
  assert (String.length (PyStr.decimal y) = 4%nat) as ->; [|reflexivity].
  unfold PyStr.decimal.
  destruct (log2_fuel y 3) as (f & ->); [simpl; lia|]. simpl.
  replace (y / 10 =? 0) with false by lia.
  replace (y / 10 / 10 =? 0) with false by lia.
  replace (y / 10 / 10 / 10 =? 0) with false by lia.
  replace (y / 10 / 10 / 10 / 10 =? 0) with true by lia. reflexivity.
Qed.

(** From the year 1000 on [strftime] prints the zero-filled text, and
    [strptime] reads it back. *)
Lemma strftime_isoformat d :
  valid d = true -> 1000 <= year d -> strftime d = isoformat d.
Proof.
  intros V L. apply valid_iff in V. unfold strftime, isoformat.
  now rewrite decimal_year by lia.
Qed.

Lemma strptime_strftime d :
  valid d = true -> 1000 <= year d -> strptime_date (strftime d) = Ret d.
Proof.
  intros V L. rewrite strftime_isoformat by assumption.
  now apply strptime_isoformat.
Qed.

Lemma strptime_strftime_HM d H M :
  valid d = true -> 1000 <= year d -> 0 <= H <= 23 -> 0 <= M <= 59 ->
  strptime_datetime
    (strftime d ++ " " ++ strftime_HM (mkdatetime d H M))
  = Ret (mkdatetime d H M).
Proof.
  intros V L HH HM. rewrite strftime_isoformat by assumption.
  now apply strptime_isoformat_HM.
Qed.

(** A year below 1000 prints with fewer than four digits, and [%Y] does
    not match what follows. *)
Lemma re_Y_short y rest :
  0 <= y < 1000 -> re_Y (PyStr.decimal y ++ String "-" rest) = [].
Proof.
  intros H. unfold PyStr.decimal.
  destruct (Z_lt_le_dec y 10) as [L1|L1].
  { simpl. replace (y / 10 =? 0) with true by lia.
    unfold re_Y, m_cat, m_digit, m_class. simpl.
    destruct (PyStr.isdigit (PyStr.digit_char (y mod 10))); reflexivity. }
  destruct (Z_lt_le_dec y 100) as [L2|L2].
  { destruct (log2_fuel y 1) as (f & ->); [simpl; lia|]. simpl.
    replace (y / 10 =? 0) with false by lia.
    replace (y / 10 / 10 =? 0) with true by lia.
    unfold re_Y, m_cat, m_digit, m_class. simpl.
    repeat (destruct (PyStr.isdigit (PyStr.digit_char _)); simpl);
      reflexivity. }
  destruct (log2_fuel y 2) as (f & ->); [simpl; lia|]. simpl.
  replace (y / 10 =? 0) with false by lia.
  replace (y / 10 / 10 =? 0) with false by lia.
  replace (y / 10 / 10 / 10 =? 0) with true by lia.
  unfold re_Y, m_cat, m_digit, m_class. simpl.
  repeat (destruct (PyStr.isdigit (PyStr.digit_char _)); simpl);
    reflexivity.
Qed.

(** What [strftime] prints for a date before the year 1000 is no date
    for [strptime]. *)
Lemma strptime_unpadded d :
  valid d = true -> year d < 1000 ->
  strptime_date (strftime d) = Raise ValueError.
Proof.
  intros V L. apply valid_iff in V. destruct V as (Hy & _).
  assert (re_Y (strftime d) = []) as E.
  { unfold strftime.
    apply (re_Y_short (year d)
             (PyStr.fmt_0d 2 (month d) ++ "-" ++ PyStr.fmt_0d 2 (day d))).
    lia. }
  unfold strptime_date, full_match, re_date. cbn [m_groups].
  rewrite E. reflexivity.
Qed.

(** A later date is in no earlier year. *)
Lemma year_mono a b :
  valid a = true -> valid b = true -> toordinal a <= toordinal b ->
  year a <= year b.
Proof.
  intros Va Vb L. destruct (Z_le_gt_dec (year a) (year b)) as [|G];
    [assumption|exfalso].
  assert (ltb b a = true) as Lt by (apply ltb_iff; lia).
  apply toordinal_mono in Lt; auto. lia.
Qed.

End PyStrptimeFacts.

(** ** The span of a booking *)

Module SpanFacts.
Import PyDate PyDateFacts PyStrptimeFacts.

Lemma dt_valid_iff t :
  dt_valid t = true <->
  valid (dt_date t) = true /\ 0 <= hour t <= 23 /\ 0 <= minute t <= 59.
Proof. unfold dt_valid. rewrite !andb_true_iff, !Z.leb_le. tauto. Qed.

Lemma compare_eq a b : compare a b = Eq -> a = b.
Proof.
  destruct a as [y m d], b as [y' m' d']. unfold compare. simpl.
  destruct (Z.compare_spec y y'); try discriminate.
  destruct (Z.compare_spec m m'); try discriminate.
  destruct (Z.compare_spec d d'); try discriminate. congruence.
Qed.

Lemma dt_ltb_iff a b :
  dt_ltb a b = true <->
  ltb (dt_date a) (dt_date b) = true
  \/ (dt_date a = dt_date b
      /\ (hour a < hour b \/ (hour a = hour b /\ minute a < minute b))).
Proof.
  unfold dt_ltb, dt_compare.
  destruct (compare (dt_date a) (dt_date b)) eqn:C.
  - pose proof (compare_eq _ _ C) as E.
    assert (ltb (dt_date a) (dt_date b) = false) as N
        by (unfold ltb; now rewrite C).
    rewrite N.
    destruct (Z.compare_spec (hour a) (hour b));
      destruct (Z.compare_spec (minute a) (minute b));
      (split;
       [ intros; first [discriminate | right; split; [assumption | lia]]
       | intros [?|[_ ?]]; [discriminate | first [reflexivity | lia]]]).
  - assert (ltb (dt_date a) (dt_date b) = true) as ->
        by (unfold ltb; now rewrite C).
    tauto.
  - assert (ltb (dt_date a) (dt_date b) = false) as N
        by (unfold ltb; now rewrite C).
    rewrite N. split; [discriminate|]. intros [?|[E _]]; [discriminate|].
    rewrite E in C. unfold compare in C. rewrite !Z.compare_refl in C.
    discriminate.
Qed.

Lemma dt_ltb_minutes a b :
  dt_valid a = true -> dt_valid b = true -> dt_ltb a b = true ->
  dt_minutes a < dt_minutes b.
Proof.
  rewrite !dt_valid_iff, dt_ltb_iff. unfold dt_minutes.
  intros (Va & Ha & Ma) (Vb & Hb & Mb) [L|[E L]].
  - pose proof (toordinal_mono _ _ Va Vb L). lia.
  - rewrite E. lia.
Qed.

(** One step of the loop: an hour later, with the same minute. *)
Lemma dt_add_hour_ret t t' :
  dt_valid t = true -> dt_add_hours t 1 = Ret t' ->
  dt_valid t' = true /\ dt_minutes t' = dt_minutes t + 60
  /\ hour t' = (hour t + 1) mod 24 /\ minute t' = minute t.
Proof.
  rewrite !dt_valid_iff. intros (V & Hh & Hm). unfold dt_add_hours.
  destruct (add_days (dt_date t) ((hour t + 1) / 24)) as [d'|] eqn:A;
    simpl; [|discriminate].
  intros [= <-]. unfold add_days in A.
  destruct (add_days_nat_ret _ _ _ V A) as (V' & O).
  unfold dt_minutes. simpl. repeat split; try assumption; lia.
Qed.

Lemma dt_add_hour_raise t e :
  dt_valid t = true -> dt_add_hours t 1 = Raise e ->
  e = OverflowError /\ dt_date t = max /\ hour t = 23.
Proof.
  rewrite !dt_valid_iff. intros (V & Hh & Hm). unfold dt_add_hours.
  destruct (add_days (dt_date t) ((hour t + 1) / 24)) as [d'|e'] eqn:A;
    simpl; [discriminate|].
  intros [= <-]. unfold add_days in A.
  destruct (add_days_nat_raise _ _ _ V A) as (-> & L).
  pose proof (toordinal_le_max _ V) as Le.
  assert ((hour t + 1) / 24 = 1) as Q by lia.
  split; [reflexivity|]. split; [|lia].
  apply toordinal_inj; [assumption | reflexivity |].
  rewrite toordinal_max. lia.
Qed.

(** The loop comes to an end within the fuel it is given. *)
Lemma slots_loop_total fuel cur end_ acc :
  dt_valid cur = true -> dt_valid end_ = true ->
  (S (Z.to_nat ((dt_minutes end_ - dt_minutes cur + 59) / 60)) <= fuel)%nat ->
  exists r, slots_loop fuel cur end_ acc = Some r.
Proof.
  revert cur acc. induction fuel as [|fuel IH]; intros cur acc Vc Ve F;
    [lia|]. simpl.
  destruct (dt_ltb cur end_) eqn:L; [|eauto].
  destruct (dt_add_hours cur OFFICE_HOURS_appointment_duration)
    as [next|e] eqn:A; [|eauto].
  destruct (dt_add_hour_ret _ _ Vc A) as (Vn & Mn & _).
  pose proof (dt_ltb_minutes _ _ Vc Ve L).
  apply IH; auto. lia.
Qed.

Lemma calc_required_time_slots_total a b :
  dt_valid a = true -> dt_valid b = true ->
  exists r, calc_required_time_slots a b = Some r.
Proof.
  intros Va Vb. apply slots_loop_total; auto.
Qed.

(** The loop overflows only on the last day of the calendar. *)
Lemma slots_loop_raise fuel cur end_ acc e :
  dt_valid cur = true -> dt_valid end_ = true ->
  slots_loop fuel cur end_ acc = Some (Raise e) ->
  e = OverflowError /\ dt_date end_ = max.
Proof.
  revert cur acc. induction fuel as [|fuel IH]; intros cur acc Vc Ve;
    simpl; [discriminate|].
  destruct (dt_ltb cur end_) eqn:L; [|discriminate].
  destruct (dt_add_hours cur OFFICE_HOURS_appointment_duration)
    as [next|e'] eqn:A.
  - destruct (dt_add_hour_ret _ _ Vc A) as (Vn & _). eauto.
  - intros [= <-]. destruct (dt_add_hour_raise _ _ Vc A) as (-> & Dm & Hh).
    split; [reflexivity|]. apply dt_ltb_iff in L. rewrite Dm in L.
    destruct L as [L|[E _]]; [|congruence].
    apply dt_valid_iff in Ve. destruct Ve as (Ve & _).
    apply toordinal_mono in L; [|reflexivity|assumption].
    pose proof (toordinal_le_max _ Ve). rewrite toordinal_max in L. lia.
Qed.

Lemma dt_ltb_false_minutes a b :
  dt_valid a = true -> dt_valid b = true -> dt_ltb a b = false ->
  dt_minutes b <= dt_minutes a.
Proof.
  intros Va Vb L.
  assert (~ dt_ltb a b = true) as N by congruence.
  rewrite dt_ltb_iff in N.
  apply dt_valid_iff in Va, Vb.
  destruct Va as (Va & Ha & Ma), Vb as (Vb & Hb & Mb). unfold dt_minutes.
  destruct (ltb_total (dt_date a) (dt_date b)) as [T|[E|T]].
  - tauto.
  - assert (~ (hour a < hour b \/ (hour a = hour b /\ minute a < minute b)))
      as N' by tauto.
    rewrite E. lia.
  - pose proof (toordinal_mono _ _ Vb Va T). lia.
Qed.

(** The keys the loop appends are those of [cur], an hour later, two
    hours later, ..., as long as that time is before [end_]: they all
    carry the minute of [cur]. *)
Lemma slots_loop_keys fuel cur end_ acc l :
  dt_valid cur = true -> dt_valid end_ = true ->
  slots_loop fuel cur end_ acc = Some (Ret l) ->
  l = (acc ++ map (slot_key cur) (seq 0 (span_length cur end_)))%list.
Proof.
  revert cur acc. induction fuel as [|fuel IH]; intros cur acc Vc Ve;
    simpl; [discriminate|].
  destruct (dt_ltb cur end_) eqn:L.
  - destruct (dt_add_hours cur OFFICE_HOURS_appointment_duration)
      as [next|e'] eqn:A; [|discriminate].
    destruct (dt_add_hour_ret _ _ Vc A) as (Vn & Mn & Hn & Mi).
    pose proof (dt_ltb_minutes _ _ Vc Ve L) as Lt.
    intros H. rewrite (IH _ _ Vn Ve H).
    assert (span_length cur end_ = S (span_length next end_)) as ->
        by (unfold span_length; lia).
    rewrite <- app_assoc. f_equal. simpl.
    apply dt_valid_iff in Vc. destruct Vc as (_ & Hh & _). f_equal.
    + unfold slot_key, strftime_HM. rewrite Z.add_0_r, Z.mod_small by lia.
      reflexivity.
    + rewrite <- seq_shift, map_map. apply map_ext. intros k.
      unfold slot_key. rewrite Hn, Mi. do 2 f_equal.
      rewrite Zplus_mod_idemp_l. f_equal. lia.
  - intros [= <-]. pose proof (dt_ltb_false_minutes _ _ Vc Ve L).
    assert (span_length cur end_ = 0%nat) as ->
        by (unfold span_length; lia).
    simpl. now rewrite app_nil_r.
Qed.

(** Away from the last day of the calendar the loop returns its span. *)
Lemma calc_required_time_slots_ret a b :
  dt_valid a = true -> dt_valid b = true -> dt_date b <> max ->
  calc_required_time_slots a b
  = Some (Ret (map (slot_key a) (seq 0 (span_length a b)))).
Proof.
  intros Va Vb N.
  destruct (calc_required_time_slots_total a b Va Vb) as ([l|e] & C).
  - rewrite C. now rewrite (slots_loop_keys _ _ _ _ _ Va Vb C).
  - apply slots_loop_raise in C; auto. tauto.
Qed.

(** On the last day it raises when the span reaches the last hour. *)
Example calc_required_time_slots_overflow :
  calc_required_time_slots (mkdatetime max 23 0) (mkdatetime max 23 30)
  = Some (Raise OverflowError).
Proof. vm_compute. reflexivity. Qed.

Lemma span_length_spec a b k :
  (k < span_length a b)%nat
  <-> dt_minutes a + 60 * Z.of_nat k < dt_minutes b.
Proof. unfold span_length. lia. Qed.

End SpanFacts.

(** ** Booking *)

Module BookingFacts.
Import PyDate PyDateFacts PyStrptimeFacts PyDictFacts SpanFacts.

Lemma name_check name :
  negb (PyStr.truthy name) || negb (PyStr.truthy (PyStr.strip name)) = true
  <-> PyStr.strip name = "".
Proof.
  destruct name as [|c r]; [simpl; tauto|].
  cbn [PyStr.truthy negb orb].
  destruct (PyStr.strip (String c r)); simpl; split; congruence.
Qed.

Lemma name_check_false name :
  PyStr.strip name <> "" ->
  negb (PyStr.truthy name) || negb (PyStr.truthy (PyStr.strip name)) = false.
Proof.
  intros H. destruct (negb _ || negb _) eqn:E; [|reflexivity].
  apply name_check in E. contradiction.
Qed.

Lemma available_test (daily : PyDict.dict string) s :
  negb (String.eqb (PyDict.get_default daily s "booked") "available") = false
  <-> PyDict.get daily s = Some "available".
Proof.
  unfold PyDict.get_default. rewrite negb_false_iff.
  destruct (PyDict.get daily s) as [v|].
  - rewrite String.eqb_eq. split; congruence.
  - split; discriminate.
Qed.

Lemma first_conflict_none daily slots :
  first_conflict daily slots = None
  <-> Forall (fun s => PyDict.get daily s = Some "available") slots.
Proof.
  induction slots as [|s r IH]; simpl.
  - split; auto.
  - destruct (negb _) eqn:E.
    + split; [discriminate|]. intros F. inversion F; subst.
      apply available_test in H1. congruence.
    + apply available_test in E. rewrite IH. split; intros F.
      * now constructor.
      * now inversion F.
Qed.

(** The reported slot is the first of the span that is not available,
    with the occupant found there. *)
Lemma first_conflict_some daily slots slot existing :
  first_conflict daily slots = Some (slot, existing) ->
  exists before after,
    slots = (before ++ slot :: after)%list
    /\ Forall (fun s => PyDict.get daily s = Some "available") before
    /\ PyDict.get daily slot <> Some "available"
    /\ existing = PyDict.get_default daily slot "unknown patient".
Proof.
  induction slots as [|s r IH]; simpl; [discriminate|].
  destruct (negb _) eqn:E.
  - intros [= <- <-]. exists [], r. repeat split; auto.
    intros A. apply available_test in A. congruence.
  - apply available_test in E. intros H.
    destruct (IH H) as (before & after & -> & F & N & X).
    exists (s :: before), after. repeat split; auto.
Qed.

Lemma first_conflict_exists daily slots :
  (exists s, In s slots /\ PyDict.get daily s <> Some "available") ->
  exists slot existing, first_conflict daily slots = Some (slot, existing).
Proof.
  intros (s & I & N).
  destruct (first_conflict daily slots) as [[slot ex]|] eqn:E; [eauto|].
  apply first_conflict_none in E. rewrite Forall_forall in E.
  exfalso. auto.
Qed.

Lemma set_set_same {V : Type} (d : PyDict.dict V) k v v' :
  PyDict.set (PyDict.set d k v) k v' = PyDict.set d k v'.
Proof.
  induction d as [|[k0 v0] r IH]; simpl.
  - now rewrite String.eqb_refl.
  - destruct (String.eqb k k0) eqn:E; simpl; rewrite E; [reflexivity|].
    now rewrite IH.
Qed.

(** The commit loop rewrites the day of the booking and nothing else. *)
Lemma for_each_book_slot sched date daily slots info :
  PyDict.get sched date = Some daily ->
  for_each slots (book_slot date info) sched
  = Ret (PyDict.set sched date (commit daily slots info)).
Proof.
  revert sched daily. induction slots as [|s r IH]; intros sched daily G;
    simpl.
  - now rewrite set_same_value.
  - unfold book_slot at 1, PyDict.getitem. rewrite G. simpl.
    rewrite (IH _ (PyDict.set daily s info)) by apply get_set_same.
    now rewrite set_set_same.
Qed.

Lemma commit_get daily slots info t :
  PyDict.get (commit daily slots info) t
  = if in_dec string_dec t slots then Some info else PyDict.get daily t.
Proof.
  unfold commit. revert daily. induction slots as [|s r IH]; intros daily;
    simpl; [reflexivity|].
  rewrite IH, get_set.
  destruct (in_dec string_dec t r) as [I|N];
    destruct (string_dec s t) as [->|D]; try reflexivity.
  - now rewrite String.eqb_refl.
  - destruct (String.eqb_spec s t); [contradiction | reflexivity].
Qed.

Lemma commit_get_in daily slots info t :
  In t slots -> PyDict.get (commit daily slots info) t = Some info.
Proof.
  intros I. rewrite commit_get.
  destruct (in_dec string_dec t slots); [reflexivity | contradiction].
Qed.

Lemma commit_get_notin daily slots info t :
  ~ In t slots -> PyDict.get (commit daily slots info) t = PyDict.get daily t.
Proof.
  intros I. rewrite commit_get.
  destruct (in_dec string_dec t slots); [contradiction | reflexivity].
Qed.

Lemma commit_keys daily slots info :
  Forall (fun s => PyDict.get daily s <> None) slots ->
  PyDict.keys (commit daily slots info) = PyDict.keys daily.
Proof.
  unfold commit. revert daily. induction slots as [|s r IH]; intros daily F;
    simpl; [reflexivity|].
  inversion F as [|? ? Hs Hr]; subst.
  rewrite IH, keys_set_present; auto.
  apply Forall_forall. intros x Hx. rewrite Forall_forall in Hr.
  rewrite get_set. destruct (String.eqb s x); [discriminate | auto].
Qed.

(** What [book_medical_appointment] does once the four checks on its
    arguments have passed and the span is known. *)
Lemma book_after_checks uuid4 sched date st et name type a b daily slots :
  PyStr.strip name <> "" ->
  strptime_datetime (date ++ " " ++ st) = Ret a ->
  strptime_datetime (date ++ " " ++ et) = Ret b ->
  dt_ltb a b = true ->
  PyDict.get sched date = Some daily ->
  calc_required_time_slots a b = Some (Ret slots) ->
  book_medical_appointment uuid4 sched date st et name type
  = match first_conflict daily slots with
    | Some (slot, existing) =>
        Some (Ret (slot_conflict_result date slot existing, sched))
    | None =>
        Some (Ret (booking_success_result (booking_id uuid4) name type date
                     st et slots,
                   PyDict.set sched date
                     (commit daily slots (booking_info name type))))
    end.
Proof.
  intros Hn Ha Hb L G C. unfold book_medical_appointment.
  rewrite (name_check_false _ Hn), Ha, Hb. cbn [bind].
  unfold dt_geb, PyDict.contains, PyDict.get_default.
  rewrite L, G, C. cbn [negb].
  destruct (first_conflict daily slots) as [[slot ex]|]; [reflexivity|].
  fold (booking_info name type).
  now rewrite (for_each_book_slot _ _ daily).
Qed.

(** Every way [book_medical_appointment] can return. *)
Lemma book_inv uuid4 sched date st et name type r sched' :
  book_medical_appointment uuid4 sched date st et name type
  = Some (Ret (r, sched')) ->
  (sched' = sched /\ status_of r = Some (VStr "error")
   /\ PyDict.get r "appointment_details" = None)
  \/ exists a b daily slots,
       PyStr.strip name <> ""
       /\ strptime_datetime (date ++ " " ++ st) = Ret a
       /\ strptime_datetime (date ++ " " ++ et) = Ret b
       /\ dt_ltb a b = true
       /\ PyDict.get sched date = Some daily
       /\ calc_required_time_slots a b = Some (Ret slots)
       /\ first_conflict daily slots = None
       /\ sched' = PyDict.set sched date
                     (commit daily slots (booking_info name type))
       /\ r = booking_success_result (booking_id uuid4) name type date st et
                slots.
Proof.
  unfold book_medical_appointment.
  destruct (negb _ || negb _) eqn:Hn.
  { intros [= <- <-]. left. repeat split; reflexivity. }
  assert (PyStr.strip name <> "") as Hn'.
  { intros E. apply name_check in E. congruence. }
  destruct (strptime_datetime (date ++ " " ++ st)) as [a|e] eqn:Ha;
    cbn [bind].
  2:{ destruct e; try discriminate. intros [= <- <-]. left. repeat split; reflexivity. }
  destruct (strptime_datetime (date ++ " " ++ et)) as [b|e] eqn:Hb;
    cbn [bind].
  2:{ destruct e; try discriminate. intros [= <- <-]. left. repeat split; reflexivity. }
  unfold dt_geb. destruct (dt_ltb a b) eqn:L; cbn [negb].
  2:{ intros [= <- <-]. left. repeat split; reflexivity. }
  unfold PyDict.contains, PyDict.get_default.
  destruct (PyDict.get sched date) as [daily|] eqn:G; cbn [negb].
  2:{ intros [= <- <-]. left. repeat split; reflexivity. }
  destruct (calc_required_time_slots a b) as [[slots|e]|] eqn:C;
    try discriminate.
  destruct (first_conflict daily slots) as [[slot ex]|] eqn:F.
  { intros [= <- <-]. left. repeat split; reflexivity. }
  fold (booking_info name type).
  rewrite (for_each_book_slot _ _ daily) by assumption.
  intros [= <- <-]. right. exists a, b, daily, slots. repeat split; auto.
Qed.

(** The function always returns or raises: the loop never runs out of
    the fuel of the model. *)
Lemma book_total uuid4 sched date st et name type :
  exists r, book_medical_appointment uuid4 sched date st et name type
            = Some r.
Proof.
  unfold book_medical_appointment.
  destruct (negb _ || negb _); [eauto|].
  destruct (strptime_datetime (date ++ " " ++ st)) as [a|e] eqn:Ha;
    cbn [bind]; [|destruct e; eauto].
  destruct (strptime_datetime (date ++ " " ++ et)) as [b|e] eqn:Hb;
    cbn [bind]; [|destruct e; eauto].
  destruct (dt_geb a b); [eauto|].
  destruct (negb (PyDict.contains sched date)); [eauto|].
  apply strptime_datetime_valid in Ha, Hb.
  destruct (calc_required_time_slots_total a b Ha Hb) as (r & ->).
  destruct r as [slots|e]; [|eauto].
  destruct (first_conflict _ _) as [[? ?]|]; [eauto|].
  destruct (for_each _ _ _); eauto.
Qed.

(** The only exception that escapes is the overflow of the loop's last
    step on 9999-12-31; nothing has been assigned by then. *)
Lemma book_raise uuid4 sched date st et name type e :
  book_medical_appointment uuid4 sched date st et name type
  = Some (Raise e) ->
  e = OverflowError
  /\ exists b, strptime_datetime (date ++ " " ++ et) = Ret b
               /\ dt_date b = max.
Proof.
  unfold book_medical_appointment.
  destruct (negb _ || negb _); [discriminate|].
  destruct (strptime_datetime (date ++ " " ++ st)) as [a|e0] eqn:Ha;
    cbn [bind].
  2:{ apply strptime_datetime_raise in Ha. subst. discriminate. }
  destruct (strptime_datetime (date ++ " " ++ et)) as [b|e0] eqn:Hb;
    cbn [bind].
  2:{ apply strptime_datetime_raise in Hb. subst. discriminate. }
  destruct (dt_geb a b); [discriminate|].
  unfold PyDict.contains, PyDict.get_default.
  destruct (PyDict.get sched date) as [daily|] eqn:G; cbn [negb];
    [|discriminate].
  pose proof (strptime_datetime_valid _ _ Ha) as Va.
  pose proof (strptime_datetime_valid _ _ Hb) as Vb.
  destruct (calc_required_time_slots a b) as [[slots|e0]|] eqn:C;
    try discriminate.
  - destruct (first_conflict _ _) as [[? ?]|]; [discriminate|].
    rewrite (for_each_book_slot _ _ daily) by assumption. discriminate.
  - intros [= <-]. apply slots_loop_raise in C; auto.
    destruct C as (-> & Dm). split; [reflexivity|]. eauto.
Qed.

Lemma last_char_eq a c b d :
  a ++ String c "" = b ++ String d "" -> c = d.
Proof.
  revert b. induction a as [|x a IH]; intros [|y b]; simpl; intros [= *].
  - assumption.
  - destruct b; discriminate.
  - destruct a; discriminate.
  - eauto.
Qed.

(** What a booking stores ends in a closing bracket: it is never the
    marker of a free slot. *)
Lemma booking_info_not_available name type :
  booking_info name type <> "available".
Proof.
  unfold booking_info. intros E.
  change ")" with ("" ++ ")") in E at 1. rewrite <- !append_assoc in E.
  change "available" with ("availabl" ++ "e") in E.
  apply last_char_eq in E. discriminate.
Qed.

Lemma slot_state_set sched date daily d t :
  slot_state (PyDict.set sched date daily) d t
  = if String.eqb date d then PyDict.get daily t else slot_state sched d t.
Proof. unfold slot_state. rewrite get_set. now destruct (String.eqb date d). Qed.

(** A successful booking leaves its occupant in every slot of its span
    and every other slot as it was. *)
Lemma book_success_state uuid4 sched date st et name type r sched' :
  book_medical_appointment uuid4 sched date st et name type
  = Some (Ret (r, sched')) ->
  forall d t,
    slot_state sched' d t
    = if String.eqb date d && if in_dec string_dec t (booked_slots_of r)
                              then true else false
      then Some (booking_info name type)
      else slot_state sched d t.
Proof.
  intros H d t. apply book_inv in H.
  destruct H as [(-> & _ & D)|(a & b & daily & slots & _ & _ & _ & _ & G & _
                               & _ & -> & ->)].
  - unfold booked_slots_of, details_of. rewrite D.
    destruct (in_dec _ _ _) as [[]|]. now rewrite andb_false_r.
  - rewrite slot_state_set.
    change (booked_slots_of _) with slots.
    destruct (String.eqb_spec date d) as [->|]; [|reflexivity].
    rewrite commit_get. unfold slot_state. rewrite G.
    now destruct (in_dec string_dec t slots).
Qed.

(** A slot that holds an occupant holds it after any request. *)
Lemma handle_keeps_booked sched q d t v :
  slot_state sched d t = Some v -> v <> "available" ->
  slot_state (handle sched q) d t = Some v.
Proof.
  intros S N. destruct q as [today ad|uuid4 ad st et name type]; simpl;
    [assumption|].
  destruct (book_medical_appointment uuid4 sched ad st et name type)
    as [[[r sched']|e]|] eqn:B; try assumption.
  pose proof (book_success_state _ _ _ _ _ _ _ _ _ B d t) as H.
  apply book_inv in B.
  destruct B as [(-> & _)|(a & b & daily & slots & _ & _ & _ & _ & G & _
                           & F & -> & ->)]; [assumption|].
  rewrite H. change (booked_slots_of _) with slots.
  destruct (String.eqb_spec ad d) as [->|]; [|assumption].
  destruct (in_dec string_dec t slots) as [I|]; [|assumption].
  exfalso. apply first_conflict_none in F. rewrite Forall_forall in F.
  specialize (F _ I). unfold slot_state in S. rewrite G in S. congruence.
Qed.

Lemma run_keeps_booked qs sched d t v :
  slot_state sched d t = Some v -> v <> "available" ->
  slot_state (run sched qs) d t = Some v.
Proof.
  unfold run. revert sched. induction qs as [|q qs IH]; intros sched S N;
    simpl; [assumption|].
  apply IH; [|assumption]. now apply handle_keeps_booked.
Qed.

End BookingFacts.

(** ** Initialisation *)

Module InitFacts.
Import PyDate PyDateFacts PyStrptimeFacts PyDictFacts.

Lemma available_time_slots_eq :
  available_time_slots
  = ["08:00"; "09:00"; "10:00"; "11:00"; "12:00"; "13:00"; "14:00"; "15:00";
     "16:00"].
Proof. reflexivity. Qed.

Lemma fresh_day_eq :
  fresh_day = map (fun t => (t, "available")) available_time_slots.
Proof. reflexivity. Qed.

(** What the loop of [initialize_medical_schedule] over the offsets
    [ks] makes of a schedule [s0]. *)
Lemma init_for_each today ks s0 s :
  for_each ks
    (fun day_offset sched =>
       schedule_date <- add_days today day_offset ;;
       Ret (PyDict.set sched (strftime schedule_date) fresh_day)) s0
  = Ret s ->
  (forall key, PyDict.get s0 key = Some fresh_day ->
               PyDict.get s key = Some fresh_day)
  /\ (forall k, In k ks ->
        exists d, add_days today k = Ret d
                  /\ PyDict.get s (strftime d) = Some fresh_day)
  /\ (forall key, In key (PyDict.keys s) ->
        In key (PyDict.keys s0)
        \/ exists k d, In k ks /\ add_days today k = Ret d
                       /\ key = strftime d).
Proof.
  revert s0. induction ks as [|k ks IH]; intros s0; simpl.
  - intros [= <-]. repeat split; auto. intros k [].
  - destruct (add_days today k) as [d|e] eqn:A; simpl; [|discriminate].
    intros H. destruct (IH _ H) as (P & Q & R). repeat split.
    + intros key G. apply P. rewrite get_set.
      now destruct (String.eqb (strftime d) key).
    + intros k' [<-|I].
      * exists d. split; [assumption|]. apply P, get_set_same.
      * auto.
    + intros key I. destruct (R key I) as [I0|(k' & d' & I' & A' & E)].
      * rewrite keys_set in I0.
        destruct (PyDict.contains s0 (strftime d)); [auto|].
        apply in_app_or in I0. destruct I0 as [I0|[<-|[]]]; [auto|].
        right. exists k, d. auto.
      * right. exists k', d'. auto.
Qed.

Lemma add_days_ret today k d :
  valid today = true -> 0 <= k -> add_days today k = Ret d ->
  valid d = true /\ toordinal d = toordinal today + k.
Proof.
  intros V Hk A. unfold add_days in A.
  destruct (add_days_nat_ret _ _ _ V A) as (V' & O). split; [assumption|lia].
Qed.

Lemma not_before today d :
  valid today = true -> valid d = true -> toordinal today <= toordinal d ->
  ltb d today = false.
Proof.
  intros V V' L. destruct (ltb d today) eqn:E; [|reflexivity].
  apply toordinal_mono in E; auto. lia.
Qed.

(** Running the initialisation again on the same day gives every slot
    of the seven days back as ["available"]; the source runs it once,
    when the module is loaded. *)
Example initialize_again_resets :
  initialize_medical_schedule jul1 scenario_booked = Ret scenario_schedule.
Proof. vm_compute. reflexivity. Qed.

End InitFacts.

(** ** Reports *)

Module ReportFacts.
Import PyDictFacts BookingFacts.

Lemma set_fresh {V : Type} (d : PyDict.dict V) k v :
  ~ In k (PyDict.keys d) -> PyDict.set d k v = (d ++ [(k, v)])%list.
Proof.
  unfold PyDict.keys. induction d as [|[k0 v0] r IH]; simpl; [reflexivity|].
  intros N. destruct (String.eqb_spec k k0) as [->|]; [tauto|].
  rewrite IH; tauto.
Qed.

(** A dictionary built from items with different keys is these items. *)
Lemma from_items_nodup {V : Type} (items : list (string * V)) :
  NoDup (map fst items) -> PyDict.from_items items = items.
Proof.
  unfold PyDict.from_items.
  assert (forall acc : PyDict.dict V,
             NoDup (map fst (acc ++ items)) ->
             fold_left (fun d '(k, v) => PyDict.set d k v) items acc
             = (acc ++ items)%list) as G.
  { induction items as [|[k v] r IH]; intros acc N; simpl.
    - now rewrite app_nil_r.
    - rewrite set_fresh.
      + rewrite IH; rewrite <- app_assoc; [reflexivity | assumption].
      + rewrite map_app in N. simpl in N. apply NoDup_remove_2 in N.
        unfold PyDict.keys. intros I. apply N, in_or_app. auto. }
  intros N. apply (G []). assumption.
Qed.

Lemma filter_keys_nodup {V : Type} (f : string * V -> bool) (d : list (string * V)) :
  NoDup (map fst d) -> NoDup (map fst (filter f d)).
Proof.
  induction d as [|kv r IH]; simpl; [auto|].
  intros N. inversion N as [|? ? Hn Hr]; subst.
  destruct (f kv); simpl; auto. constructor; auto.
  intros I. apply Hn. apply in_map_iff in I. destruct I as (x & E & I).
  apply filter_In in I. apply in_map_iff. exists x. tauto.
Qed.

(** The partition made by [list_appointment_availabilities]: a slot
    that holds an occupant is not among the available ones, and is
    among the booked ones with that occupant. *)
Lemma partition_booked (daily : PyDict.dict string) t v :
  PyDict.wf daily -> PyDict.get daily t = Some v -> v <> "available" ->
  ~ In t (map fst (filter (fun '(_, booking_status) =>
                             String.eqb booking_status "available") daily))
  /\ PyDict.get
       (PyDict.from_items
          (filter (fun '(_, patient_info) =>
                     negb (String.eqb patient_info "available")) daily)) t
     = Some v.
Proof.
  intros W G N. split.
  - intros I. apply in_map_iff in I. destruct I as ([k v'] & E & I).
    simpl in E. subst k. apply filter_In in I. destruct I as (I & A).
    apply String.eqb_eq in A. subst v'.
    apply (In_get _ _ _ W) in I. congruence.
  - rewrite from_items_nodup by now apply filter_keys_nodup.
    apply In_get; [now apply filter_keys_nodup|].
    apply filter_In. split; [now apply get_In|].
    apply negb_true_iff, String.eqb_neq, N.
Qed.

(** [list_appointment_availabilities] raises nothing. *)
Lemma list_returns today sched appointment_date :
  exists r,
    list_appointment_availabilities today sched appointment_date = Ret r.
Proof.
  unfold list_appointment_availabilities.
  destruct (strptime_date appointment_date) as [d|e] eqn:P.
  - destruct (PyDate.ltb d today); [eauto|].
    destruct (PyDict.get sched appointment_date) as [[|kv daily]|]; eauto.
  - apply PyStrptimeFacts.strptime_date_raise in P. subst e. eauto.
Qed.

Lemma wf_commit daily slots info :
  PyDict.wf daily -> PyDict.wf (commit daily slots info).
Proof.
  unfold commit. revert daily. induction slots as [|s r IH]; intros daily W;
    simpl; [assumption|]. apply IH. now apply wf_set.
Qed.

(** The hypothesis on the day's dictionary holds of every schedule the
    module can reach: of the initial one, and after any request. *)
Lemma init_values today ks s0 s :
  for_each ks
    (fun day_offset sched =>
       schedule_date <- PyDate.add_days today day_offset ;;
       Ret (PyDict.set sched (PyDate.strftime schedule_date) fresh_day)) s0
  = Ret s ->
  forall key v, PyDict.get s key = Some v ->
                v = fresh_day \/ PyDict.get s0 key = Some v.
Proof.
  revert s0. induction ks as [|k ks IH]; intros s0; simpl.
  - intros [= <-]. auto.
  - destruct (PyDate.add_days today k) as [d|e]; simpl; [|discriminate].
    intros H key v G. destruct (IH _ H _ _ G) as [E|G0]; [auto|].
    rewrite get_set in G0.
    destruct (String.eqb (PyDate.strftime d) key); [|auto].
    left. congruence.
Qed.

Lemma fresh_day_wf : PyDict.wf fresh_day.
Proof.
  unfold PyDict.wf. repeat constructor; simpl; intuition discriminate.
Qed.

Lemma module_load_days_wf today sched :
  module_load today = Ret sched ->
  forall d daily, PyDict.get sched d = Some daily -> PyDict.wf daily.
Proof.
  intros M d daily G. unfold module_load, initialize_medical_schedule in M.
  destruct (init_values _ _ _ _ M _ _ G) as [->|[=]]. apply fresh_day_wf.
Qed.

Lemma handle_days_wf sched q :
  (forall d daily, PyDict.get sched d = Some daily -> PyDict.wf daily) ->
  forall d daily, PyDict.get (handle sched q) d = Some daily ->
                  PyDict.wf daily.
Proof.
  intros W d daily. destruct q as [today ad|uuid4 ad st et name type]; simpl;
    [apply W|].
  destruct (book_medical_appointment uuid4 sched ad st et name type)
    as [[[r sched']|e]|] eqn:B; try apply W.
  apply book_inv in B.
  destruct B as [(-> & _)|(a & b & daily0 & slots & _ & _ & _ & _ & G & _
                           & _ & -> & _)]; [apply W|].
  rewrite get_set. destruct (String.eqb ad d); [|apply W].
  intros [= <-]. apply wf_commit. eauto.
Qed.

End ReportFacts.

(** ** Ranges of dates *)

Module RangeFacts.
Import PyDate PyDateFacts PyStrptimeFacts PyDictFacts InitFacts.

Lemma for_each_app {A S : Type} (l1 l2 : list A) (body : A -> S -> res S) s :
  for_each (l1 ++ l2) body s
  = (s' <- for_each l1 body s ;; for_each l2 body s').
Proof.
  revert s. induction l1 as [|x l1 IH]; intros s; simpl; [reflexivity|].
  destruct (body x s); simpl; auto.
Qed.

Lemma py_range_S n :
  py_range 0 (Z.of_nat (S n)) = (py_range 0 (Z.of_nat n) ++ [Z.of_nat n])%list.
Proof.
  unfold py_range. rewrite !Z.sub_0_r, !Nat2Z.id, seq_S, map_app.
  reflexivity.
Qed.

Lemma days_from_S start n d :
  add_days_nat start n = Ret d ->
  days_from start (S n) = (days_from start n ++ [d])%list.
Proof.
  intros A. unfold days_from. rewrite seq_S, flat_map_app. simpl.
  now rewrite A.
Qed.

Lemma add_days_nat_ok start n :
  valid start = true -> toordinal start + Z.of_nat n <= MAXORDINAL ->
  exists d, add_days_nat start n = Ret d /\ valid d = true
            /\ toordinal d = toordinal start + Z.of_nat n.
Proof.
  intros V L. destruct (add_days_nat start n) as [d|e] eqn:A.
  - destruct (add_days_nat_ret _ _ _ V A). eauto.
  - destruct (add_days_nat_raise _ _ _ V A). lia.
Qed.

(** The dates of [days_from] are the consecutive days from [start]. *)
Lemma days_from_ord start n :
  valid start = true -> toordinal start + Z.of_nat n <= MAXORDINAL + 1 ->
  Forall (fun d => valid d = true) (days_from start n)
  /\ map toordinal (days_from start n)
     = map (fun i => toordinal start + Z.of_nat i) (seq 0 n).
Proof.
  intros V. induction n as [|n IH]; intros L.
  - split; [constructor | reflexivity].
  - destruct IH as (F & E); [lia|].
    destruct (add_days_nat_ok start n V) as (d & A & Vd & O); [lia|].
    rewrite (days_from_S _ _ _ A), seq_S, !map_app, E. simpl. split.
    + apply Forall_app. split; [assumption | now repeat constructor].
    + now rewrite O.
Qed.

(** The loop over the days of a range appends one line per day. *)
Lemma range_lines (f : string -> string) start n acc :
  valid start = true -> toordinal start + Z.of_nat n <= MAXORDINAL + 1 ->
  for_each (py_range 0 (Z.of_nat n))
    (fun i results =>
       d <- add_days start i ;; Ret (results ++ [f (strftime d)])%list) acc
  = Ret (acc ++ map (fun d => f (strftime d)) (days_from start n))%list.
Proof.
  intros V. induction n as [|n IH]; intros L.
  - simpl. now rewrite app_nil_r.
  - rewrite py_range_S, for_each_app, IH by lia. cbn [bind for_each].
    destruct (add_days_nat_ok start n V) as (d & A & Vd & O); [lia|].
    unfold add_days. rewrite Nat2Z.id, A. cbn [bind].
    rewrite (days_from_S _ _ _ A), map_app, app_assoc. reflexivity.
Qed.

Lemma consecutive_sorted c k n :
  Sorted Z.lt (map (fun i => c + Z.of_nat i) (seq k n)).
Proof.
  revert k. induction n as [|n IH]; intros k; simpl; constructor.
  - apply IH.
  - destruct n; simpl; constructor. lia.
Qed.

Lemma sorted_by_ordinal l :
  Forall (fun d => valid d = true) l -> Sorted Z.lt (map toordinal l) ->
  Sorted (fun x y => ltb x y = true) l.
Proof.
  induction l as [|d l IH]; intros F S; [constructor|].
  inversion F; subst. simpl in S. inversion S; subst.
  constructor; [auto|].
  destruct l as [|d' l]; constructor.
  inversion H4; subst. inversion H2; subst.
  now apply ltb_of_toordinal.
Qed.

Lemma ltb_false_ordinal a b :
  valid a = true -> valid b = true -> ltb b a = false ->
  toordinal a <= toordinal b.
Proof.
  intros Va Vb L. apply leb_iff_toordinal; auto. unfold leb. now rewrite L.
Qed.

(** What the loop of either range query computes for a first day [ds]
    that is not after the last day [de]: one line for each date from
    [ds] to [de], both included, in ascending order. *)
Lemma range_accepted (f : string -> string) ds de :
  valid ds = true -> valid de = true -> ltb de ds = false ->
  for_each (py_range 0 (sub_days de ds + 1))
    (fun i results =>
       d <- add_days ds i ;; Ret (results ++ [f (strftime d)])%list) []
  = Ret (map (fun d => f (strftime d))
           (days_from ds (Z.to_nat (sub_days de ds + 1))))
  /\ days_from ds (Z.to_nat (sub_days de ds + 1)) <> []
  /\ Sorted (fun x y => ltb x y = true)
       (days_from ds (Z.to_nat (sub_days de ds + 1)))
  /\ (forall d, valid d = true ->
        (In d (days_from ds (Z.to_nat (sub_days de ds + 1)))
         <-> leb ds d = true /\ leb d de = true))
  /\ Z.of_nat (List.length (days_from ds (Z.to_nat (sub_days de ds + 1))))
     = sub_days de ds + 1.
Proof.
  intros Vs Ve L. pose proof (ltb_false_ordinal _ _ Vs Ve L) as Le.
  pose proof (toordinal_le_max _ Ve) as Lm.
  unfold sub_days.
  set (n := Z.to_nat (toordinal de - toordinal ds + 1)).
  assert (toordinal de - toordinal ds + 1 = Z.of_nat n) as En by lia.
  assert (toordinal ds + Z.of_nat n <= MAXORDINAL + 1) as Ln by lia.
  destruct (days_from_ord ds n Vs Ln) as (F & E).
  assert (List.length (days_from ds n) = n) as Len.
  { rewrite <- (length_map toordinal), E, length_map, length_seq.
    reflexivity. }
  split; [rewrite En; apply (range_lines f ds n [] Vs Ln)|].
  split; [intros Z; rewrite Z in Len; simpl in Len; lia|].
  split; [apply sorted_by_ordinal; [assumption|];
          rewrite E; apply consecutive_sorted|].
  split; [|lia].
  intros d Vd. rewrite !leb_iff_toordinal by assumption. split.
  - intros I. apply (in_map toordinal) in I. rewrite E in I.
    apply in_map_iff in I. destruct I as (i & Ei & Ii). apply in_seq in Ii.
    lia.
  - intros (L1 & L2).
    assert (In (toordinal d) (map toordinal (days_from ds n))) as I.
    { rewrite E. apply in_map_iff.
      exists (Z.to_nat (toordinal d - toordinal ds)). split; [lia|].
      apply in_seq. lia. }
    apply in_map_iff in I. destruct I as (d' & Ed & Id).
    rewrite Forall_forall in F.
    now rewrite <- (toordinal_inj d' d (F _ Id) Vd Ed).
Qed.

Lemma insert_sorted_Sorted x l :
  Sorted (fun a b => String.leb a b = true) l ->
  Sorted (fun a b => String.leb a b = true) (insert_sorted x l).
Proof.
  induction l as [|y r IH]; intros S; simpl.
  - repeat constructor.
  - destruct (String.leb x y) eqn:E.
    + constructor; [assumption | now constructor].
    + inversion S; subst. constructor; [auto|].
      assert (String.leb y x = true) as Lyx
          by (destruct (String.leb_total x y); congruence).
      destruct r as [|z r]; simpl; [now constructor|].
      inversion H2; subst. destruct (String.leb x z); now constructor.
Qed.

(** [sorted] gives a list in order. *)
Lemma sorted_Sorted l : Sorted (fun a b => String.leb a b = true) (sorted l).
Proof.
  induction l as [|x l IH]; simpl; [constructor|].
  now apply insert_sorted_Sorted.
Qed.

(** Every list of times of a schedule made by the initialisation of
    either read-only variant is one that [sorted] returned. *)
Lemma generated_sorted today sample ks s0 s :
  for_each ks
    (fun i schedule =>
       current_date <- add_days today i ;;
       Ret (PyDict.set schedule (strftime current_date) (sorted (sample i))))
    s0 = Ret s ->
  forall key slots,
    PyDict.get s key = Some slots ->
    PyDict.get s0 key = Some slots
    \/ Sorted (fun a b => String.leb a b = true) slots.
Proof.
  revert s0. induction ks as [|k ks IH]; intros s0; simpl.
  - intros [= <-]. auto.
  - destruct (add_days today k) as [d|e]; simpl; [|discriminate].
    intros H key slots G. destruct (IH _ H _ _ G) as [G0|S]; [|auto].
    rewrite get_set in G0. destruct (String.eqb (strftime d) key); [|auto].
    injection G0 as <-. right. apply sorted_Sorted.
Qed.

End RangeFacts.

(* ================================================================== *)
(** * The claims *)

Import PyDateFacts PyStrptimeFacts PyDictFacts SpanFacts BookingFacts.
Import InitFacts ReportFacts RangeFacts.

(** C1.  A call of [book_medical_appointment] that reaches the
    derivation of its span (the patient name is not blank, both times
    parse, the start is before the end, the date has a day schedule, the
    loop yields [slots]) and whose span holds a slot that is not
    ["available"] in the day schedule, or is missing from it, returns
    the [SLOT_ALREADY_BOOKED] dictionary.  The slot it reports is the
    first such slot of the span in scan order, the occupant is the value
    stored there (["unknown patient"] for a missing key), and the
    schedule after the call is the schedule before it. *)
Theorem C1_conflict_fails_without_commit
  (uuid4 : N) (sched : schedule) (date st et name : string)
  (type : option string) (a b : datetime) (daily : PyDict.dict string)
  (slots : list string) :
  PyStr.strip name <> "" ->
  strptime_datetime (date ++ " " ++ st) = Ret a ->
  strptime_datetime (date ++ " " ++ et) = Ret b ->
  dt_ltb a b = true ->
  PyDict.get sched date = Some daily ->
  calc_required_time_slots a b = Some (Ret slots) ->
  (exists s, In s slots /\ PyDict.get daily s <> Some "available") ->
  exists before slot after,
    slots = (before ++ slot :: after)%list
    /\ Forall (fun s => PyDict.get daily s = Some "available") before
    /\ PyDict.get daily slot <> Some "available"
    /\ book_medical_appointment uuid4 sched date st et name type
       = Some (Ret (slot_conflict_result date slot
                      (PyDict.get_default daily slot "unknown patient"),
                    sched))
    /\ error_code_of
         (slot_conflict_result date slot
            (PyDict.get_default daily slot "unknown patient"))
       = Some (VStr "SLOT_ALREADY_BOOKED").
Proof.
  intros Hn Ha Hb L G C X.
  destruct (first_conflict_exists daily slots X) as (slot & existing & F).
  destruct (first_conflict_some _ _ _ _ F) as (before & after & E & Av & N & Ex).
  exists before, slot, after. repeat split; auto.
  rewrite (book_after_checks uuid4 sched date st et name type a b daily slots)
    by assumption.
  rewrite F. now subst existing.
Qed.

(** A request for 08:00-12:00 on the day of the scenario meets Jane
    Doe's booking at 09:00. *)
Lemma C1_witness :
  exists before slot after,
    ["08:00"; "09:00"; "10:00"; "11:00"] = (before ++ slot :: after)%list
    /\ Forall (fun s => slot_state scenario_booked "2024-07-01" s
                        = Some "available") before
    /\ slot_state scenario_booked "2024-07-01" slot <> Some "available"
    /\ book_medical_appointment 7 scenario_booked "2024-07-01" "08:00" "12:00"
         "John Roe" None
       = Some (Ret (slot_conflict_result "2024-07-01" slot
                      (PyDict.get_default
                         (PyDict.get_default scenario_booked "2024-07-01" [])
                         slot "unknown patient"),
                    scenario_booked))
    /\ error_code_of
         (slot_conflict_result "2024-07-01" slot
            (PyDict.get_default
               (PyDict.get_default scenario_booked "2024-07-01" [])
               slot "unknown patient"))
       = Some (VStr "SLOT_ALREADY_BOOKED").
Proof.
  apply (C1_conflict_fails_without_commit 7 scenario_booked "2024-07-01"
           "08:00" "12:00" "John Roe" None
           (mkdatetime jul1 8 0) (mkdatetime jul1 12 0)
           (PyDict.get_default scenario_booked "2024-07-01" [])
           ["08:00"; "09:00"; "10:00"; "11:00"]).
  - vm_compute. discriminate.
  - vm_compute. reflexivity.
  - vm_compute. reflexivity.
  - vm_compute. reflexivity.
  - vm_compute. reflexivity.
  - vm_compute. reflexivity.
  - exists "09:00". split; [simpl; tauto | vm_compute; discriminate].
Defined.

(** C2.  Once a call of [book_medical_appointment] has returned a
    booking whose span holds the slot [t] of [date], that slot holds
    the occupant of that booking after any further requests, and every
    later booking request for [date] that reaches the derivation of its
    span and whose span holds [t] returns the [SLOT_ALREADY_BOOKED]
    dictionary and leaves the schedule as it was.  No request takes a
    slot that holds an occupant back to ["available"]. *)
Theorem C2_no_double_booking
  (uuid4 : N) (sched0 : schedule) (date st et name : string)
  (type : option string) (r0 : PyDict.dict pyval) (sched1 : schedule)
  (t : string) (qs : list request) :
  book_medical_appointment uuid4 sched0 date st et name type
  = Some (Ret (r0, sched1)) ->
  In t (booked_slots_of r0) ->
  slot_state (run sched1 qs) date t = Some (booking_info name type)
  /\ booking_info name type <> "available"
  /\ (forall uuid4' st' et' name' type' a' b' slots',
        PyStr.strip name' <> "" ->
        strptime_datetime (date ++ " " ++ st') = Ret a' ->
        strptime_datetime (date ++ " " ++ et') = Ret b' ->
        dt_ltb a' b' = true ->
        calc_required_time_slots a' b' = Some (Ret slots') ->
        In t slots' ->
        exists slot existing,
          book_medical_appointment uuid4' (run sched1 qs) date st' et' name'
            type'
          = Some (Ret (slot_conflict_result date slot existing,
                       run sched1 qs))
          /\ error_code_of (slot_conflict_result date slot existing)
             = Some (VStr "SLOT_ALREADY_BOOKED"))
  /\ (forall sched q d s v,
        slot_state sched d s = Some v -> v <> "available" ->
        slot_state (handle sched q) d s = Some v).
Proof.
  intros B I.
  pose proof (booking_info_not_available name type) as N.
  assert (slot_state (run sched1 qs) date t = Some (booking_info name type))
    as S.
  { apply run_keeps_booked; [|assumption].
    rewrite (book_success_state _ _ _ _ _ _ _ _ _ B), String.eqb_refl.
    now destruct (in_dec string_dec t (booked_slots_of r0)). }
  repeat split; try assumption.
  - intros uuid4' st' et' name' type' a' b' slots' Hn Ha Hb L C I'.
    unfold slot_state in S.
    destruct (PyDict.get (run sched1 qs) date) as [daily|] eqn:G;
      [|discriminate].
    destruct (first_conflict_exists daily slots') as (slot & existing & F).
    { exists t. split; [assumption|]. congruence. }
    exists slot, existing. split; [|reflexivity].
    rewrite (book_after_checks uuid4' _ date st' et' name' type' a' b' daily
               slots') by assumption.
    now rewrite F.
  - intros sched q d s v. apply handle_keeps_booked.
Qed.

(** After Jane Doe's booking of 09:00-11:00 and two further requests,
    10:00 is still hers, and a request for 10:00-12:00 is refused. *)
Lemma C2_witness :
  slot_state
    (run scenario_booked
       [ ListAvailability jul1 "2024-07-01";
         BookAppointment 3 "2024-07-01" "13:00" "14:00" "John Roe" None ])
    "2024-07-01" "10:00"
  = Some (booking_info "Jane Doe" (Some "consultation")).
Proof.
  refine (proj1 (C2_no_double_booking 0 scenario_schedule "2024-07-01"
                   "09:00" "11:00" "Jane Doe" (Some "consultation")
                   (booking_success_result (booking_id 0) "Jane Doe"
                      (Some "consultation") "2024-07-01" "09:00" "11:00"
                      ["09:00"; "10:00"])
                   scenario_booked "10:00" _ _ _)).
  - vm_compute. reflexivity.
  - simpl. tauto.
Defined.

(** C3, as the code has it.  The keys [book_medical_appointment] derives
    from a start [a] before an end [b] are the [HH:MM] of [a], of [a]
    plus one hour, of [a] plus two hours, ..., for as long as that time
    is before [b].  The first key is the start time itself and every key
    carries the minute of the start time, so the keys are on the grid
    only when the start time is.  In the scenario, with 09:00-11:00
    booked, a request for 09:30-10:30 returns [SLOT_ALREADY_BOOKED] for
    the slot 09:30, which is not a key of the day, with the occupant
    ["unknown patient"]; the schedule is unchanged. *)
Theorem C3_span_keys_step_from_start
  (a b : datetime) (slots : list string) :
  dt_valid a = true -> dt_valid b = true -> dt_ltb a b = true ->
  calc_required_time_slots a b = Some (Ret slots) ->
  slots = map (slot_key a) (seq 0 (span_length a b))
  /\ (forall k, (k < span_length a b)%nat
                <-> dt_minutes a + 60 * Z.of_nat k < dt_minutes b)
  /\ hd_error slots = Some (strftime_HM a)
  /\ book_medical_appointment 5 scenario_booked "2024-07-01" "09:30" "10:30"
       "Bob" None
     = Some (Ret (slot_conflict_result "2024-07-01" "09:30" "unknown patient",
                  scenario_booked)).
Proof.
  intros Va Vb L C.
  pose proof (slots_loop_keys _ _ _ _ _ Va Vb C) as E. simpl in E.
  split; [assumption|]. split; [apply span_length_spec|]. split.
  - pose proof (dt_ltb_minutes _ _ Va Vb L) as Lt.
    assert (exists n, span_length a b = S n) as (n & En).
    { exists (pred (span_length a b)). unfold span_length. lia. }
    rewrite E, En. simpl. f_equal. unfold slot_key, strftime_HM.
    apply dt_valid_iff in Va. destruct Va as (_ & Hh & _).
    rewrite Z.add_0_r, Z.mod_small by lia. reflexivity.
  - vm_compute. reflexivity.
Qed.

(** The span of 09:30-10:30 is the one key 09:30. *)
Lemma C3_witness :
  ["09:30"]
  = map (slot_key (mkdatetime jul1 9 30))
      (seq 0 (span_length (mkdatetime jul1 9 30) (mkdatetime jul1 10 30))).
Proof.
  refine (proj1 (C3_span_keys_step_from_start (mkdatetime jul1 9 30)
                   (mkdatetime jul1 10 30) ["09:30"] _ _ _ _));
    vm_compute; reflexivity.
Defined.

(** C3, as the specification has it, fails in its own scenario: the
    span of 09:30-10:30 is the key 09:30, which is not on the hour grid
    of the office, and the slot reported is 09:30, not 09:00. *)
Lemma C3_counterexample :
  calc_required_time_slots (mkdatetime jul1 9 30) (mkdatetime jul1 10 30)
  = Some (Ret ["09:30"])
  /\ ~ In "09:30" available_time_slots
  /\ exists r,
       book_medical_appointment 5 scenario_booked "2024-07-01" "09:30"
         "10:30" "Bob" None
       = Some (Ret (r, scenario_booked))
       /\ error_code_of r = Some (VStr "SLOT_ALREADY_BOOKED")
       /\ PyDict.get r "conflicting_slot" = Some (VStr "09:30")
       /\ PyDict.get r "conflicting_slot" <> Some (VStr "09:00").
Proof.
  split; [vm_compute; reflexivity|]. split.
  - vm_compute. intuition discriminate.
  - exists (slot_conflict_result "2024-07-01" "09:30" "unknown patient").
    repeat split; try (vm_compute; reflexivity). discriminate.
Qed.

(** C4.  After the module is loaded on a day [today] of a year with four
    digits (the schedule is initialised for seven days, with office
    hours 8 to 17), every date [d] of the seven days from [today] has a
    day schedule whose keys are the nine on-the-hour times 08:00 ...
    16:00, all ["available"], and [list_appointment_availabilities] on
    [d] returns a successful report with these nine times as available
    slots, no booked appointment, [total_slots] 9 (the end hour minus
    the start hour), [available_count] 9 and [booked_count] 0.  (Before
    the year 1000 the keys are printed with a shorter year, which
    [strptime] does not read.) *)
Theorem C4_initialization_complete
  (today : date) (sched : schedule) (k : Z) :
  valid today = true -> 1000 <= year today ->
  module_load today = Ret sched -> 0 <= k < 7 ->
  exists d,
    add_days today k = Ret d
    /\ sub_days d today = k
    /\ PyDict.get sched (strftime d) = Some fresh_day
    /\ PyDict.keys fresh_day
       = map (fun h => PyStr.fmt_0d 2 h ++ ":00") (py_range 8 17)
    /\ (forall t, In t (PyDict.keys fresh_day) ->
                  PyDict.get fresh_day t = Some "available")
    /\ list_appointment_availabilities today sched (strftime d)
       = Ret (day_report (strftime d) (PyDict.keys fresh_day) []
                (OFFICE_HOURS_end_hour - OFFICE_HOURS_start_hour))
    /\ status_of (day_report (strftime d) (PyDict.keys fresh_day) []
                    (OFFICE_HOURS_end_hour - OFFICE_HOURS_start_hour))
       = Some (VStr "success")
    /\ PyDict.get (day_report (strftime d) (PyDict.keys fresh_day) []
                     (OFFICE_HOURS_end_hour - OFFICE_HOURS_start_hour))
         "total_slots" = Some (VInt 9)
    /\ PyDict.get (day_report (strftime d) (PyDict.keys fresh_day) []
                     (OFFICE_HOURS_end_hour - OFFICE_HOURS_start_hour))
         "available_count" = Some (VInt 9)
    /\ PyDict.get (day_report (strftime d) (PyDict.keys fresh_day) []
                     (OFFICE_HOURS_end_hour - OFFICE_HOURS_start_hour))
         "booked_count" = Some (VInt 0).
Proof.
  intros V Y M Hk. unfold module_load, initialize_medical_schedule in M.
  destruct (InitFacts.init_for_each _ _ _ _ M) as (_ & Q & _).
  destruct (Q k) as (d & A & G); [apply py_range_In; lia|].
  assert (0 <= k) as Hk0 by lia.
  destruct (InitFacts.add_days_ret _ _ _ V Hk0 A) as (Vd & O).
  assert (toordinal today <= toordinal d) as Le by lia.
  pose proof (year_mono _ _ V Vd Le) as Yd.
  assert (1000 <= year d) as Yd' by lia.
  exists d. split; [assumption|]. split; [unfold sub_days; lia|].
  split; [assumption|]. split; [reflexivity|]. split.
  { intros t I. simpl in I.
    repeat (destruct I as [<-|I]; [reflexivity|]). destruct I. }
  split; [|repeat split; reflexivity].
  unfold list_appointment_availabilities.
  rewrite (strptime_strftime _ Vd Yd'), (InitFacts.not_before _ _ V Vd Le).
  rewrite G. reflexivity.
Qed.

(** The fourth day of the scenario. *)
Lemma C4_witness :
  exists d,
    add_days jul1 3 = Ret d
    /\ sub_days d jul1 = 3
    /\ PyDict.get scenario_schedule (strftime d) = Some fresh_day
    /\ PyDict.keys fresh_day
       = map (fun h => PyStr.fmt_0d 2 h ++ ":00") (py_range 8 17)
    /\ (forall t, In t (PyDict.keys fresh_day) ->
                  PyDict.get fresh_day t = Some "available")
    /\ list_appointment_availabilities jul1 scenario_schedule (strftime d)
       = Ret (day_report (strftime d) (PyDict.keys fresh_day) []
                (OFFICE_HOURS_end_hour - OFFICE_HOURS_start_hour))
    /\ status_of (day_report (strftime d) (PyDict.keys fresh_day) []
                    (OFFICE_HOURS_end_hour - OFFICE_HOURS_start_hour))
       = Some (VStr "success")
    /\ PyDict.get (day_report (strftime d) (PyDict.keys fresh_day) []
                     (OFFICE_HOURS_end_hour - OFFICE_HOURS_start_hour))
         "total_slots" = Some (VInt 9)
    /\ PyDict.get (day_report (strftime d) (PyDict.keys fresh_day) []
                     (OFFICE_HOURS_end_hour - OFFICE_HOURS_start_hour))
         "available_count" = Some (VInt 9)
    /\ PyDict.get (day_report (strftime d) (PyDict.keys fresh_day) []
                     (OFFICE_HOURS_end_hour - OFFICE_HOURS_start_hour))
         "booked_count" = Some (VInt 0).
Proof.
  apply (C4_initialization_complete jul1 scenario_schedule 3).
  - reflexivity.
  - simpl. lia.
  - vm_compute. reflexivity.
  - lia.
Defined.

(** C5.  [book_medical_appointment] checks its arguments in a fixed
    order and answers the first check that fails with an error code of
    its own, whatever the later checks would find: (1) a patient name
    that is empty once stripped gives [MISSING_PATIENT_NAME]; otherwise
    (2) a start or an end that does not parse with the date gives
    [INVALID_DATETIME_FORMAT]; otherwise (3) a start that is not before
    the end gives [INVALID_TIME_RANGE]; otherwise (4) a date without a
    day schedule gives [DATE_NOT_AVAILABLE]; otherwise (5) a slot of the
    span that is not available gives [SLOT_ALREADY_BOOKED].  The five
    codes differ, and the schedule is left as it was in every case. *)
Theorem C5_validation_order
  (uuid4 : N) (sched : schedule) (date st et name : string)
  (type : option string) :
  (PyStr.strip name = "" ->
   book_medical_appointment uuid4 sched date st et name type
   = Some (Ret (error_result
                  "Patient name is required to book an appointment."
                  "MISSING_PATIENT_NAME", sched)))
  /\ (PyStr.strip name <> "" ->
      (exists e, strptime_datetime (date ++ " " ++ st) = Raise e)
      \/ (exists e, strptime_datetime (date ++ " " ++ et) = Raise e) ->
      book_medical_appointment uuid4 sched date st et name type
      = Some (Ret (error_result
                     "Invalid date or time format. Please use YYYY-MM-DD for date and HH:MM for time."
                     "INVALID_DATETIME_FORMAT", sched)))
  /\ (forall a b,
        PyStr.strip name <> "" ->
        strptime_datetime (date ++ " " ++ st) = Ret a ->
        strptime_datetime (date ++ " " ++ et) = Ret b ->
        (dt_ltb a b = false ->
         book_medical_appointment uuid4 sched date st et name type
         = Some (Ret (error_result
                        "Appointment start time must be before end time."
                        "INVALID_TIME_RANGE", sched)))
        /\ (dt_ltb a b = true -> PyDict.get sched date = None ->
            book_medical_appointment uuid4 sched date st et name type
            = Some (Ret (error_result
                           ("No appointment slots available on " ++ date
                            ++ ".")
                           "DATE_NOT_AVAILABLE", sched)))
        /\ (forall daily slots,
              dt_ltb a b = true -> PyDict.get sched date = Some daily ->
              calc_required_time_slots a b = Some (Ret slots) ->
              (exists s, In s slots
                         /\ PyDict.get daily s <> Some "available") ->
              exists slot existing,
                book_medical_appointment uuid4 sched date st et name type
                = Some (Ret (slot_conflict_result date slot existing, sched))
                /\ error_code_of (slot_conflict_result date slot existing)
                   = Some (VStr "SLOT_ALREADY_BOOKED")))
  /\ NoDup [ "MISSING_PATIENT_NAME"; "INVALID_DATETIME_FORMAT";
             "INVALID_TIME_RANGE"; "DATE_NOT_AVAILABLE";
             "SLOT_ALREADY_BOOKED" ].
Proof.
  split; [|split; [|split]].
  - intros Hn. unfold book_medical_appointment.
    apply name_check in Hn. now rewrite Hn.
  - intros Hn P. unfold book_medical_appointment.
    rewrite (name_check_false _ Hn).
    destruct (strptime_datetime (date ++ " " ++ st)) as [a|e] eqn:Ha;
      cbn [bind].
    + destruct P as [(e & [=])|(e & Hb)]. rewrite Hb.
      apply strptime_datetime_raise in Hb. now subst e.
    + apply strptime_datetime_raise in Ha. now subst e.
  - intros a b Hn Ha Hb. split; [|split].
    + intros L. unfold book_medical_appointment.
      rewrite (name_check_false _ Hn), Ha, Hb. cbn [bind].
      unfold dt_geb. now rewrite L.
    + intros L G. unfold book_medical_appointment.
      rewrite (name_check_false _ Hn), Ha, Hb. cbn [bind].
      unfold dt_geb, PyDict.contains. now rewrite L, G.
    + intros daily slots L G C X.
      destruct (first_conflict_exists daily slots X) as (slot & existing & F).
      exists slot, existing. split; [|reflexivity].
      rewrite (book_after_checks uuid4 sched date st et name type a b daily
                 slots) by assumption.
      now rewrite F.
  - repeat constructor; simpl; intuition discriminate.
Qed.

(** The five checks, each failing in turn on the scenario. *)
Lemma C5_witness :
  book_medical_appointment 9 scenario_booked "2024-07-99" "25:00" "10:00"
    "   " None
  = Some (Ret (error_result
                 "Patient name is required to book an appointment."
                 "MISSING_PATIENT_NAME", scenario_booked))
  /\ book_medical_appointment 9 scenario_booked "2024-07-01" "11:00" "9am"
       "Bob" None
     = Some (Ret (error_result
                    "Invalid date or time format. Please use YYYY-MM-DD for date and HH:MM for time."
                    "INVALID_DATETIME_FORMAT", scenario_booked))
  /\ book_medical_appointment 9 scenario_booked "2024-08-01" "11:00" "10:00"
       "Bob" None
     = Some (Ret (error_result
                    "Appointment start time must be before end time."
                    "INVALID_TIME_RANGE", scenario_booked))
  /\ book_medical_appointment 9 scenario_booked "2024-08-01" "09:00" "10:00"
       "Bob" None
     = Some (Ret (error_result
                    "No appointment slots available on 2024-08-01."
                    "DATE_NOT_AVAILABLE", scenario_booked)).
Proof.
  split; [|split; [|split]].
  - apply (proj1 (C5_validation_order 9 scenario_booked "2024-07-99" "25:00"
                    "10:00" "   " None)).
    reflexivity.
  - apply (proj1 (proj2 (C5_validation_order 9 scenario_booked "2024-07-01"
                           "11:00" "9am" "Bob" None))).
    + discriminate.
    + right. exists ValueError. vm_compute. reflexivity.
  - apply (proj1 (proj2 (proj2 (C5_validation_order 9 scenario_booked
                                  "2024-08-01" "11:00" "10:00" "Bob" None)))
             (mkdatetime (mkdate 2024 8 1) 11 0)
             (mkdatetime (mkdate 2024 8 1) 10 0));
      [discriminate | vm_compute; reflexivity ..].
  - apply (proj1 (proj2 (proj2 (C5_validation_order 9 scenario_booked
                                  "2024-08-01" "09:00" "10:00" "Bob" None)))
             (mkdatetime (mkdate 2024 8 1) 9 0)
             (mkdatetime (mkdate 2024 8 1) 10 0));
      [discriminate | vm_compute; reflexivity ..].
Defined.

(** C6.  [list_appointment_availabilities] answers a date that does
    not parse with [INVALID_DATE_FORMAT], whatever the clock says; a
    date that parses and is before today with [PAST_DATE_NOT_ALLOWED];
    and a date that parses, is not before today and has no day schedule
    (or an empty one) with a successful report that has no slots:
    [total_slots] 0, no available slot, no booked appointment.  Today's
    date itself is answered with a success. *)
Theorem C6_list_validation
  (today : date) (sched : schedule) (appointment_date : string) :
  (forall e, strptime_date appointment_date = Raise e ->
     list_appointment_availabilities today sched appointment_date
     = Ret (error_result
              "Invalid date format. Please provide date in YYYY-MM-DD format."
              "INVALID_DATE_FORMAT"))
  /\ (forall d, strptime_date appointment_date = Ret d ->
        (ltb d today = true ->
         list_appointment_availabilities today sched appointment_date
         = Ret (error_result
                  ("Cannot check availability for past date: "
                   ++ appointment_date)
                  "PAST_DATE_NOT_ALLOWED"))
        /\ (ltb d today = false ->
            PyDict.get sched appointment_date = None
            \/ PyDict.get sched appointment_date = Some [] ->
            list_appointment_availabilities today sched appointment_date
            = Ret (empty_report appointment_date)))
  /\ status_of (empty_report appointment_date) = Some (VStr "success")
  /\ PyDict.get (empty_report appointment_date) "total_slots"
     = Some (VInt 0)
  /\ PyDict.get (empty_report appointment_date) "available_slots"
     = Some (VList [])
  /\ PyDict.get (empty_report appointment_date) "booked_appointments"
     = Some (VStrDict [])
  /\ (valid today = true ->
      exists r, list_appointment_availabilities today sched (isoformat today)
                = Ret r
                /\ status_of r = Some (VStr "success")).
Proof.
  split; [|split; [|repeat split]].
  - intros e H. unfold list_appointment_availabilities. rewrite H.
    apply strptime_date_raise in H. now subst e.
  - intros d H. unfold list_appointment_availabilities. rewrite H. split.
    + now intros ->.
    + intros -> [->| ->]; reflexivity.
  - intros V. unfold list_appointment_availabilities.
    rewrite (strptime_isoformat _ V), ltb_irrefl.
    destruct (PyDict.get sched (isoformat today)) as [[|kv daily]|];
      eexists; split; reflexivity.
Qed.

(** In the scenario: a malformed date, the day before the first day,
    and a date beyond the seven days. *)
Lemma C6_witness :
  list_appointment_availabilities jul1 scenario_booked "01/07/2024"
  = Ret (error_result
           "Invalid date format. Please provide date in YYYY-MM-DD format."
           "INVALID_DATE_FORMAT")
  /\ list_appointment_availabilities jul1 scenario_booked "2024-06-30"
     = Ret (error_result
              "Cannot check availability for past date: 2024-06-30"
              "PAST_DATE_NOT_ALLOWED")
  /\ list_appointment_availabilities jul1 scenario_booked "2024-07-08"
     = Ret (empty_report "2024-07-08").
Proof.
  split; [|split].
  - apply (proj1 (C6_list_validation jul1 scenario_booked "01/07/2024")
             ValueError).
    vm_compute. reflexivity.
  - apply (proj1 (proj1 (proj2 (C6_list_validation jul1 scenario_booked
                                  "2024-06-30")) (mkdate 2024 6 30) eq_refl)).
    reflexivity.
  - apply (proj2 (proj1 (proj2 (C6_list_validation jul1 scenario_booked
                                  "2024-07-08")) (mkdate 2024 7 8) eq_refl)).
    + reflexivity.
    + left. vm_compute. reflexivity.
Defined.

(** C8.  When every slot of the span is ["available"], a call of
    [book_medical_appointment] that reaches the derivation of its span
    returns a success: its details carry the patient name, the
    appointment type, the date, the start and the end time as given, an
    identifier of 8 characters, the number of keys of the span as
    [duration_hours] and the keys themselves as [booked_slots]; the
    slots of the span then hold the booking.  In the scenario, booking
    09:00-11:00 on the free first day gives a duration of 2 and the
    slots 09:00 and 10:00. *)
Theorem C8_booking_succeeds
  (uuid4 : N) (sched : schedule) (date st et name : string)
  (type : option string) (a b : datetime) (daily : PyDict.dict string)
  (slots : list string) :
  PyStr.strip name <> "" ->
  strptime_datetime (date ++ " " ++ st) = Ret a ->
  strptime_datetime (date ++ " " ++ et) = Ret b ->
  dt_ltb a b = true ->
  PyDict.get sched date = Some daily ->
  calc_required_time_slots a b = Some (Ret slots) ->
  Forall (fun s => PyDict.get daily s = Some "available") slots ->
  exists r sched',
    book_medical_appointment uuid4 sched date st et name type
    = Some (Ret (r, sched'))
    /\ status_of r = Some (VStr "success")
    /\ details_of r "appointment_id" = Some (VStr (booking_id uuid4))
    /\ String.length (booking_id uuid4) = 8%nat
    /\ details_of r "patient_name" = Some (VStr name)
    /\ details_of r "appointment_type" = Some (val_opt type)
    /\ details_of r "date" = Some (VStr date)
    /\ details_of r "start_time" = Some (VStr st)
    /\ details_of r "end_time" = Some (VStr et)
    /\ details_of r "duration_hours"
       = Some (VInt (Z.of_nat (List.length slots)))
    /\ details_of r "booked_slots" = Some (VList slots)
    /\ (forall t, In t slots ->
                  slot_state sched' date t = Some (booking_info name type))
    /\ exists r0,
         book_medical_appointment 0 scenario_schedule "2024-07-01" "09:00"
           "11:00" "Jane Doe" (Some "consultation")
         = Some (Ret (r0, scenario_booked))
         /\ details_of r0 "duration_hours" = Some (VInt 2)
         /\ details_of r0 "booked_slots" = Some (VList ["09:00"; "10:00"]).
Proof.
  intros Hn Ha Hb L G C F.
  exists (booking_success_result (booking_id uuid4) name type date st et
            slots),
    (PyDict.set sched date (commit daily slots (booking_info name type))).
  split.
  { rewrite (book_after_checks uuid4 sched date st et name type a b daily
               slots) by assumption.
    apply first_conflict_none in F. now rewrite F. }
  repeat split.
  - intros t I. rewrite slot_state_set, String.eqb_refl.
    now apply commit_get_in.
  - exists (booking_success_result (booking_id 0) "Jane Doe"
              (Some "consultation") "2024-07-01" "09:00" "11:00"
              ["09:00"; "10:00"]).
    repeat split.
Qed.

(** The booking of the scenario. *)
Lemma C8_witness :
  exists r sched',
    book_medical_appointment 0 scenario_schedule "2024-07-01" "09:00" "11:00"
      "Jane Doe" (Some "consultation")
    = Some (Ret (r, sched'))
    /\ status_of r = Some (VStr "success").
Proof.
  destruct (C8_booking_succeeds 0 scenario_schedule "2024-07-01" "09:00"
              "11:00" "Jane Doe" (Some "consultation")
              (mkdatetime jul1 9 0) (mkdatetime jul1 11 0) fresh_day
              ["09:00"; "10:00"])
    as (r & sched' & B & S & _).
  - discriminate.
  - vm_compute. reflexivity.
  - vm_compute. reflexivity.
  - vm_compute. reflexivity.
  - vm_compute. reflexivity.
  - vm_compute. reflexivity.
  - repeat constructor.
  - exists r, sched'. split; assumption.
Defined.

(** C9.  What a booking stores in a slot, the patient name followed by
    the appointment type in brackets, is never the string
    ["available"], whatever the name and the type.  So after a booking,
    every slot of its span holds that value, and in any report that
    [list_appointment_availabilities] then gives for the date the slot
    is not among [available_slots] and is among [booked_appointments]
    with the booking as its value. *)
Theorem C9_booked_never_listed_available
  (uuid4 : N) (sched : schedule) (date st et name : string)
  (type : option string) (r : PyDict.dict pyval) (sched' : schedule)
  (t : string) (today : PyDate.date) (rep : PyDict.dict pyval) :
  (forall daily, PyDict.get sched date = Some daily -> PyDict.wf daily) ->
  book_medical_appointment uuid4 sched date st et name type
  = Some (Ret (r, sched')) ->
  In t (booked_slots_of r) ->
  list_appointment_availabilities today sched' date = Ret rep ->
  booking_info name type <> "available"
  /\ slot_state sched' date t = Some (booking_info name type)
  /\ (forall av, PyDict.get rep "available_slots" = Some (VList av) ->
                 ~ In t av)
  /\ (forall bk, PyDict.get rep "booked_appointments" = Some (VStrDict bk) ->
                 PyDict.get bk t = Some (booking_info name type)).
Proof.
  intros W B I R.
  pose proof (booking_info_not_available name type) as N.
  pose proof (book_success_state _ _ _ _ _ _ _ _ _ B date t) as S.
  rewrite String.eqb_refl in S.
  destruct (in_dec string_dec t (booked_slots_of r)); [|contradiction].
  simpl in S. split; [assumption|]. split; [assumption|].
  apply book_inv in B.
  destruct B as [(_ & _ & D)|(a & b & daily & slots & _ & _ & _ & _ & G & _
                              & _ & -> & ->)].
  { unfold booked_slots_of, details_of in I. rewrite D in I. destruct I. }
  unfold slot_state in S. rewrite get_set_same in S.
  assert (PyDict.wf (commit daily slots (booking_info name type))) as W'
      by (apply wf_commit, W, G).
  destruct (partition_booked _ _ _ W' S N) as (P1 & P2).
  unfold list_appointment_availabilities in R.
  destruct (strptime_date date) as [d|[]]; try discriminate.
  - destruct (ltb d today).
    + injection R as <-. split; intros ? [=].
    + rewrite get_set_same in R.
      destruct (commit daily slots (booking_info name type)) as [|kv rest]
        eqn:E; [discriminate|].
      injection R as <-. split.
      * intros av [= <-]. exact P1.
      * intros bk [= <-]. exact P2.
  - injection R as <-. split; intros ? [=].
Qed.

(** The report of the first day after the booking of the scenario. *)
Lemma C9_witness :
  booking_info "Jane Doe" (Some "consultation") <> "available"
  /\ slot_state scenario_booked "2024-07-01" "10:00"
     = Some (booking_info "Jane Doe" (Some "consultation"))
  /\ (forall av,
        PyDict.get
          (day_report "2024-07-01"
             ["08:00"; "11:00"; "12:00"; "13:00"; "14:00"; "15:00"; "16:00"]
             [("09:00", "Jane Doe (consultation)");
              ("10:00", "Jane Doe (consultation)")] 9)
          "available_slots" = Some (VList av) ->
        ~ In "10:00" av)
  /\ (forall bk,
        PyDict.get
          (day_report "2024-07-01"
             ["08:00"; "11:00"; "12:00"; "13:00"; "14:00"; "15:00"; "16:00"]
             [("09:00", "Jane Doe (consultation)");
              ("10:00", "Jane Doe (consultation)")] 9)
          "booked_appointments" = Some (VStrDict bk) ->
        PyDict.get bk "10:00"
        = Some (booking_info "Jane Doe" (Some "consultation"))).
Proof.
  apply (C9_booked_never_listed_available 0 scenario_schedule "2024-07-01"
           "09:00" "11:00" "Jane Doe" (Some "consultation")
           (booking_success_result (booking_id 0) "Jane Doe"
              (Some "consultation") "2024-07-01" "09:00" "11:00"
              ["09:00"; "10:00"])
           scenario_booked "10:00" jul1).
  - intros daily [= <-]. unfold PyDict.wf.
    repeat constructor; simpl; intuition discriminate.
  - vm_compute. reflexivity.
  - simpl. tauto.
  - vm_compute. reflexivity.
Defined.

(** C10.  [book_medical_appointment] takes no reading of the clock:
    a request that passes the checks on its arguments, for a date that
    has a day schedule, with every slot of its span available, is
    booked.  In particular, on the schedule initialised on a day [today]
    of a year with four digits, a booking of 08:00-09:00 on [today]
    itself succeeds at whatever time [now] of that day the request is
    made, also after 08:00.  Dates before [today] are refused only
    because they are no keys of the schedule: every key the
    initialisation makes is what [strftime] prints for a date that is
    not before [today], and from the year 1000 on [strptime] reads that
    date from the key. *)
Theorem C10_booking_reads_no_clock
  (today : date) (sched : schedule) (uuid4 : N) (name : string)
  (type : option string) :
  valid today = true -> module_load today = Ret sched ->
  PyStr.strip name <> "" ->
  (forall uuid4' sched' date st et name' type' a b daily slots,
     PyStr.strip name' <> "" ->
     strptime_datetime (date ++ " " ++ st) = Ret a ->
     strptime_datetime (date ++ " " ++ et) = Ret b ->
     dt_ltb a b = true ->
     PyDict.get sched' date = Some daily ->
     calc_required_time_slots a b = Some (Ret slots) ->
     Forall (fun s => PyDict.get daily s = Some "available") slots ->
     book_medical_appointment uuid4' sched' date st et name' type'
     = Some (Ret (booking_success_result (booking_id uuid4') name' type' date
                    st et slots,
                  PyDict.set sched' date
                    (commit daily slots (booking_info name' type')))))
  /\ (1000 <= year today ->
      forall now : datetime,
        dt_date now = today ->
        dt_ltb (mkdatetime today 8 0) now = true ->
        book_medical_appointment uuid4 sched (strftime today) "08:00" "09:00"
          name type
        = Some (Ret (booking_success_result (booking_id uuid4) name type
                       (strftime today) "08:00" "09:00" ["08:00"],
                     PyDict.set sched (strftime today)
                       (commit fresh_day ["08:00"]
                          (booking_info name type)))))
  /\ (forall key, In key (PyDict.keys sched) ->
        exists d, key = strftime d /\ ltb d today = false
                  /\ (1000 <= year today -> strptime_date key = Ret d)).
Proof.
  intros V M Hn.
  assert (forall uuid4' sched' date st et name' type' a b daily slots,
     PyStr.strip name' <> "" ->
     strptime_datetime (date ++ " " ++ st) = Ret a ->
     strptime_datetime (date ++ " " ++ et) = Ret b ->
     dt_ltb a b = true ->
     PyDict.get sched' date = Some daily ->
     calc_required_time_slots a b = Some (Ret slots) ->
     Forall (fun s => PyDict.get daily s = Some "available") slots ->
     book_medical_appointment uuid4' sched' date st et name' type'
     = Some (Ret (booking_success_result (booking_id uuid4') name' type' date
                    st et slots,
                  PyDict.set sched' date
                    (commit daily slots (booking_info name' type')))))
    as General.
  { intros uuid4' sched' date st et name' type' a b daily slots
      Hn' Ha Hb L G C F.
    rewrite (book_after_checks uuid4' sched' date st et name' type' a b daily
               slots) by assumption.
    apply first_conflict_none in F. now rewrite F. }
  unfold module_load, initialize_medical_schedule in M.
  destruct (init_for_each _ _ _ _ M) as (_ & Q & R).
  split; [exact General|]. split.
  - intros Y now _ _.
    destruct (Q 0) as (d0 & A0 & G0); [apply py_range_In; lia|].
    injection A0 as <-.
    destruct (Q 6) as (d6 & A6 & _); [apply py_range_In; lia|].
    assert (0 <= 6) as H6 by lia.
    destruct (add_days_ret _ _ _ V H6 A6) as (V6 & O6).
    pose proof (toordinal_le_max _ V6) as Le.
    set (a := mkdatetime today 8 0). set (b := mkdatetime today 9 0).
    assert (dt_valid a = true) as Va
        by (apply dt_valid_iff; simpl; repeat split; auto; lia).
    assert (dt_valid b = true) as Vb
        by (apply dt_valid_iff; simpl; repeat split; auto; lia).
    apply (General uuid4 sched (strftime today) "08:00" "09:00" name type
             a b fresh_day ["08:00"]).
    + assumption.
    + apply (strptime_strftime_HM today 8 0); auto; lia.
    + apply (strptime_strftime_HM today 9 0); auto; lia.
    + apply dt_ltb_iff. right. simpl. split; [reflexivity | lia].
    + assumption.
    + destruct (calc_required_time_slots_total a b Va Vb) as ([l|e] & C).
      * rewrite C. do 2 f_equal.
        rewrite (slots_loop_keys _ _ _ _ _ Va Vb C).
        assert (span_length a b = 1%nat) as ->
            by (unfold span_length, dt_minutes; simpl; lia).
        reflexivity.
      * apply slots_loop_raise in C; auto. destruct C as (_ & Dm).
        simpl in Dm. subst today. rewrite toordinal_max in O6. lia.
    + repeat constructor.
  - intros key I. destruct (R key I) as [[]|(k & d & Ik & A & ->)].
    apply py_range_In in Ik.
    assert (0 <= k) as Hk by lia.
    destruct (add_days_ret _ _ _ V Hk A) as (Vd & O).
    assert (toordinal today <= toordinal d) as Le by lia.
    exists d. split; [reflexivity|]. split; [now apply not_before|].
    intros Y. apply strptime_strftime; [assumption|].
    pose proof (year_mono _ _ V Vd Le). lia.
Qed.

(** On the schedule of the scenario, at noon of the first day. *)
Lemma C10_witness :
  book_medical_appointment 1 scenario_schedule (strftime jul1) "08:00" "09:00"
    "Bob" None
  = Some (Ret (booking_success_result (booking_id 1) "Bob" None
                 (strftime jul1) "08:00" "09:00" ["08:00"],
               PyDict.set scenario_schedule (strftime jul1)
                 (commit fresh_day ["08:00"] (booking_info "Bob" None)))).
Proof.
  refine (proj1 (proj2 (C10_booking_reads_no_clock jul1 scenario_schedule 1
                          "Bob" None _ _ _))
            _ (mkdatetime jul1 12 0) _ _).
  - reflexivity.
  - vm_compute. reflexivity.
  - discriminate.
  - simpl. lia.
  - reflexivity.
  - reflexivity.
Defined.

(** C7.  The range query of the neurologist's office,
    [check_neurologist_appointment_availability], answers with the
    format error when either date does not parse, with the range error
    when the start date is after the end date, and with the past-dates
    error exactly when, these two checks passed, the end date is before
    today: a range that starts in the past and ends today or later is
    accepted.  For an accepted range the answer is the lines of the
    dates from the start date to the end date, both included, one line
    per date in ascending order of date, joined by line feeds; the
    function returns this text and assigns to nothing.  Each date of
    the range is looked up under the text [strftime] prints for it.  On
    a schedule made by the initialisation, the line of a date that holds
    times lists exactly these times, which are in order, and the line of
    a date that is no key or holds no time says that there are no
    slots.  The range query of the pulmonologist's office, [_run], does
    the same on the two ends of its one argument, without any check
    against the clock. *)
Theorem C7_range_query
  (today0 today : date) (sample : Z -> list string)
  (sched psched : PyDict.dict (list string)) (s e date_range : string) :
  Neurologist.initialize_neurologist_appointment_schedule today0 sample
  = Ret sched ->
  Pulmonologist.generate_appointment_schedule today0 sample = Ret psched ->
  ((exists x, strptime_date s = Raise x)
   \/ (exists x, strptime_date e = Raise x) ->
   Neurologist.check_neurologist_appointment_availability today sched s e
   = Ret Neurologist.MSG_FORMAT)
  /\ (forall ds de,
        strptime_date s = Ret ds -> strptime_date e = Ret de ->
        (gtb ds de = true ->
         Neurologist.check_neurologist_appointment_availability today sched
           s e
         = Ret Neurologist.MSG_RANGE)
        /\ (gtb ds de = false -> ltb de today = true ->
            Neurologist.check_neurologist_appointment_availability today
              sched s e
            = Ret Neurologist.MSG_PAST)
        /\ (gtb ds de = false -> ltb de today = false ->
            Neurologist.check_neurologist_appointment_availability today
              sched s e
            = Ret (PyStr.join PyStr.LF
                     (map (fun d => Neurologist.day_availability sched
                                      (strftime d))
                          (days_from ds (Z.to_nat (sub_days de ds + 1)))))
            /\ Sorted (fun x y => ltb x y = true)
                 (days_from ds (Z.to_nat (sub_days de ds + 1)))
            /\ (forall d, valid d = true ->
                  (In d (days_from ds (Z.to_nat (sub_days de ds + 1)))
                   <-> leb ds d = true /\ leb d de = true))))
  /\ (forall date_string,
        (forall slots,
            PyDict.get sched date_string = Some slots -> slots <> [] ->
            Sorted (fun x y => String.leb x y = true) slots
            /\ Neurologist.day_availability sched date_string
               = CALENDAR ++ " " ++ date_string
                 ++ ": Neurologist available at " ++ PyStr.join ", " slots
                 ++ " for consultations.")
        /\ (PyDict.get sched date_string = None
            \/ PyDict.get sched date_string = Some [] ->
            Neurologist.day_availability sched date_string
            = CALENDAR ++ " " ++ date_string
              ++ ": No neurologist appointment slots available."))
  /\ (forall ps pe,
        ps = hd "" (map PyStr.strip (PyStr.split "to" date_range)) ->
        pe = last (map PyStr.strip (PyStr.split "to" date_range)) "" ->
        ((exists x, strptime_date ps = Raise x)
         \/ (exists x, strptime_date pe = Raise x) ->
         Pulmonologist._run psched date_range = Ret Pulmonologist.MSG_FORMAT)
        /\ (forall ds de,
              strptime_date ps = Ret ds -> strptime_date pe = Ret de ->
              (gtb ds de = true ->
               Pulmonologist._run psched date_range
               = Ret Pulmonologist.MSG_RANGE)
              /\ (gtb ds de = false ->
                  Pulmonologist._run psched date_range
                  = Ret (PyStr.join PyStr.LF
                           (map (fun d => Pulmonologist.availability psched
                                            (strftime d))
                                (days_from ds
                                   (Z.to_nat (sub_days de ds + 1))))))))
  /\ (forall date_str,
        (forall slots,
            PyDict.get psched date_str = Some slots -> slots <> [] ->
            Sorted (fun x y => String.leb x y = true) slots
            /\ Pulmonologist.availability psched date_str
               = "On " ++ date_str
                 ++ ", the pulmonologist has available appointment slots at: "
                 ++ PyStr.join ", " slots ++ ".")
        /\ (PyDict.get psched date_str = None
            \/ PyDict.get psched date_str = Some [] ->
            Pulmonologist.availability psched date_str
            = "No appointment slots available on " ++ date_str ++ ".")).
Proof.
  intros I P.
  assert (forall (g : PyDict.dict (list string)),
             Neurologist.initialize_neurologist_appointment_schedule today0
               sample = Ret g ->
             forall key slots, PyDict.get g key = Some slots ->
                               Sorted (fun x y => String.leb x y = true) slots)
    as Gen.
  { intros g H key slots G.
    destruct (generated_sorted _ _ _ _ _ H key slots G) as [[=]|S].
    exact S. }
  split; [|split; [|split; [|split]]].
  - intros F. unfold Neurologist.check_neurologist_appointment_availability.
    destruct (strptime_date s) as [ds|x] eqn:Hs; cbn [bind].
    + destruct F as [(x & [=])|(x & He)]. rewrite He.
      apply strptime_date_raise in He. now subst x.
    + apply strptime_date_raise in Hs. now subst x.
  - intros ds de Hs He.
    unfold Neurologist.check_neurologist_appointment_availability.
    rewrite Hs, He. cbn [bind]. split; [|split].
    + now intros ->.
    + now intros -> ->.
    + intros G T. rewrite G, T. cbv zeta.
      pose proof (strptime_date_valid _ _ Hs) as Vs.
      pose proof (strptime_date_valid _ _ He) as Ve.
      destruct (range_accepted (Neurologist.day_availability sched) ds de
                  Vs Ve G) as (R & N & S & M & _).
      rewrite R. cbn [bind]. split; [|split; assumption].
      destruct (days_from ds (Z.to_nat (sub_days de ds + 1)));
        [contradiction | reflexivity].
  - intros key. unfold Neurologist.day_availability, PyDict.get_default.
    split.
    + intros slots G N. split; [exact (Gen sched I key slots G)|].
      rewrite G. destruct slots; [contradiction | reflexivity].
    + intros [G|G]; rewrite G; reflexivity.
  - intros ps pe -> ->. split.
    + intros F. unfold Pulmonologist._run. cbv zeta.
      destruct (strptime_date
                  (hd "" (map PyStr.strip (PyStr.split "to" date_range))))
        as [ds|x] eqn:Hs; cbn [bind].
      * destruct F as [(x & [=])|(x & He)]. rewrite He.
        apply strptime_date_raise in He. now subst x.
      * apply strptime_date_raise in Hs. now subst x.
    + intros ds de Hs He. unfold Pulmonologist._run. cbv zeta.
      rewrite Hs, He. cbn [bind]. split.
      * now intros ->.
      * intros G. rewrite G.
        pose proof (strptime_date_valid _ _ Hs) as Vs.
        pose proof (strptime_date_valid _ _ He) as Ve.
        destruct (range_accepted (Pulmonologist.availability psched) ds de
                    Vs Ve G) as (R & _).
        rewrite R. reflexivity.
  - intros key. unfold Pulmonologist.availability, PyDict.get_default.
    split.
    + intros slots G N. split; [exact (Gen psched P key slots G)|].
      rewrite G. destruct slots; [contradiction | reflexivity].
    + intros [G|G]; rewrite G; reflexivity.
Qed.

(** On the schedule of the scenario, asked on 2024-07-03: a range given
    backwards, a range that ended the day before, a range from
    2024-06-30 to 2024-07-03, and the line of the first day. *)
Lemma C7_witness :
  Neurologist.check_neurologist_appointment_availability (mkdate 2024 7 3)
    scenario_neurologist "2024-07-05" "2024-07-04"
  = Ret Neurologist.MSG_RANGE
  /\ Neurologist.check_neurologist_appointment_availability (mkdate 2024 7 3)
       scenario_neurologist "2024-07-01" "2024-07-02"
     = Ret Neurologist.MSG_PAST
  /\ Neurologist.check_neurologist_appointment_availability (mkdate 2024 7 3)
       scenario_neurologist "2024-06-30" "2024-07-03"
     = Ret (PyStr.join PyStr.LF
              (map (fun d => Neurologist.day_availability scenario_neurologist
                               (strftime d))
                   [mkdate 2024 6 30; mkdate 2024 7 1; mkdate 2024 7 2;
                    mkdate 2024 7 3]))
  /\ Neurologist.day_availability scenario_neurologist "2024-07-01"
     = CALENDAR ++ " " ++ "2024-07-01" ++ ": Neurologist available at "
       ++ PyStr.join ", "
            ["08:00"; "09:00"; "10:00"; "12:00"; "14:00"; "16:00"]
       ++ " for consultations.".
Proof.
  split; [|split; [|split]].
  4:{ refine (proj2 (proj1 (proj1 (proj2 (proj2
                (C7_range_query jul1 (mkdate 2024 7 3) scenario_sample
                   scenario_neurologist scenario_neurologist "" "" "" _ _)))
                "2024-07-01")
                ["08:00"; "09:00"; "10:00"; "12:00"; "14:00"; "16:00"] _ _));
        [vm_compute; reflexivity ..|discriminate]. }
  - refine (proj1 (proj1 (proj2 (C7_range_query jul1 (mkdate 2024 7 3)
                                   scenario_sample scenario_neurologist
                                   scenario_neurologist "2024-07-05"
                                   "2024-07-04" "" _ _))
                     (mkdate 2024 7 5) (mkdate 2024 7 4) _ _) _);
      vm_compute; reflexivity.
  - refine (proj1 (proj2 (proj1 (proj2 (C7_range_query jul1 (mkdate 2024 7 3)
                                          scenario_sample scenario_neurologist
                                          scenario_neurologist "2024-07-01"
                                          "2024-07-02" "" _ _))
                            (mkdate 2024 7 1) (mkdate 2024 7 2) _ _)) _ _);
      vm_compute; reflexivity.
  - refine (proj1 (proj2 (proj2 (proj1 (proj2
              (C7_range_query jul1 (mkdate 2024 7 3) scenario_sample
                 scenario_neurologist scenario_neurologist "2024-06-30"
                 "2024-07-03" "" _ _))
              (mkdate 2024 6 30) (mkdate 2024 7 3) _ _)) _ _));
      vm_compute; reflexivity.
Defined.


(* ================================================================== *)
(** * Further properties of the code *)

(** ** Printed dates *)

Module PrintFacts.
Import PyDate PyDateFacts PyStrptimeFacts PyDictFacts InitFacts RangeFacts.

(** A field below 100 prints as its two decimal digits. *)
Lemma fmt2_digits n :
  0 <= n <= 99 ->
  PyStr.fmt_0d 2 n
  = String (PyStr.digit_char (n / 10))
      (String (PyStr.digit_char (n mod 10)) "").
Proof.
  intros H. unfold PyStr.fmt_0d, PyStr.decimal.
  destruct (Z_lt_le_dec n 10) as [L1|L1].
  { simpl. replace (n / 10 =? 0) with true by lia. simpl.
    replace (n / 10) with 0 by lia. reflexivity. }
  destruct (log2_fuel n 1) as (f & ->); [simpl; lia|]. simpl.
  replace (n / 10 =? 0) with false by lia.
  replace (n / 10 / 10 =? 0) with true by lia. simpl.
  replace ((n / 10) mod 10) with (n / 10) by lia. reflexivity.
Qed.

Lemma digit_char_date_char k :
  0 <= k <= 9 -> date_char (PyStr.digit_char k) = true.
Proof. intros H. split_range k 0; reflexivity. Qed.

Lemma digit_char_inj j k :
  0 <= j <= 9 -> 0 <= k <= 9 -> PyStr.digit_char j = PyStr.digit_char k ->
  j = k.
Proof.
  intros Hj Hk E. pose proof (digit_val_char j Hj) as D.
  rewrite E, (digit_val_char k Hk) in D. congruence.
Qed.

(** The zero-filled text of a date has no white space and no letter
    t. *)
Lemma isoformat_date_chars d :
  valid d = true -> all_chars date_char (isoformat d) = true.
Proof.
  intros V. apply valid_iff in V. destruct V as (Hy & Hm & Hd).
  pose proof (days_in_month_pos (year d) (month d) Hm).
  unfold isoformat. rewrite fmt4_digits, !fmt2_digits by lia.
  cbn [append all_chars].
  rewrite !digit_char_date_char by lia. reflexivity.
Qed.

Lemma length_app_string (a b : string) :
  String.length (a ++ b) = (String.length a + String.length b)%nat.
Proof. induction a as [|c a IH]; simpl; [reflexivity | now rewrite IH]. Qed.

(** The zero-filled text is what [strftime] prints after the zeros that
    fill the year. *)
Lemma isoformat_strftime d :
  isoformat d
  = PyStr.zeros (4 - String.length (PyStr.decimal (year d))) ++ strftime d.
Proof.
  unfold isoformat, strftime. unfold PyStr.fmt_0d at 1. cbv zeta.
  now rewrite append_assoc.
Qed.

(** What [strftime] prints tells the date, also before the year 1000. *)
Lemma strftime_inj d1 d2 :
  valid d1 = true -> valid d2 = true -> strftime d1 = strftime d2 -> d1 = d2.
Proof.
  intros V1 V2 E.
  assert (String.length (PyStr.decimal (year d1))
          = String.length (PyStr.decimal (year d2))) as L.
  { pose proof V1 as V1'. pose proof V2 as V2'.
    apply valid_iff in V1', V2'.
    destruct V1' as (_ & Hm1 & Hd1), V2' as (_ & Hm2 & Hd2).
    pose proof (days_in_month_pos (year d1) (month d1) Hm1).
    pose proof (days_in_month_pos (year d2) (month d2) Hm2).
    apply (f_equal String.length) in E. unfold strftime in E.
    rewrite !fmt2_digits in E by lia.
    rewrite !length_app_string in E. simpl in E. lia. }
  assert (isoformat d1 = isoformat d2) as I
      by now rewrite !isoformat_strftime, L, E.
  pose proof (strptime_isoformat _ V1) as P1.
  rewrite I, (strptime_isoformat _ V2) in P1. congruence.
Qed.

(** The seven days from [today]. *)
Lemma days_from_week today :
  valid today = true -> toordinal today + 6 <= MAXORDINAL ->
  Forall (fun d => valid d = true) (days_from today 7)
  /\ map toordinal (days_from today 7)
     = map (fun i => toordinal today + Z.of_nat i) (seq 0 7).
Proof. intros V L. apply days_from_ord; [assumption | lia]. Qed.

Lemma days_from_not_in start n d :
  valid start = true -> toordinal start + Z.of_nat n <= MAXORDINAL ->
  add_days_nat start n = Ret d -> ~ In d (days_from start n).
Proof.
  intros V L A I.
  destruct (days_from_ord start n V) as (_ & E); [lia|].
  destruct (add_days_nat_ret _ _ _ V A) as (_ & O).
  apply (in_map toordinal) in I. rewrite E in I. apply in_map_iff in I.
  destruct I as (i & Ei & Ii). apply in_seq in Ii. lia.
Qed.

End PrintFacts.

(** ** The schedule of the module *)

Module CalendarFacts.
Import PyDate PyDateFacts PyStrptimeFacts PyDictFacts InitFacts RangeFacts.
Import BookingFacts ReportFacts PrintFacts.

(** The loop of [initialize_medical_schedule] on a schedule that has
    none of the new days appends them in order. *)
Lemma init_lines today n s0 :
  valid today = true -> toordinal today + Z.of_nat n <= MAXORDINAL + 1 ->
  (forall d, In d (days_from today n) -> ~ In (strftime d) (PyDict.keys s0)) ->
  for_each (py_range 0 (Z.of_nat n))
    (fun day_offset sched =>
       schedule_date <- add_days today day_offset ;;
       Ret (PyDict.set sched (strftime schedule_date) fresh_day)) s0
  = Ret (s0 ++ map (fun d => (strftime d, fresh_day)) (days_from today n))%list.
Proof.
  intros V. induction n as [|n IH]; intros L N.
  - simpl. now rewrite app_nil_r.
  - destruct (add_days_nat_ok today n V) as (d & A & Vd & O); [lia|].
    rewrite (days_from_S _ _ _ A) in N |- *.
    rewrite py_range_S, for_each_app, IH;
      [|lia|intros d' I; apply N, in_or_app; auto].
    cbn [bind for_each]. unfold add_days. rewrite Nat2Z.id, A. cbn [bind].
    rewrite set_fresh, map_app, app_assoc; [reflexivity|].
    unfold PyDict.keys. rewrite map_app, map_map. cbn [fst].
    intros I. apply in_app_or in I. destruct I as [I|I].
    + apply (N d); [apply in_or_app; simpl; auto | exact I].
    + apply in_map_iff in I. destruct I as (d' & E & I).
      destruct (days_from_ord today n V) as (F & _); [lia|].
      rewrite Forall_forall in F.
      apply strftime_inj in E; [|auto|assumption]. subst d'.
      apply (days_from_not_in today n d V); [lia | assumption | assumption].
Qed.

Lemma init_raise today ks s0 e :
  valid today = true ->
  for_each ks
    (fun day_offset sched =>
       schedule_date <- add_days today day_offset ;;
       Ret (PyDict.set sched (strftime schedule_date) fresh_day)) s0
  = Raise e ->
  e = OverflowError.
Proof.
  intros V. revert s0. induction ks as [|k ks IH]; intros s0; simpl;
    [discriminate|].
  destruct (add_days today k) as [d|e'] eqn:A; simpl; [apply IH|].
  intros [= <-]. unfold add_days in A.
  now destruct (add_days_nat_raise _ _ _ V A).
Qed.

Lemma init_other_keys today ks s0 s :
  for_each ks
    (fun day_offset sched =>
       schedule_date <- add_days today day_offset ;;
       Ret (PyDict.set sched (strftime schedule_date) fresh_day)) s0
  = Ret s ->
  (forall key,
      (forall k d, In k ks -> add_days today k = Ret d -> key <> strftime d) ->
      PyDict.get s key = PyDict.get s0 key)
  /\ (forall key, In key (PyDict.keys s0) -> In key (PyDict.keys s)).
Proof.
  revert s0. induction ks as [|k ks IH]; intros s0; simpl.
  - intros [= <-]. auto.
  - destruct (add_days today k) as [d|e] eqn:A; simpl; [|discriminate].
    intros H. destruct (IH _ H) as (P & Q). split.
    + intros key N. rewrite P by (intros k' d' I; apply N; auto).
      apply get_set_other. intros E. apply (N k d); auto.
    + intros key I. apply Q. rewrite keys_set.
      destruct (PyDict.contains s0 (strftime d)); [assumption|].
      apply in_or_app. auto.
Qed.

Lemma module_load_days_values today s0 :
  module_load today = Ret s0 ->
  forall d daily, PyDict.get s0 d = Some daily -> daily = fresh_day.
Proof.
  intros M d daily G. unfold module_load, initialize_medical_schedule in M.
  now destruct (init_values _ _ _ _ M _ _ G) as [->|[=]].
Qed.

Lemma fresh_day_values t v : PyDict.get fresh_day t = Some v -> v = "available".
Proof.
  intros G. apply get_In in G. simpl in G.
  repeat (destruct G as [G|G]; [now inversion G|]). destruct G.
Qed.

Lemma fresh_day_keys : PyDict.keys fresh_day = available_time_slots.
Proof. reflexivity. Qed.

Lemma run_snoc sched qs q : run sched (qs ++ [q]) = handle (run sched qs) q.
Proof. unfold run. now rewrite fold_left_app. Qed.

(** The shape is kept by every request. *)
Lemma handle_keeps_shape today qs sched q :
  calendar_shape today qs sched ->
  calendar_shape today (qs ++ [q]) (handle sched q).
Proof.
  intros (K & D).
  assert (calendar_shape today (qs ++ [q]) sched) as Same.
  { split; [assumption|]. intros d daily G. destruct (D d daily G) as (Kd & Vd).
    split; [assumption|]. intros t v Gt.
    destruct (Vd t v Gt) as [->|(u & st & et & n & ty & I & ->)]; [auto|].
    right. exists u, st, et, n, ty. split; [apply in_or_app; auto | reflexivity]. }
  destruct q as [now ad|uuid4 ad st et name type]; simpl; [assumption|].
  destruct (book_medical_appointment uuid4 sched ad st et name type)
    as [[[r sched']|e]|] eqn:B; try assumption.
  apply book_inv in B.
  destruct B as [(-> & _)|(a & b & daily0 & slots & _ & _ & _ & _ & G & _
                           & F & -> & _)]; [assumption|].
  apply first_conflict_none in F.
  assert (Forall (fun s => PyDict.get daily0 s <> None) slots) as Pres.
  { rewrite Forall_forall in F |- *. intros s I. rewrite (F s I). discriminate. }
  split.
  - rewrite keys_set_present; [assumption | congruence].
  - intros d daily. rewrite get_set.
    destruct (String.eqb_spec ad d) as [->|N].
    + intros [= <-]. destruct (D d daily0 G) as (Kd & Vd).
      split; [now rewrite commit_keys|].
      intros t v. rewrite commit_get.
      destruct (in_dec string_dec t slots) as [I|I].
      * intros [= <-]. right. exists uuid4, st, et, name, type.
        split; [apply in_or_app; simpl; auto | reflexivity].
      * intros Gt. destruct (Vd t v Gt) as [->|(u & st' & et' & n & ty & I' & ->)];
          [auto|].
        right. exists u, st', et', n, ty.
        split; [apply in_or_app; auto | reflexivity].
    + intros Gd. destruct Same as (_ & D'). exact (D' d daily Gd).
Qed.

(** What loading the module returns, when it returns. *)
Lemma module_load_ret today s0 :
  valid today = true -> module_load today = Ret s0 ->
  toordinal today + 6 <= MAXORDINAL
  /\ s0 = map (fun d => (strftime d, fresh_day)) (days_from today 7).
Proof.
  intros V M. pose proof M as M'.
  unfold module_load, initialize_medical_schedule in M'.
  destruct (init_for_each _ _ _ _ M') as (_ & Q & _).
  destruct (Q 6) as (d & A & _); [apply py_range_In; lia|].
  assert (0 <= 6) as H6 by lia.
  destruct (add_days_ret _ _ _ V H6 A) as (Vd & O).
  pose proof (toordinal_le_max _ Vd) as L.
  split; [lia|].
  assert (module_load today
          = Ret (map (fun d => (strftime d, fresh_day)) (days_from today 7)))
    as E.
  { unfold module_load, initialize_medical_schedule.
    apply (init_lines today 7 [] V); [lia | intros d' _ []]. }
  congruence.
Qed.

(** The schedule has the shape when the module is loaded. *)
Lemma module_load_shape today s0 :
  valid today = true -> module_load today = Ret s0 ->
  calendar_shape today [] s0.
Proof.
  intros V M. destruct (module_load_ret _ _ V M) as (_ & E). split.
  - rewrite E. unfold PyDict.keys. rewrite map_map. reflexivity.
  - intros d daily G.
    pose proof (module_load_days_values today s0 M d daily G) as ->.
    split; [reflexivity|]. intros t v Gt. left.
    now apply fresh_day_values in Gt.
Qed.

Lemma run_shape today s0 qs :
  valid today = true -> module_load today = Ret s0 ->
  calendar_shape today qs (run s0 qs).
Proof.
  intros V M. induction qs as [|q qs IH] using rev_ind.
  - now apply module_load_shape.
  - rewrite run_snoc. now apply handle_keeps_shape.
Qed.

End CalendarFacts.
Import PrintFacts CalendarFacts.

(** X1.  Loading the module on a day [today] that is at least six days
    before the end of the calendar gives the schedule of exactly seven
    dates, [today] and the six days after it in this order, each under
    the text [strftime] prints for it (YYYY-MM-DD from the year 1000
    on, a shorter year before) and with the nine free office hours; the
    seven keys differ.  Loaded on one of the last six days of the year
    9999 the initialisation raises [OverflowError]. *)
Theorem X1_module_load_week (today : date) :
  valid today = true ->
  (toordinal today + 6 <= MAXORDINAL ->
   module_load today
   = Ret (map (fun d => (strftime d, fresh_day)) (days_from today 7))
   /\ map toordinal (days_from today 7)
      = map (fun i => toordinal today + Z.of_nat i) (seq 0 7)
   /\ NoDup (map strftime (days_from today 7)))
  /\ (MAXORDINAL < toordinal today + 6 ->
      module_load today = Raise OverflowError).
Proof.
  intros V. split.
  - intros L. destruct (days_from_week today V L) as (F & E).
    split; [|split; [assumption|]].
    + unfold module_load, initialize_medical_schedule.
      apply (init_lines today 7 [] V); [lia | intros d _ []].
    + assert (NoDup (days_from today 7)) as N.
      { apply (NoDup_map_inv toordinal). rewrite E.
        apply Finite.Injective_map_NoDup; [|apply seq_NoDup].
        intros i j. lia. }
      rewrite Forall_forall in F.
      clear E. induction (days_from today 7) as [|d l IH]; simpl;
        constructor.
      * intros I. apply in_map_iff in I. destruct I as (d' & E & I).
        apply strftime_inj in E; [|apply F; simpl; auto ..].
        subst d'. now inversion N.
      * apply IH; [intros x I; apply F; simpl; auto | now inversion N].
  - intros L. destruct (module_load today) as [s|e] eqn:M.
    + unfold module_load, initialize_medical_schedule in M.
      destruct (init_for_each _ _ _ _ M) as (_ & Q & _).
      destruct (Q 6) as (d & A & _); [apply py_range_In; lia|].
      assert (0 <= 6) as H6 by lia.
      destruct (add_days_ret _ _ _ V H6 A) as (Vd & O).
      pose proof (toordinal_le_max _ Vd). lia.
    + unfold module_load, initialize_medical_schedule in M.
      apply init_raise in M; [now subst e | assumption].
Qed.

Lemma X1_witness :
  module_load jul1
  = Ret (map (fun d => (strftime d, fresh_day)) (days_from jul1 7)).
Proof.
  refine (proj1 (proj1 (X1_module_load_week jul1 _) _)).
  - reflexivity.
  - vm_compute. discriminate.
Defined.

(** X2.  Running [initialize_medical_schedule] on a schedule that is
    already there sets each of the seven days from [today], under the
    text [strftime] prints for it, to the nine free office hours,
    whatever was booked on them, and leaves every other key of the
    schedule with the day schedule it had: no date is ever removed. *)
Theorem X2_initialize_keeps_other_dates
  (today : date) (sched sched' : schedule) :
  valid today = true ->
  initialize_medical_schedule today sched = Ret sched' ->
  (forall k, 0 <= k < 7 ->
     exists d, add_days today k = Ret d
               /\ PyDict.get sched' (strftime d) = Some fresh_day)
  /\ (forall key,
        (forall k d, 0 <= k < 7 -> add_days today k = Ret d ->
                     key <> strftime d) ->
        PyDict.get sched' key = PyDict.get sched key)
  /\ (forall key, In key (PyDict.keys sched) -> In key (PyDict.keys sched')).
Proof.
  intros V M. unfold initialize_medical_schedule in M.
  destruct (init_for_each _ _ _ _ M) as (_ & Q & _).
  destruct (init_other_keys _ _ _ _ M) as (P & K).
  split; [|split].
  - intros k Hk. apply Q, py_range_In. lia.
  - intros key N. apply P. intros k d I. apply py_range_In in I.
    apply N. lia.
  - exact K.
Qed.

(** Initialised again two days later, the schedule of the scenario
    still has its first day, with Jane Doe's booking. *)
Lemma X2_witness :
  PyDict.get scenario_reinitialised "2024-07-01"
  = PyDict.get scenario_booked "2024-07-01".
Proof.
  refine (proj1 (proj2 (X2_initialize_keeps_other_dates (mkdate 2024 7 3)
                          scenario_booked scenario_reinitialised _ _))
            "2024-07-01" _).
  - reflexivity.
  - vm_compute. reflexivity.
  - intros k d Hk A. assert (k = 0 \/ k = 1 \/ k = 2 \/ k = 3 \/ k = 4
                             \/ k = 5 \/ k = 6) as C by lia.
    repeat (destruct C as [->|C]; [vm_compute in A; injection A as <-;
                                   vm_compute; discriminate|]).
    subst k. vm_compute in A. injection A as <-. vm_compute. discriminate.
Defined.

(** X3.  At any time in the life of the module, loaded on [today] and
    having served any requests [qs], the schedule has the seven days
    from [today], as [strftime] prints them, as its keys, in order;
    every day has the nine office
    hours as its keys, in order; and every slot holds either
    ["available"] or the booking of a [BookAppointment] request for that
    date among [qs]. *)
Theorem X3_calendar_shape_invariant
  (today : date) (s0 : schedule) (qs : list request) :
  valid today = true -> module_load today = Ret s0 ->
  calendar_shape today qs (run s0 qs).
Proof. apply run_shape. Qed.

Lemma X3_witness :
  calendar_shape jul1
    [ BookAppointment 0 "2024-07-01" "09:00" "11:00" "Jane Doe"
        (Some "consultation");
      ListAvailability jul1 "2024-07-01";
      BookAppointment 5 "2024-07-01" "09:30" "10:30" "Bob" None ]
    scenario_booked.
Proof.
  refine (X3_calendar_shape_invariant jul1 scenario_schedule _ _ _).
  - reflexivity.
  - vm_compute. reflexivity.
Defined.

(** ** The partition of a day *)

Module PartitionFacts.
Import PyDictFacts BookingFacts ReportFacts CalendarFacts.

Lemma filter_count {A : Type} (f : A -> bool) (l : list A) :
  (List.length (filter f l) + List.length (filter (fun x => negb (f x)) l)
   = List.length l)%nat.
Proof.
  induction l as [|x l IH]; simpl; [reflexivity|].
  destruct (f x); simpl; lia.
Qed.

(** Looking a key up among the items of a dictionary that pass a test. *)
Lemma get_filter {V : Type} (f : string * V -> bool) (d : PyDict.dict V) t :
  PyDict.wf d ->
  PyDict.get (filter f d) t
  = match PyDict.get d t with
    | Some v => if f (t, v) then Some v else None
    | None => None
    end.
Proof.
  unfold PyDict.wf, PyDict.keys. induction d as [|[k v] r IH]; intros W;
    simpl; [reflexivity|].
  inversion W as [|? ? Hn Hr]; subst.
  destruct (String.eqb_spec t k) as [->|N].
  - destruct (f (k, v)) eqn:F; simpl.
    + now rewrite String.eqb_refl.
    + rewrite IH by assumption.
      destruct (PyDict.get r k) as [v'|] eqn:G; [|reflexivity].
      exfalso. apply Hn. apply get_In in G.
      now apply (in_map fst) in G.
  - destruct (f (k, v)); simpl.
    + destruct (String.eqb_spec t k); [contradiction | now apply IH].
    + now apply IH.
Qed.

(** The available slots of a day are its free keys, in the order of the
    keys. *)
Lemma available_keys (d : PyDict.dict string) :
  PyDict.wf d ->
  map fst (filter (fun '(_, booking_status) =>
                     String.eqb booking_status "available") d)
  = filter (is_available d) (PyDict.keys d).
Proof.
  unfold PyDict.wf, PyDict.keys, is_available.
  induction d as [|[k v] r IH]; intros W; simpl; [reflexivity|].
  inversion W as [|? ? Hn Hr]; subst.
  rewrite String.eqb_refl.
  assert (filter (fun t => match (if String.eqb t k then Some v
                                  else PyDict.get r t) with
                           | Some v0 => String.eqb v0 "available"
                           | None => false
                           end) (map fst r)
          = filter (fun t => match PyDict.get r t with
                             | Some v0 => String.eqb v0 "available"
                             | None => false
                             end) (map fst r)) as E.
  { apply filter_ext_in. intros t I.
    destruct (String.eqb_spec t k) as [->|]; [contradiction | reflexivity]. }
  rewrite E, <- IH by assumption.
  now destruct (String.eqb v "available").
Qed.

Lemma report_of_day (today : PyDate.date) (sched : schedule) (date : string)
  (d : PyDate.date) (daily : PyDict.dict string) :
  strptime_date date = Ret d -> PyDate.ltb d today = false ->
  PyDict.get sched date = Some daily -> daily <> [] -> PyDict.wf daily ->
  list_appointment_availabilities today sched date
  = Ret (day_report date (filter (is_available daily) (PyDict.keys daily))
           (filter (fun '(_, patient_info) =>
                      negb (String.eqb patient_info "available")) daily)
           (PyDict.len daily)).
Proof.
  intros P L G N W. unfold list_appointment_availabilities.
  rewrite P, L, G. destruct daily as [|kv r]; [contradiction|].
  rewrite available_keys, from_items_nodup;
    [reflexivity | now apply filter_keys_nodup | assumption].
Qed.

End PartitionFacts.
Import PartitionFacts.

(** X4.  For a date that parses, is not before today and has a
    non-empty day schedule, [list_appointment_availabilities] returns
    the day split in two: [available_slots] are the keys that hold
    ["available"], in the order of the day; [booked_appointments] are
    the other items with their values; every key is in exactly one of
    the two, and [available_count] plus [booked_count] is
    [total_slots], the number of keys of the day. *)
Theorem X4_report_partitions_day
  (today : date) (sched : schedule) (date : string) (d : PyDate.date)
  (daily : PyDict.dict string) :
  strptime_date date = Ret d -> ltb d today = false ->
  PyDict.get sched date = Some daily -> daily <> [] -> PyDict.wf daily ->
  exists av bk,
    list_appointment_availabilities today sched date
    = Ret (day_report date av bk (PyDict.len daily))
    /\ av = filter (is_available daily) (PyDict.keys daily)
    /\ Z.of_nat (List.length av) + PyDict.len bk = PyDict.len daily
    /\ (forall t, In t av <-> PyDict.get daily t = Some "available")
    /\ (forall t v, PyDict.get bk t = Some v
                    <-> PyDict.get daily t = Some v /\ v <> "available").
Proof.
  intros P L G N W.
  exists (filter (is_available daily) (PyDict.keys daily)),
    (filter (fun '(_, patient_info) =>
               negb (String.eqb patient_info "available")) daily).
  split; [now apply (report_of_day today sched date d)|].
  split; [reflexivity|]. split; [|split].
  - rewrite <- available_keys by assumption. rewrite length_map.
    unfold PyDict.len.
    pose proof (filter_count (fun '(_, booking_status) =>
                                String.eqb booking_status "available") daily)
      as C.
    rewrite (filter_ext (fun '(_, patient_info) =>
                           negb (String.eqb patient_info "available"))
               (fun x => negb ((fun '(_, booking_status) =>
                                  String.eqb booking_status "available") x)))
      by (intros [? ?]; reflexivity).
    lia.
  - intros t. rewrite filter_In, <- get_In_keys. unfold is_available.
    destruct (PyDict.get daily t) as [v|]; split.
    + intros (_ & E). apply String.eqb_eq in E. now subst.
    + intros [= ->]. split; [discriminate | reflexivity].
    + intros ([] & _). reflexivity.
    + discriminate.
  - intros t v. rewrite get_filter by assumption.
    destruct (PyDict.get daily t) as [v'|]; [|split; [discriminate|tauto]].
    destruct (String.eqb_spec v' "available") as [->|Nv]; simpl; split.
    + discriminate.
    + intros ([= <-] & Nv). contradiction.
    + intros [= <-]. auto.
    + now intros (E & _).
Qed.

(** The first day of the scenario after Jane Doe's booking: seven free
    slots and two booked ones. *)
Lemma X4_witness :
  exists av bk,
    list_appointment_availabilities jul1 scenario_booked "2024-07-01"
    = Ret (day_report "2024-07-01" av bk 9)
    /\ av = ["08:00"; "11:00"; "12:00"; "13:00"; "14:00"; "15:00"; "16:00"]
    /\ Z.of_nat (List.length av) + PyDict.len bk = 9.
Proof.
  destruct (X4_report_partitions_day jul1 scenario_booked "2024-07-01" jul1
              (PyDict.get_default scenario_booked "2024-07-01" []))
    as (av & bk & R & E & C & _).
  - reflexivity.
  - reflexivity.
  - reflexivity.
  - discriminate.
  - unfold PyDict.wf. repeat constructor; simpl; intuition discriminate.
  - exists av, bk. repeat split; assumption.
Defined.

Module MoveFacts.
Import PyDate PyDateFacts PyDictFacts BookingFacts ReportFacts CalendarFacts.
Import PartitionFacts.

Lemma available_time_slots_nodup : NoDup available_time_slots.
Proof. repeat constructor; simpl; intuition discriminate. Qed.

Lemma days_from_In start n k d :
  (k < n)%nat -> add_days_nat start k = Ret d -> In d (days_from start n).
Proof.
  intros L A. unfold days_from. apply in_flat_map. exists k.
  split; [apply in_seq; lia|]. rewrite A. simpl. auto.
Qed.

(** A day of a schedule that has the shape. *)
Lemma shape_day today qs sched k d :
  calendar_shape today qs sched -> 0 <= k < 7 -> add_days today k = Ret d ->
  exists daily,
    PyDict.get sched (strftime d) = Some daily
    /\ PyDict.keys daily = available_time_slots
    /\ PyDict.wf daily /\ daily <> [].
Proof.
  intros (K & D) Hk A.
  assert (In (strftime d) (PyDict.keys sched)) as I.
  { rewrite K. apply in_map. apply (days_from_In today 7 (Z.to_nat k)).
    - lia.
    - exact A. }
  apply get_In_keys in I.
  destruct (PyDict.get sched (strftime d)) as [daily|] eqn:G; [|congruence].
  destruct (D _ _ G) as (Kd & _). exists daily. repeat split; auto.
  - unfold PyDict.wf. rewrite Kd. apply available_time_slots_nodup.
  - intros ->. discriminate.
Qed.

Lemma filter_all {A : Type} (f : A -> bool) (l : list A) :
  (forall x, In x l -> f x = true) -> filter f l = l.
Proof.
  induction l as [|x l IH]; intros H; simpl; [reflexivity|].
  rewrite (H x) by (simpl; auto). f_equal. apply IH. intros y I.
  apply H. simpl. auto.
Qed.

Lemma filter_twice {A : Type} (f g h : A -> bool) (l : list A) :
  (forall x, h x = g x && f x) -> filter h l = filter f (filter g l).
Proof.
  intros H. induction l as [|x l IH]; simpl; [reflexivity|].
  rewrite H. destruct (g x); simpl; [|assumption].
  destruct (f x); now rewrite IH.
Qed.

Lemma is_available_commit daily slots name type t :
  is_available (commit daily slots (booking_info name type)) t
  = is_available daily t && negb (mem t slots).
Proof.
  unfold is_available, mem. rewrite commit_get.
  destruct (in_dec string_dec t slots).
  - rewrite andb_false_r.
    destruct (String.eqb_spec (booking_info name type) "available") as [E|];
      [|reflexivity].
    now apply booking_info_not_available in E.
  - now rewrite andb_true_r.
Qed.

Lemma keys_length {V : Type} (d d' : PyDict.dict V) :
  PyDict.keys d = PyDict.keys d' -> PyDict.len d = PyDict.len d'.
Proof.
  unfold PyDict.keys, PyDict.len. intros E.
  apply (f_equal (@List.length string)) in E. rewrite !length_map in E.
  now rewrite E.
Qed.

Lemma nil_or_not {A : Type} (l : list A) : l = [] \/ l <> [].
Proof. destruct l; [left; reflexivity | right; discriminate]. Qed.

(** A report that has a list of slots is the report of a date that
    parsed and is not in the past. *)
Lemma report_with_slots today sched date rep av :
  list_appointment_availabilities today sched date = Ret rep ->
  PyDict.get rep "available_slots" = Some (VList av) ->
  exists d, strptime_date date = Ret d /\ ltb d today = false.
Proof.
  unfold list_appointment_availabilities. intros R A.
  destruct (strptime_date date) as [d|[]]; try discriminate;
    [|injection R as <-; cbn in A; discriminate].
  destruct (ltb d today) eqn:L; [injection R as <-; cbn in A; discriminate|].
  exists d. auto.
Qed.

Lemma day_report_slots date av bk n :
  PyDict.get (day_report date av bk n) "available_slots" = Some (VList av).
Proof. reflexivity. Qed.

Lemma day_report_total date av bk n :
  PyDict.get (day_report date av bk n) "total_slots" = Some (VInt n).
Proof. reflexivity. Qed.

(** The keys of the schedule and of its days after a call. *)
Lemma book_keys uuid4 sched date st et name type r sched' :
  book_medical_appointment uuid4 sched date st et name type
  = Some (Ret (r, sched')) ->
  PyDict.keys sched' = PyDict.keys sched
  /\ forall d, option_map PyDict.keys (PyDict.get sched' d)
               = option_map PyDict.keys (PyDict.get sched d).
Proof.
  intros B. apply book_inv in B.
  destruct B as [(-> & _)|(a & b & daily & slots & _ & _ & _ & _ & G & _
                           & F & -> & _)]; [auto|].
  apply first_conflict_none in F.
  assert (Forall (fun s => PyDict.get daily s <> None) slots) as Pres.
  { rewrite Forall_forall in F |- *. intros s I. rewrite (F s I). discriminate. }
  split.
  - apply keys_set_present. congruence.
  - intros d. rewrite get_set.
    destruct (String.eqb_spec date d) as [<-|]; [|reflexivity].
    rewrite G. simpl. now rewrite commit_keys.
Qed.

End MoveFacts.
Import MoveFacts.

(** X5.  At any time in the life of the module, loaded on [today0] and
    having served any requests, each of the seven days from [today0]
    that is of a year with four digits and not before the day of the
    query is reported, under the text [strftime] prints for it, with
    [total_slots] 9; its [available_slots] are the office hours that
    are still free, in the order of the day, and [available_count]
    plus [booked_count] is 9. *)
Theorem X5_every_day_reports_nine_slots
  (today0 today : date) (s0 : schedule) (qs : list request) (k : Z)
  (d : date) :
  valid today0 = true -> module_load today0 = Ret s0 ->
  0 <= k < 7 -> add_days today0 k = Ret d -> 1000 <= year d ->
  ltb d today = false ->
  exists av bk,
    list_appointment_availabilities today (run s0 qs) (strftime d)
    = Ret (day_report (strftime d) av bk 9)
    /\ av = filter (fun t => match slot_state (run s0 qs) (strftime d) t with
                             | Some v => String.eqb v "available"
                             | None => false
                             end) available_time_slots
    /\ Z.of_nat (List.length av) + PyDict.len bk = 9.
Proof.
  intros V M Hk A Y L.
  pose proof (run_shape today0 s0 qs V M) as S.
  destruct (shape_day _ _ _ _ _ S Hk A) as (daily & G & Kd & W & N).
  assert (0 <= k) as Hk0 by lia.
  destruct (add_days_ret _ _ _ V Hk0 A) as (Vd & _).
  assert (PyDict.len daily = 9) as Len.
  { unfold PyDict.len. rewrite <- (length_map fst).
    change (map fst daily) with (PyDict.keys daily). now rewrite Kd. }
  exists (filter (is_available daily) (PyDict.keys daily)),
    (filter (fun '(_, patient_info) =>
               negb (String.eqb patient_info "available")) daily).
  split; [|split].
  - rewrite <- Len.
    apply (report_of_day today (run s0 qs) (strftime d) d daily); auto.
    now apply PyStrptimeFacts.strptime_strftime.
  - rewrite Kd. unfold slot_state. rewrite G. reflexivity.
  - rewrite <- available_keys by assumption. rewrite length_map.
    pose proof (filter_count (fun '(_, booking_status) =>
                                String.eqb booking_status "available") daily)
      as C.
    rewrite (filter_ext (fun '(_, patient_info) =>
                           negb (String.eqb patient_info "available"))
               (fun x => negb ((fun '(_, booking_status) =>
                                  String.eqb booking_status "available") x)))
      by (intros [? ?]; reflexivity).
    unfold PyDict.len in *. lia.
Qed.

(** The second day of the scenario, asked for on the first day after
    the booking and a query. *)
Lemma X5_witness :
  exists av bk,
    list_appointment_availabilities jul1
      (run scenario_schedule
         [ BookAppointment 0 "2024-07-01" "09:00" "11:00" "Jane Doe"
             (Some "consultation");
           ListAvailability jul1 "2024-07-01" ])
      (strftime (mkdate 2024 7 2))
    = Ret (day_report (strftime (mkdate 2024 7 2)) av bk 9)
    /\ Z.of_nat (List.length av) + PyDict.len bk = 9.
Proof.
  destruct (X5_every_day_reports_nine_slots jul1 jul1 scenario_schedule
              [ BookAppointment 0 "2024-07-01" "09:00" "11:00" "Jane Doe"
                  (Some "consultation");
                ListAvailability jul1 "2024-07-01" ]
              1 (mkdate 2024 7 2))
    as (av & bk & R & _ & C).
  - reflexivity.
  - vm_compute. reflexivity.
  - lia.
  - reflexivity.
  - simpl. lia.
  - reflexivity.
  - exists av, bk. split; assumption.
Defined.

(** X6.  A call of [book_medical_appointment] followed by the report of
    its date: the [available_slots] of the report after the call are
    those of the report before it without the slots the call booked,
    in the same order, and [total_slots] is the same.  (After a call
    that booked nothing the two reports list the same slots.) *)
Theorem X6_booking_takes_slots_off_the_report
  (uuid4 : N) (sched : schedule) (date st et name : string)
  (type : option string) (r : PyDict.dict pyval) (sched' : schedule)
  (today : PyDate.date) (rep rep' : PyDict.dict pyval) (av : list string) :
  (forall daily, PyDict.get sched date = Some daily -> PyDict.wf daily) ->
  book_medical_appointment uuid4 sched date st et name type
  = Some (Ret (r, sched')) ->
  list_appointment_availabilities today sched date = Ret rep ->
  list_appointment_availabilities today sched' date = Ret rep' ->
  PyDict.get rep "available_slots" = Some (VList av) ->
  PyDict.get rep' "available_slots"
  = Some (VList (filter (fun t => negb (mem t (booked_slots_of r))) av))
  /\ PyDict.get rep' "total_slots" = PyDict.get rep "total_slots".
Proof.
  intros W B R R' A. apply book_inv in B.
  destruct B as [(-> & _ & D)|(a & b & daily & slots & _ & _ & _ & _ & G & _
                               & F & -> & ->)].
  { assert (booked_slots_of r = []) as ->
        by (unfold booked_slots_of, details_of; now rewrite D).
    rewrite filter_all by reflexivity.
    rewrite R in R'. injection R' as <-. auto. }
  change (booked_slots_of _) with slots.
  destruct (report_with_slots _ _ _ _ _ R A) as (d & P & L).
  apply first_conflict_none in F.
  assert (Forall (fun s => PyDict.get daily s <> None) slots) as Pres.
  { rewrite Forall_forall in F |- *. intros s I. rewrite (F s I). discriminate. }
  pose proof (commit_keys daily slots (booking_info name type) Pres) as K.
  pose proof (get_set_same sched date
                (commit daily slots (booking_info name type))) as G'.
  destruct (nil_or_not daily) as [->|N].
  { destruct (commit [] slots (booking_info name type)) as [|? ?] eqn:Ec;
      [|discriminate K].
    unfold list_appointment_availabilities in R, R'.
    rewrite P, L in R, R'. rewrite G in R. rewrite G' in R'.
    injection R as <-. injection R' as <-. injection A as <-. auto. }
  assert (commit daily slots (booking_info name type) <> []) as N'.
  { intros E. rewrite E in K. destruct daily; [congruence|discriminate K]. }
  assert (PyDict.wf daily) as Wd by now apply W.
  assert (PyDict.wf (commit daily slots (booking_info name type))) as Wc
      by now apply wf_commit.
  rewrite (report_of_day today sched date d daily P L G N Wd) in R.
  rewrite (report_of_day today _ date d _ P L G' N' Wc) in R'.
  injection R as <-. injection R' as <-. injection A as <-. split.
  - rewrite !day_report_slots. do 2 f_equal.
    rewrite K. apply filter_twice. intros t. apply is_available_commit.
  - rewrite !day_report_total. do 2 f_equal.
    now apply keys_length.
Qed.

(** The reports of the first day of the scenario before and after Jane
    Doe's booking. *)
Lemma X6_witness :
  PyDict.get
    (day_report "2024-07-01"
       ["08:00"; "11:00"; "12:00"; "13:00"; "14:00"; "15:00"; "16:00"]
       [("09:00", "Jane Doe (consultation)");
        ("10:00", "Jane Doe (consultation)")] 9) "available_slots"
  = Some (VList (filter (fun t => negb (mem t ["09:00"; "10:00"]))
                   available_time_slots)).
Proof.
  refine (proj1 (X6_booking_takes_slots_off_the_report 0 scenario_schedule
                   "2024-07-01" "09:00" "11:00" "Jane Doe"
                   (Some "consultation")
                   (booking_success_result (booking_id 0) "Jane Doe"
                      (Some "consultation") "2024-07-01" "09:00" "11:00"
                      ["09:00"; "10:00"])
                   scenario_booked jul1
                   (day_report "2024-07-01" available_time_slots [] 9)
                   _ available_time_slots _ _ _ _ _)).
  - intros daily [= <-]. apply fresh_day_wf.
  - vm_compute. reflexivity.
  - vm_compute. reflexivity.
  - vm_compute. reflexivity.
  - reflexivity.
Defined.

(** X7.  A call of [book_medical_appointment] never adds or removes a
    date or a slot: the keys of the schedule and the keys of every day
    are the same after the call, in the same order, and every slot that
    is not one of the slots the call booked holds what it held. *)
Theorem X7_booking_changes_only_its_slots
  (uuid4 : N) (sched : schedule) (date st et name : string)
  (type : option string) (r : PyDict.dict pyval) (sched' : schedule) :
  book_medical_appointment uuid4 sched date st et name type
  = Some (Ret (r, sched')) ->
  PyDict.keys sched' = PyDict.keys sched
  /\ (forall d, option_map PyDict.keys (PyDict.get sched' d)
                = option_map PyDict.keys (PyDict.get sched d))
  /\ (forall d t, d <> date \/ ~ In t (booked_slots_of r) ->
                  slot_state sched' d t = slot_state sched d t).
Proof.
  intros B. destruct (book_keys _ _ _ _ _ _ _ _ _ B) as (K & D).
  split; [assumption|]. split; [assumption|].
  intros d t H. rewrite (book_success_state _ _ _ _ _ _ _ _ _ B).
  destruct (String.eqb_spec date d) as [->|]; [|reflexivity].
  destruct (in_dec string_dec t (booked_slots_of r)); [|reflexivity].
  destruct H; contradiction.
Qed.

Lemma X7_witness :
  PyDict.keys scenario_booked = PyDict.keys scenario_schedule
  /\ (forall d, option_map PyDict.keys (PyDict.get scenario_booked d)
                = option_map PyDict.keys (PyDict.get scenario_schedule d))
  /\ (forall d t,
        d <> "2024-07-01"
        \/ ~ In t (booked_slots_of
                     (booking_success_result (booking_id 0) "Jane Doe"
                        (Some "consultation") "2024-07-01" "09:00" "11:00"
                        ["09:00"; "10:00"])) ->
        slot_state scenario_booked d t = slot_state scenario_schedule d t).
Proof.
  apply (X7_booking_changes_only_its_slots 0 scenario_schedule "2024-07-01"
           "09:00" "11:00" "Jane Doe" (Some "consultation")).
  vm_compute. reflexivity.
Defined.

Module GridFacts.
Import PyDate PyDateFacts PyStrptimeFacts PyDictFacts SpanFacts BookingFacts.
Import InitFacts ReportFacts CalendarFacts PrintFacts MoveFacts.

Lemma digit_eq c j v :
  0 <= j <= 9 -> PyStr.digit_val c = Some v -> PyStr.digit_char j = c -> j = v.
Proof.
  intros Hj D E. rewrite <- E, (digit_val_char j Hj) in D. congruence.
Qed.

Ltac digit_of E :=
  eapply digit_eq in E; [|lia|reflexivity];
  match type of E with
  | _ = ?v => let v' := eval vm_compute in v in change v with v' in E
  end.

(** The keys of the day are the full hours from 08:00 to 16:00, and
    nothing else that [%H:%M] prints. *)
Lemma slot_on_grid h m :
  0 <= h <= 23 -> 0 <= m <= 59 ->
  In (PyStr.fmt_0d 2 h ++ ":" ++ PyStr.fmt_0d 2 m) available_time_slots ->
  m = 0 /\ 8 <= h <= 16.
Proof.
  intros Hh Hm. rewrite !fmt2_digits by lia. rewrite available_time_slots_eq.
  cbn [append In].
  intros I.
  repeat (destruct I as [I|I];
          [injection I as E1 E2 E3 E4; symmetry in E1, E2, E3, E4;
           digit_of E1; digit_of E2; digit_of E3; digit_of E4; lia|]).
  contradiction.
Qed.

Lemma status_success id name type date st et slots :
  status_of (booking_success_result id name type date st et slots)
  = Some (VStr "success").
Proof. reflexivity. Qed.

(** What a successful call on a schedule of the shape has booked. *)
Lemma success_on_grid today qs sched uuid4 date st et name type r sched' :
  calendar_shape today qs sched ->
  book_medical_appointment uuid4 sched date st et name type
  = Some (Ret (r, sched')) ->
  status_of r = Some (VStr "success") ->
  In date (map strftime (days_from today 7))
  /\ exists a b,
       strptime_datetime (date ++ " " ++ st) = Ret a
       /\ strptime_datetime (date ++ " " ++ et) = Ret b
       /\ minute a = 0 /\ 8 <= hour a <= 16
       /\ dt_minutes a < dt_minutes b
       /\ dt_minutes b <= dt_minutes (mkdatetime (dt_date a) 17 0)
       /\ booked_slots_of r
          = map (fun k => PyStr.fmt_0d 2 (hour a + Z.of_nat k) ++ ":00")
              (seq 0 (span_length a b))
       /\ incl (booked_slots_of r) available_time_slots.
Proof.
  intros (K & D) B S. apply book_inv in B.
  destruct B as [(_ & E & _)|(a & b & daily & slots & _ & Pa & Pb & L & G & C
                              & F & -> & ->)]; [congruence|].
  change (booked_slots_of _) with slots.
  pose proof (strptime_datetime_valid _ _ Pa) as Va.
  pose proof (strptime_datetime_valid _ _ Pb) as Vb.
  pose proof (dt_ltb_minutes _ _ Va Vb L) as Lt.
  apply (slots_loop_keys _ _ _ _ _ Va Vb) in C. cbn [app] in C.
  apply first_conflict_none in F. rewrite Forall_forall in F.
  destruct (D _ _ G) as (Kd & _).
  assert (incl slots available_time_slots) as I.
  { intros s Is. rewrite <- Kd. apply get_In_keys. rewrite (F s Is).
    discriminate. }
  pose proof Va as Va'. apply dt_valid_iff in Va'.
  destruct Va' as (_ & Hh & Hm).
  assert (forall k, (k < span_length a b)%nat ->
                    minute a = 0 /\ 8 <= (hour a + Z.of_nat k) mod 24 <= 16)
    as Grid.
  { intros k Hk. apply slot_on_grid; [lia|lia|].
    apply I. rewrite C. apply in_map_iff. exists k. split; [reflexivity|].
    apply in_seq. lia. }
  assert (0 < span_length a b)%nat as Pos by (apply span_length_spec; lia).
  destruct (Grid 0%nat Pos) as (M0 & H0).
  assert (dt_minutes b <= dt_minutes (mkdatetime (dt_date a) 17 0)) as Le.
  { destruct (Z_le_gt_dec (dt_minutes b)
                (dt_minutes (mkdatetime (dt_date a) 17 0))) as [|Gt];
      [assumption|exfalso].
    assert (Z.to_nat (17 - hour a) < span_length a b)%nat as Hk.
    { apply span_length_spec. unfold dt_minutes in *. cbn in Gt. lia. }
    destruct (Grid _ Hk) as (_ & R). lia. }
  split.
  { rewrite <- K. apply get_In_keys. congruence. }
  exists a, b. repeat split; try assumption; try lia.
  rewrite C. apply map_ext_in. intros k Hk. apply in_seq in Hk.
  assert (k < span_length a b)%nat as Hk' by lia.
  apply span_length_spec in Hk'. unfold slot_key. rewrite M0.
  replace ((hour a + Z.of_nat k) mod 24) with (hour a + Z.of_nat k);
    [reflexivity|].
  unfold dt_minutes in *. cbn in Le. lia.
Qed.

End GridFacts.
Import GridFacts.

(** X8.  Whatever requests the module has served since it was loaded on
    [today0], a call of [book_medical_appointment] that answers
    ["success"] was for one of the seven dates from [today0], for a
    start on a full hour from 08:00 to 16:00 and an end after the start
    and not after 17:00 of the day of the start; its [booked_slots] are
    the full hours from the start to before the end, all of them office
    hours. *)
Theorem X8_bookings_stay_in_office_hours
  (today0 : date) (s0 : schedule) (qs : list request) (uuid4 : N)
  (date st et name : string) (type : option string)
  (r : PyDict.dict pyval) (sched' : schedule) :
  valid today0 = true -> module_load today0 = Ret s0 ->
  book_medical_appointment uuid4 (run s0 qs) date st et name type
  = Some (Ret (r, sched')) ->
  status_of r = Some (VStr "success") ->
  In date (map strftime (days_from today0 7))
  /\ exists a b,
       strptime_datetime (date ++ " " ++ st) = Ret a
       /\ strptime_datetime (date ++ " " ++ et) = Ret b
       /\ minute a = 0 /\ 8 <= hour a <= 16
       /\ dt_minutes a < dt_minutes b
       /\ dt_minutes b <= dt_minutes (mkdatetime (dt_date a) 17 0)
       /\ booked_slots_of r
          = map (fun k => PyStr.fmt_0d 2 (hour a + Z.of_nat k) ++ ":00")
              (seq 0 (span_length a b))
       /\ incl (booked_slots_of r) available_time_slots.
Proof.
  intros V M B S.
  exact (success_on_grid today0 qs _ _ _ _ _ _ _ _ _
           (run_shape today0 s0 qs V M) B S).
Qed.

(** Jane Doe's booking of the scenario. *)
Lemma X8_witness :
  In "2024-07-01" (map strftime (days_from jul1 7))
  /\ exists a b,
       strptime_datetime ("2024-07-01" ++ " " ++ "09:00") = Ret a
       /\ strptime_datetime ("2024-07-01" ++ " " ++ "11:00") = Ret b
       /\ minute a = 0 /\ 8 <= hour a <= 16
       /\ dt_minutes a < dt_minutes b
       /\ dt_minutes b <= dt_minutes (mkdatetime (dt_date a) 17 0)
       /\ booked_slots_of
            (booking_success_result (booking_id 0) "Jane Doe"
               (Some "consultation") "2024-07-01" "09:00" "11:00"
               ["09:00"; "10:00"])
          = map (fun k => PyStr.fmt_0d 2 (hour a + Z.of_nat k) ++ ":00")
              (seq 0 (span_length a b))
       /\ incl (booked_slots_of
                  (booking_success_result (booking_id 0) "Jane Doe"
                     (Some "consultation") "2024-07-01" "09:00" "11:00"
                     ["09:00"; "10:00"])) available_time_slots.
Proof.
  apply (X8_bookings_stay_in_office_hours jul1 scenario_schedule [] 0
           "2024-07-01" "09:00" "11:00" "Jane Doe" (Some "consultation")
           _ scenario_booked).
  - reflexivity.
  - vm_compute. reflexivity.
  - vm_compute. reflexivity.
  - reflexivity.
Defined.

Module HourFacts.
Import PyDate PyDateFacts PyStrptimeFacts PyDictFacts SpanFacts BookingFacts.

(** The loop can only overflow from 23:MM of the last day, and goes
    there only when the end is later in that hour. *)
Lemma slots_loop_raise_last fuel cur end_ acc e :
  dt_valid cur = true -> dt_valid end_ = true ->
  slots_loop fuel cur end_ acc = Some (Raise e) ->
  hour end_ = 23 /\ minute cur < minute end_.
Proof.
  revert cur acc. induction fuel as [|fuel IH]; intros cur acc Vc Ve;
    simpl; [discriminate|].
  destruct (dt_ltb cur end_) eqn:L; [|discriminate].
  destruct (dt_add_hours cur OFFICE_HOURS_appointment_duration)
    as [next|e'] eqn:A.
  - destruct (dt_add_hour_ret _ _ Vc A) as (Vn & _ & _ & Mn).
    intros H. rewrite <- Mn. eapply IH; eauto.
  - intros _. destruct (dt_add_hour_raise _ _ Vc A) as (_ & Dm & Hh).
    apply dt_ltb_iff in L. apply dt_valid_iff in Vc, Ve.
    destruct Ve as (Vd & He & _).
    destruct L as [L|(_ & L)].
    + rewrite Dm in L. apply toordinal_mono in L; [|reflexivity|assumption].
      pose proof (toordinal_le_max _ Vd). rewrite toordinal_max in L. lia.
    + lia.
Qed.

(** The slots of a span of full hours of one day. *)
Lemma calc_full_hours d H1 H2 :
  valid d = true -> 0 <= H1 -> H1 <= H2 -> H2 <= 23 ->
  calc_required_time_slots (mkdatetime d H1 0) (mkdatetime d H2 0)
  = Some (Ret (map (fun h => PyStr.fmt_0d 2 h ++ ":00") (py_range H1 H2))).
Proof.
  intros V L0 L1 L2.
  assert (dt_valid (mkdatetime d H1 0) = true) as Va
      by (apply dt_valid_iff; simpl; repeat split; auto; lia).
  assert (dt_valid (mkdatetime d H2 0) = true) as Vb
      by (apply dt_valid_iff; simpl; repeat split; auto; lia).
  destruct (calc_required_time_slots_total _ _ Va Vb) as ([l|e] & C).
  - rewrite C. do 2 f_equal.
    rewrite (slots_loop_keys _ _ _ _ _ Va Vb C). cbn [app].
    unfold py_range. rewrite map_map.
    assert (span_length (mkdatetime d H1 0) (mkdatetime d H2 0)
            = Z.to_nat (H2 - H1)) as ->
        by (unfold span_length, dt_minutes; simpl; lia).
    apply map_ext_in. intros k Hk. apply in_seq in Hk. unfold slot_key.
    simpl. replace ((H1 + Z.of_nat k) mod 24) with (H1 + Z.of_nat k) by lia.
    reflexivity.
  - apply slots_loop_raise_last in C; auto. simpl in C. lia.
Qed.

Lemma strptime_full_hour d H :
  valid d = true -> 0 <= H <= 23 ->
  strptime_datetime (isoformat d ++ " " ++ PyStr.fmt_0d 2 H ++ ":00")
  = Ret (mkdatetime d H 0).
Proof.
  intros V HH. apply (strptime_isoformat_HM d H 0); auto. lia.
Qed.

End HourFacts.
Import HourFacts.

(** X9.  Booking free full hours succeeds: for a calendar date [d], hours
    [H1 < H2] of the day and a name that is not blank, when every slot
    ["HH:00"] from [H1] to before [H2] of the day under the key
    YYYY-MM-DD of [d] holds ["available"], the call with that text of
    the date, ["H1:00"] and ["H2:00"] returns the success dictionary
    with exactly these slots as [booked_slots], and afterwards each of
    them holds the booking text. *)
Theorem X9_free_full_hours_are_booked
  (uuid4 : N) (sched : schedule) (d : date) (H1 H2 : Z) (name : string)
  (type : option string) :
  valid d = true -> 0 <= H1 -> H1 < H2 -> H2 <= 23 ->
  PyStr.strip name <> "" ->
  (forall h, H1 <= h < H2 ->
             slot_state sched (isoformat d) (PyStr.fmt_0d 2 h ++ ":00")
             = Some "available") ->
  exists sched',
    book_medical_appointment uuid4 sched (isoformat d)
      (PyStr.fmt_0d 2 H1 ++ ":00") (PyStr.fmt_0d 2 H2 ++ ":00") name type
    = Some (Ret (booking_success_result (booking_id uuid4) name type
                   (isoformat d) (PyStr.fmt_0d 2 H1 ++ ":00")
                   (PyStr.fmt_0d 2 H2 ++ ":00")
                   (map (fun h => PyStr.fmt_0d 2 h ++ ":00")
                      (py_range H1 H2)), sched'))
    /\ forall h, H1 <= h < H2 ->
                 slot_state sched' (isoformat d) (PyStr.fmt_0d 2 h ++ ":00")
                 = Some (booking_info name type).
Proof.
  intros V L0 L1 L2 Nm Free.
  assert (H1 <= H1 < H2) as In1 by lia.
  pose proof (Free H1 In1) as S1. unfold slot_state in S1.
  destruct (PyDict.get sched (isoformat d)) as [daily|] eqn:G;
    [clear S1|discriminate].
  assert (dt_ltb (mkdatetime d H1 0) (mkdatetime d H2 0) = true) as Lt
      by (apply dt_ltb_iff; right; simpl; auto).
  assert (H1 <= H2) as L1' by lia.
  pose proof (book_after_checks uuid4 sched (isoformat d)
                (PyStr.fmt_0d 2 H1 ++ ":00") (PyStr.fmt_0d 2 H2 ++ ":00")
                name type _ _ daily _ Nm
                (strptime_full_hour d H1 V ltac:(lia))
                (strptime_full_hour d H2 V ltac:(lia)) Lt G
                (calc_full_hours d H1 H2 V L0 L1' L2)) as B.
  assert (first_conflict daily
            (map (fun h => PyStr.fmt_0d 2 h ++ ":00") (py_range H1 H2))
          = None) as F.
  { apply first_conflict_none. apply Forall_forall. intros s Is.
    apply in_map_iff in Is. destruct Is as (h & <- & Ih).
    apply py_range_In in Ih. specialize (Free h Ih).
    unfold slot_state in Free. now rewrite G in Free. }
  rewrite F in B. eexists. split; [exact B|].
  intros h Hh. rewrite (book_success_state _ _ _ _ _ _ _ _ _ B).
  rewrite String.eqb_refl.
  change (booked_slots_of _)
    with (map (fun h => PyStr.fmt_0d 2 h ++ ":00") (py_range H1 H2)).
  destruct (in_dec string_dec _ _) as [|N]; [reflexivity|].
  exfalso. apply N. apply in_map_iff. exists h. split; [reflexivity|].
  now apply py_range_In.
Qed.

(** Jane Doe's booking of the scenario, from the hours 9 and 11. *)
Lemma X9_witness :
  exists sched',
    book_medical_appointment 0 scenario_schedule (isoformat jul1)
      (PyStr.fmt_0d 2 9 ++ ":00") (PyStr.fmt_0d 2 11 ++ ":00") "Jane Doe"
      (Some "consultation")
    = Some (Ret (booking_success_result (booking_id 0) "Jane Doe"
                   (Some "consultation")
                   (isoformat jul1) (PyStr.fmt_0d 2 9 ++ ":00")
                   (PyStr.fmt_0d 2 11 ++ ":00")
                   (map (fun h => PyStr.fmt_0d 2 h ++ ":00")
                      (py_range 9 11)), sched'))
    /\ forall h, 9 <= h < 11 ->
                 slot_state sched' (isoformat jul1) (PyStr.fmt_0d 2 h ++ ":00")
                 = Some (booking_info "Jane Doe" (Some "consultation")).
Proof.
  apply (X9_free_full_hours_are_booked 0 scenario_schedule jul1 9 11
           "Jane Doe" (Some "consultation")).
  - reflexivity.
  - lia.
  - lia.
  - lia.
  - vm_compute. discriminate.
  - intros h Hh. assert (h = 9 \/ h = 10) as [-> | ->] by lia;
      vm_compute; reflexivity.
Defined.

(** ** The read-only schedules *)

Module GeneratedFacts.
Import PyDate PyDateFacts PyStrptimeFacts PyDictFacts InitFacts RangeFacts.
Import PrintFacts.

Lemma insert_sorted_perm x l : Permutation (insert_sorted x l) (x :: l).
Proof.
  induction l as [|y r IH]; simpl; [reflexivity|].
  destruct (String.leb x y); [reflexivity|].
  rewrite IH. apply perm_swap.
Qed.

(** [sorted] keeps the elements, each as often as it was there. *)
Lemma sorted_perm l : Permutation (sorted l) l.
Proof.
  induction l as [|x l IH]; simpl; [reflexivity|].
  rewrite insert_sorted_perm. now constructor.
Qed.

(** The loop of the two generators over the first [n] offsets. *)
Lemma gen_days (f : Z -> list string) today n :
  valid today = true -> toordinal today + Z.of_nat n <= MAXORDINAL + 1 ->
  exists s,
    for_each (py_range 0 (Z.of_nat n))
      (fun i schedule =>
         current_date <- add_days today i ;;
         Ret (PyDict.set schedule (strftime current_date) (f i))) []
    = Ret s
    /\ PyDict.keys s = map strftime (days_from today n)
    /\ forall k d, (k < n)%nat -> add_days_nat today k = Ret d ->
                   PyDict.get s (strftime d) = Some (f (Z.of_nat k)).
Proof.
  intros V. induction n as [|n IH]; intros L.
  - exists []. repeat split. intros k d Hk. lia.
  - destruct IH as (s & R & K & G); [lia|].
    destruct (add_days_nat_ok today n V) as (d & A & Vd & O); [lia|].
    exists (PyDict.set s (strftime d) (f (Z.of_nat n))).
    assert (~ In (strftime d) (PyDict.keys s)) as Fresh.
    { rewrite K. intros I. apply in_map_iff in I. destruct I as (d' & E & I).
      destruct (days_from_ord today n V) as (F & _); [lia|].
      rewrite Forall_forall in F.
      apply strftime_inj in E; [|auto|assumption]. subst d'.
      apply (days_from_not_in today n d V); [lia | assumption | assumption]. }
    split; [|split].
    + rewrite py_range_S, for_each_app, R. cbn [bind for_each].
      unfold add_days. rewrite Nat2Z.id, A. reflexivity.
    + rewrite keys_set, (days_from_S _ _ _ A), map_app, K.
      unfold PyDict.contains.
      destruct (PyDict.get s (strftime d)) eqn:E; [|reflexivity].
      exfalso. apply Fresh. apply get_In_keys. congruence.
    + intros k d' Hk A'. rewrite get_set.
      destruct (String.eqb_spec (strftime d) (strftime d')) as [E|N].
      * destruct (add_days_nat_ret _ _ _ V A') as (Vd' & O').
        apply strftime_inj in E; [|assumption ..]. subst d'.
        assert (k = n) as -> by lia. reflexivity.
      * apply G; [|assumption].
        assert (k <> n); [|lia]. intros ->. congruence.
Qed.

(** The loop reaches every offset when it returns, and raises nothing
    but the overflow of the calendar. *)
Lemma gen_reaches {S : Type} (g : Z -> date -> S -> S) today ks s0 s :
  for_each ks (fun i schedule => d <- add_days today i ;; Ret (g i d schedule))
    s0 = Ret s ->
  forall k, In k ks -> exists d, add_days today k = Ret d.
Proof.
  revert s0. induction ks as [|k0 ks IH]; intros s0; simpl; [contradiction|].
  destruct (add_days today k0) as [d|e] eqn:A; simpl; [|discriminate].
  intros H k [<-|I]; [eauto|]. eapply IH; eauto.
Qed.

Lemma gen_raise {S : Type} (g : Z -> date -> S -> S) today ks s0 e :
  valid today = true ->
  for_each ks (fun i schedule => d <- add_days today i ;; Ret (g i d schedule))
    s0 = Raise e ->
  e = OverflowError.
Proof.
  intros V. revert s0. induction ks as [|k ks IH]; intros s0; simpl;
    [discriminate|].
  destruct (add_days today k) as [d|e'] eqn:A; simpl; [apply IH|].
  intros [= <-]. unfold add_days in A.
  now destruct (add_days_nat_raise _ _ _ V A).
Qed.

Lemma gen_overflow {S : Type} (g : Z -> date -> S -> S) today s0 :
  valid today = true -> MAXORDINAL < toordinal today + 6 ->
  for_each (py_range 0 7)
    (fun i schedule => d <- add_days today i ;; Ret (g i d schedule)) s0
  = Raise OverflowError.
Proof.
  intros V L.
  destruct (for_each (py_range 0 7) _ s0) as [s|e] eqn:R.
  - destruct (gen_reaches _ _ _ _ _ R 6) as (d & A);
      [apply py_range_In; lia|].
    assert (0 <= 6) as H6 by lia.
    destruct (add_days_ret _ _ _ V H6 A) as (Vd & O).
    pose proof (toordinal_le_max _ Vd). lia.
  - apply gen_raise in R; [now subst e | assumption].
Qed.

End GeneratedFacts.
Import GeneratedFacts.

(** X10.  The schedules of the two read-only offices:
    [initialize_neurologist_appointment_schedule] and
    [generate_appointment_schedule], run on the same day with the same
    draws, return the same dictionary.  Its keys are the seven dates
    from [today] in order, as [strftime] prints them; the date at
    offset [k] holds the draw of
    iteration [k] sorted: the same times, each as often as it was drawn,
    in ascending order.  Run on one of the last six days of the year
    9999 both raise [OverflowError]. *)
Theorem X10_generated_schedules (today : date) (sample : Z -> list string) :
  valid today = true ->
  (toordinal today + 6 <= MAXORDINAL ->
   exists sched,
     Neurologist.initialize_neurologist_appointment_schedule today sample
     = Ret sched
     /\ Pulmonologist.generate_appointment_schedule today sample = Ret sched
     /\ PyDict.keys sched = map strftime (days_from today 7)
     /\ forall k d, 0 <= k < 7 -> add_days today k = Ret d ->
          exists slots,
            PyDict.get sched (strftime d) = Some slots
            /\ Sorted (fun a b => String.leb a b = true) slots
            /\ Permutation slots (sample k))
  /\ (MAXORDINAL < toordinal today + 6 ->
      Neurologist.initialize_neurologist_appointment_schedule today sample
      = Raise OverflowError
      /\ Pulmonologist.generate_appointment_schedule today sample
         = Raise OverflowError).
Proof.
  intros V. split.
  - intros L.
    destruct (gen_days (fun i => sorted (sample i)) today 7 V) as (s & R & K & G);
      [lia|].
    exists s. split; [exact R|]. split; [exact R|]. split; [exact K|].
    intros k d Hk A. exists (sorted (sample k)). split; [|split].
    + unfold add_days in A. rewrite (G (Z.to_nat k) d); [|lia|assumption].
      now rewrite Z2Nat.id by lia.
    + apply sorted_Sorted.
    + apply sorted_perm.
  - intros L. split;
      apply (gen_overflow
               (fun i d s => PyDict.set s (strftime d) (sorted (sample i)))
               today [] V L).
Qed.

Lemma X10_witness :
  exists sched,
    Neurologist.initialize_neurologist_appointment_schedule jul1
      scenario_sample = Ret sched
    /\ Pulmonologist.generate_appointment_schedule jul1 scenario_sample
       = Ret sched
    /\ PyDict.keys sched = map strftime (days_from jul1 7)
    /\ forall k d, 0 <= k < 7 -> add_days jul1 k = Ret d ->
         exists slots,
           PyDict.get sched (strftime d) = Some slots
           /\ Sorted (fun a b => String.leb a b = true) slots
           /\ Permutation slots (scenario_sample k).
Proof.
  refine (proj1 (X10_generated_schedules jul1 scenario_sample _) _).
  - reflexivity.
  - vm_compute. discriminate.
Defined.

(** ** The requests of the read-only offices *)

Module QueryFacts.
Import PyDate PyDateFacts PyStrptimeFacts PyDictFacts InitFacts RangeFacts.
Import PrintFacts.

Lemma date_char_spec c :
  date_char c = true -> PyStr.isspace c = false /\ c <> "t"%char.
Proof.
  unfold date_char. rewrite andb_true_iff, !negb_true_iff.
  intros (S & T). split; [assumption|]. now apply Ascii.eqb_neq.
Qed.

Lemma prefix_to c r :
  c <> "t"%char -> String.prefix "to" (String c r) = false.
Proof.
  intros N.
  change (String.prefix "to" (String c r))
    with (if ascii_dec "t" c then String.prefix "o" r else false).
  destruct (ascii_dec "t" c) as [E|]; [|reflexivity].
  now subst c.
Qed.

Lemma append_empty (s : string) : s ++ "" = s.
Proof. induction s as [|c r IH]; simpl; [reflexivity | now rewrite IH]. Qed.

(** [split("to")] of text without the letter t *)
Lemma split_go_plain s cur :
  all_chars date_char s = true ->
  PyStr.split_go "to" 0 s cur = [cur ++ s].
Proof.
  revert cur. induction s as [|c r IH]; intros cur H.
  - simpl. now rewrite append_empty.
  - cbn [all_chars] in H. apply andb_true_iff in H. destruct H as (Hc & Hr).
    apply date_char_spec in Hc. destruct Hc as (_ & Nt).
    cbn [PyStr.split_go]. rewrite prefix_to by assumption.
    rewrite IH by assumption. now rewrite append_assoc.
Qed.

(** [split("to")] of two such texts with [" to "] in between *)
Lemma split_go_range a b cur :
  all_chars date_char a = true -> all_chars date_char b = true ->
  PyStr.split_go "to" 0 (a ++ " to " ++ b) cur
  = [cur ++ a ++ " "; " " ++ b].
Proof.
  revert cur. induction a as [|c r IH]; intros cur Ha Hb.
  - cbn. now rewrite (split_go_plain b " " Hb).
  - cbn [all_chars] in Ha. apply andb_true_iff in Ha.
    destruct Ha as (Hc & Hr). apply date_char_spec in Hc.
    destruct Hc as (_ & Nt).
    cbn [append PyStr.split_go]. rewrite prefix_to by assumption.
    rewrite IH by assumption. now rewrite append_assoc.
Qed.

Lemma rstrip_plain s : all_chars date_char s = true -> PyStr.rstrip s = s.
Proof.
  induction s as [|c r IH]; intros H; [reflexivity|].
  cbn [all_chars] in H. apply andb_true_iff in H. destruct H as (Hc & Hr).
  apply date_char_spec in Hc. destruct Hc as (Ns & _).
  cbn [PyStr.rstrip]. rewrite IH by assumption.
  destruct r; [now rewrite Ns | reflexivity].
Qed.

Lemma lstrip_plain s : all_chars date_char s = true -> PyStr.lstrip s = s.
Proof.
  destruct s as [|c r]; intros H; [reflexivity|].
  cbn [all_chars] in H. apply andb_true_iff in H. destruct H as (Hc & _).
  apply date_char_spec in Hc. destruct Hc as (Ns & _).
  cbn [PyStr.lstrip]. now rewrite Ns.
Qed.

Lemma strip_plain s : all_chars date_char s = true -> PyStr.strip s = s.
Proof.
  intros H. unfold PyStr.strip. rewrite rstrip_plain by assumption.
  now apply lstrip_plain.
Qed.

Lemma rstrip_blank_end s :
  all_chars date_char s = true -> PyStr.rstrip (s ++ " ") = s.
Proof.
  induction s as [|c r IH]; intros H; [reflexivity|].
  cbn [all_chars] in H. apply andb_true_iff in H. destruct H as (Hc & Hr).
  apply date_char_spec in Hc. destruct Hc as (Ns & _).
  cbn [append PyStr.rstrip]. rewrite IH by assumption.
  destruct r; [now rewrite Ns | reflexivity].
Qed.

Lemma strip_blank_end s :
  all_chars date_char s = true -> PyStr.strip (s ++ " ") = s.
Proof.
  intros H. unfold PyStr.strip. rewrite rstrip_blank_end by assumption.
  now apply lstrip_plain.
Qed.

Lemma strip_blank_start s :
  all_chars date_char s = true -> PyStr.strip (" " ++ s) = s.
Proof.
  intros H. unfold PyStr.strip. cbn [append PyStr.rstrip].
  rewrite rstrip_plain by assumption.
  destruct s as [|c r]; [reflexivity|].
  change (PyStr.lstrip (String " " (String c r)))
    with (PyStr.lstrip (String c r)).
  now apply lstrip_plain.
Qed.

(** The days of a range of one day. *)
Lemma days_from_one d : days_from d 1 = [d].
Proof. reflexivity. Qed.

(** The lines of the range from a date [ds] to a date [de] not before
    it, as either office makes them. *)
Lemma range_text (f : string -> string) ds de :
  valid ds = true -> valid de = true -> ltb de ds = false ->
  (results <-
     for_each (py_range 0 (sub_days de ds + 1))
       (fun i results =>
          d <- add_days ds i ;; Ret (results ++ [f (strftime d)])%list) [] ;;
   Ret (PyStr.join PyStr.LF results))
  = Ret (PyStr.join PyStr.LF
           (map (fun d => f (strftime d))
              (days_from ds (Z.to_nat (sub_days de ds + 1))))).
Proof.
  intros Vs Ve L. destruct (range_accepted f ds de Vs Ve L) as (R & _).
  now rewrite R.
Qed.

End QueryFacts.
Import QueryFacts.

(** X11.  The two forms of input of [_run], on dates written
    YYYY-MM-DD: the text of one date is answered with the line of that
    date; two dates with [" to "] in between are answered with the
    lines of the days from the first to the second, one per day, when
    the first is not after the second, and with the message about the
    range when it is.  A line names and looks up its day by the text
    [strftime] prints for it, which before the year 1000 is not the
    text of the request. *)
Theorem X11_run_one_date_or_a_range
  (sched : PyDict.dict (list string)) (ds de : date) :
  valid ds = true -> valid de = true ->
  Pulmonologist._run sched (isoformat ds)
  = Ret (Pulmonologist.availability sched (strftime ds))
  /\ (leb ds de = true ->
      Pulmonologist._run sched (isoformat ds ++ " to " ++ isoformat de)
      = Ret (PyStr.join PyStr.LF
               (map (fun d => Pulmonologist.availability sched (strftime d))
                  (days_from ds (Z.to_nat (sub_days de ds + 1))))))
  /\ (leb ds de = false ->
      Pulmonologist._run sched (isoformat ds ++ " to " ++ isoformat de)
      = Ret Pulmonologist.MSG_RANGE).
Proof.
  intros Vs Ve.
  pose proof (isoformat_date_chars ds Vs) as Cs.
  pose proof (isoformat_date_chars de Ve) as Ce.
  split; [|split].
  - unfold Pulmonologist._run, PyStr.split.
    rewrite (split_go_plain _ "" Cs). cbn [append map hd last].
    rewrite (strip_plain _ Cs), (strptime_isoformat ds Vs). cbn [bind].
    unfold gtb. rewrite ltb_irrefl.
    rewrite (range_text (Pulmonologist.availability sched) ds ds Vs Vs
               (ltb_irrefl ds)).
    unfold sub_days. rewrite Z.sub_diag. reflexivity.
  - unfold leb. rewrite negb_true_iff. intros L.
    unfold Pulmonologist._run, PyStr.split.
    rewrite (split_go_range _ _ "" Cs Ce). cbn [map hd last].
    change ("" ++ isoformat ds ++ " ") with (isoformat ds ++ " ").
    rewrite (strip_blank_end _ Cs), (strip_blank_start _ Ce).
    rewrite (strptime_isoformat ds Vs), (strptime_isoformat de Ve).
    cbn [bind]. unfold gtb. rewrite L.
    now rewrite (range_text (Pulmonologist.availability sched) ds de Vs Ve L).
  - unfold leb. rewrite negb_false_iff. intros L.
    unfold Pulmonologist._run, PyStr.split.
    rewrite (split_go_range _ _ "" Cs Ce). cbn [map hd last].
    change ("" ++ isoformat ds ++ " ") with (isoformat ds ++ " ").
    rewrite (strip_blank_end _ Cs), (strip_blank_start _ Ce).
    rewrite (strptime_isoformat ds Vs), (strptime_isoformat de Ve).
    cbn [bind]. unfold gtb. now rewrite L.
Qed.

Lemma X11_witness :
  Pulmonologist._run scenario_neurologist (isoformat jul1)
  = Ret (Pulmonologist.availability scenario_neurologist (strftime jul1)).
Proof.
  refine (proj1 (X11_run_one_date_or_a_range scenario_neurologist jul1
                   (mkdate 2024 7 3) _ _)); reflexivity.
Defined.

(** X12.  [check_neurologist_appointment_availability] tests only the
    end of the range against the clock.  For a first date before
    [today] and a last date that is not, both written YYYY-MM-DD: the
    request for the first date alone is refused as a past date, and the
    request for the range is answered with one line per day, the first
    of them the line of that past date (each line under the text
    [strftime] prints for its day). *)
Theorem X12_past_days_inside_a_range
  (today : date) (sched : PyDict.dict (list string)) (ds de : date) :
  valid ds = true -> valid de = true -> valid today = true ->
  ltb ds today = true -> ltb de today = false ->
  Neurologist.check_neurologist_appointment_availability today sched
    (isoformat ds) (isoformat ds)
  = Ret Neurologist.MSG_PAST
  /\ exists rest,
       days_from ds (Z.to_nat (sub_days de ds + 1)) = ds :: rest
       /\ Neurologist.check_neurologist_appointment_availability today sched
            (isoformat ds) (isoformat de)
          = Ret (PyStr.join PyStr.LF
                   (map (fun d => Neurologist.day_availability sched
                                    (strftime d)) (ds :: rest))).
Proof.
  intros Vs Ve Vt Ls Le.
  pose proof (toordinal_mono _ _ Vs Vt Ls) as O1.
  pose proof (ltb_false_ordinal _ _ Vt Ve Le) as O2.
  assert (ltb de ds = false) as L.
  { destruct (ltb de ds) eqn:E; [|reflexivity].
    apply toordinal_mono in E; auto. lia. }
  split.
  - unfold Neurologist.check_neurologist_appointment_availability.
    rewrite (strptime_isoformat ds Vs). cbn [bind]. unfold gtb.
    now rewrite ltb_irrefl, Ls.
  - destruct (range_accepted (Neurologist.day_availability sched) ds de
                Vs Ve L) as (R & N & _).
    assert (exists rest,
               days_from ds (Z.to_nat (sub_days de ds + 1)) = ds :: rest)
      as (rest & E).
    { unfold sub_days.
      replace (Z.to_nat (toordinal de - toordinal ds + 1))
        with (S (Z.to_nat (toordinal de - toordinal ds))) by lia.
      unfold days_from. cbn [seq flat_map add_days_nat app]. eauto. }
    exists rest. split; [assumption|].
    unfold Neurologist.check_neurologist_appointment_availability.
    rewrite (strptime_isoformat ds Vs), (strptime_isoformat de Ve).
    cbn [bind]. unfold gtb. rewrite L, Le. cbv zeta. rewrite R, E.
    reflexivity.
Qed.

Lemma X12_witness :
  Neurologist.check_neurologist_appointment_availability (mkdate 2024 7 2)
    scenario_neurologist (isoformat jul1) (isoformat jul1)
  = Ret Neurologist.MSG_PAST.
Proof.
  refine (proj1 (X12_past_days_inside_a_range (mkdate 2024 7 2)
                   scenario_neurologist jul1 (mkdate 2024 7 3) _ _ _ _ _));
    reflexivity.
Defined.

(** X13.  The three functions that answer questions about a schedule
    raise nothing: whatever the text of the request, the schedule and
    the day, [list_appointment_availabilities] returns a dictionary,
    and [check_neurologist_appointment_availability] and [_run] return
    a text. *)
Theorem X13_queries_raise_nothing
  (today : date) (sched : schedule) (rsched : PyDict.dict (list string))
  (s e : string) :
  (exists r, list_appointment_availabilities today sched s = Ret r)
  /\ (exists text,
         Neurologist.check_neurologist_appointment_availability today rsched
           s e = Ret text)
  /\ (exists text, Pulmonologist._run rsched s = Ret text).
Proof.
  split; [apply list_returns|]. split.
  - unfold Neurologist.check_neurologist_appointment_availability.
    destruct (strptime_date s) as [ds|x] eqn:Hs; cbn [bind];
      [|apply strptime_date_raise in Hs; subst x; eauto].
    destruct (strptime_date e) as [de|x] eqn:He; cbn [bind];
      [|apply strptime_date_raise in He; subst x; eauto].
    unfold gtb. destruct (ltb de ds) eqn:L; [eauto|].
    destruct (ltb de today); [eauto|]. cbv zeta.
    destruct (range_accepted (Neurologist.day_availability rsched) ds de
                (strptime_date_valid _ _ Hs) (strptime_date_valid _ _ He) L)
      as (R & _).
    rewrite R. cbn [bind]. eauto.
  - unfold Pulmonologist._run. cbv zeta.
    destruct (strptime_date
                (hd "" (map PyStr.strip (PyStr.split "to" s))))
      as [ds|x] eqn:Hs; cbn [bind];
      [|apply strptime_date_raise in Hs; subst x; eauto].
    destruct (strptime_date
                (last (map PyStr.strip (PyStr.split "to" s)) ""))
      as [de|x] eqn:He; cbn [bind];
      [|apply strptime_date_raise in He; subst x; eauto].
    unfold gtb. destruct (ltb de ds) eqn:L; [eauto|].
    rewrite (range_text (Pulmonologist.availability rsched) ds de
               (strptime_date_valid _ _ Hs) (strptime_date_valid _ _ He) L).
    eauto.
Qed.

(** ** The end of the calendar *)

Module OverflowFacts.
Import PyDate PyDateFacts PyStrptimeFacts PyDictFacts SpanFacts BookingFacts.
Import HourFacts.

(** From a time whose minute is before that of an end in the last hour
    of the calendar, the loop arrives at 23:MM of the last day and
    overflows there. *)
Lemma slots_loop_overflow fuel cur end_ acc r :
  dt_valid cur = true -> dt_valid end_ = true ->
  dt_date end_ = max -> hour end_ = 23 -> minute cur < minute end_ ->
  slots_loop fuel cur end_ acc = Some r -> r = Raise OverflowError.
Proof.
  revert cur acc. induction fuel as [|fuel IH]; intros cur acc Vc Ve Dm Hh Mi;
    simpl; [discriminate|].
  assert (dt_ltb cur end_ = true) as ->.
  { apply dt_ltb_iff. rewrite Dm. pose proof Vc as Vc'.
    apply dt_valid_iff in Vc'. destruct Vc' as (Vd & Hc & _).
    destruct (ltb_total (dt_date cur) max) as [L|[E|L]]; [auto| |].
    - right. split; [assumption|lia].
    - apply toordinal_mono in L; [|reflexivity|assumption].
      pose proof (toordinal_le_max _ Vd). rewrite toordinal_max in L. lia. }
  destruct (dt_add_hours cur OFFICE_HOURS_appointment_duration)
    as [next|e] eqn:A.
  - destruct (dt_add_hour_ret _ _ Vc A) as (Vn & _ & _ & Mn).
    apply IH; auto. lia.
  - destruct (dt_add_hour_raise _ _ Vc A) as (-> & _). congruence.
Qed.

Lemma contains_get {V : Type} (d : PyDict.dict V) k :
  PyDict.contains d k = true <-> PyDict.get d k <> None.
Proof.
  unfold PyDict.contains. destruct (PyDict.get d k); split; congruence.
Qed.

End OverflowFacts.
Import OverflowFacts.

(** X14.  The one exception that escapes [book_medical_appointment], and
    exactly when: the call raises if and only if the name is not blank,
    the start and the end parse with the date, the date is a key of the
    schedule, and the end is in the last hour of 9999-12-31 with a
    minute after that of the start; what it raises then is
    [OverflowError], from the step of the loop past the last day. *)
Theorem X14_booking_raises_only_at_the_end_of_time
  (uuid4 : N) (sched : schedule) (date st et name : string)
  (type : option string) (e : exn) :
  book_medical_appointment uuid4 sched date st et name type = Some (Raise e)
  <-> e = OverflowError
      /\ PyStr.strip name <> ""
      /\ PyDict.contains sched date = true
      /\ exists a b,
           strptime_datetime (date ++ " " ++ st) = Ret a
           /\ strptime_datetime (date ++ " " ++ et) = Ret b
           /\ dt_date b = max /\ hour b = 23 /\ minute a < minute b.
Proof.
  split.
  - unfold book_medical_appointment.
    destruct (negb _ || negb _) eqn:Nm; [discriminate|].
    assert (PyStr.strip name <> "") as Nm'.
    { intros E. apply name_check in E. congruence. }
    destruct (strptime_datetime (date ++ " " ++ st)) as [a|e0] eqn:Ha;
      cbn [bind].
    2:{ apply strptime_datetime_raise in Ha. subst. discriminate. }
    destruct (strptime_datetime (date ++ " " ++ et)) as [b|e0] eqn:Hb;
      cbn [bind].
    2:{ apply strptime_datetime_raise in Hb. subst. discriminate. }
    destruct (dt_geb a b); [discriminate|].
    destruct (PyDict.contains sched date) eqn:Ct; cbn [negb]; [|discriminate].
    pose proof Ct as G. apply contains_get in G.
    unfold PyDict.get_default.
    destruct (PyDict.get sched date) as [daily|] eqn:G'; [|congruence].
    pose proof (strptime_datetime_valid _ _ Ha) as Va.
    pose proof (strptime_datetime_valid _ _ Hb) as Vb.
    destruct (calc_required_time_slots a b) as [[slots|e0]|] eqn:C;
      try discriminate.
    + destruct (first_conflict _ _) as [[? ?]|]; [discriminate|].
      rewrite (for_each_book_slot _ _ daily) by assumption. discriminate.
    + intros [= <-].
      destruct (slots_loop_raise _ _ _ _ _ Va Vb C) as (-> & Dm).
      destruct (slots_loop_raise_last _ _ _ _ _ Va Vb C) as (Hh & Mi).
      repeat split; auto. exists a, b. auto.
  - intros (-> & Nm & Ct & a & b & Ha & Hb & Dm & Hh & Mi).
    pose proof (strptime_datetime_valid _ _ Ha) as Va.
    pose proof (strptime_datetime_valid _ _ Hb) as Vb.
    unfold book_medical_appointment.
    rewrite (name_check_false _ Nm), Ha, Hb. cbn [bind].
    destruct (calc_required_time_slots_total a b Va Vb) as (r & C).
    pose proof (slots_loop_overflow _ _ _ _ _ Va Vb Dm Hh Mi C) as ->.
    assert (dt_geb a b = false) as ->.
    { unfold dt_geb. apply negb_false_iff.
      destruct (dt_ltb a b) eqn:L; [reflexivity|].
      unfold calc_required_time_slots, slots_fuel in C. simpl in C.
      rewrite L in C. discriminate. }
    rewrite Ct, C. reflexivity.
Qed.

(** The last half hour of the calendar, asked for in the schedule of the
    module loaded on 9999-12-25. *)
Lemma X14_witness :
  book_medical_appointment 0
    (match module_load (mkdate 9999 12 25) with Ret s => s | Raise _ => [] end)
    "9999-12-31" "23:00" "23:30" "Jane Doe" (Some "consultation")
  = Some (Raise OverflowError).
Proof.
  apply (proj2 (X14_booking_raises_only_at_the_end_of_time 0 _ "9999-12-31"
                  "23:00" "23:30" "Jane Doe" (Some "consultation")
                  OverflowError)).
  split; [reflexivity|]. split; [vm_compute; discriminate|].
  split; [vm_compute; reflexivity|].
  exists (mkdatetime max 23 0), (mkdatetime max 23 30).
  repeat split; try (vm_compute; reflexivity).
Defined.

(** ** Dates as text, and the appointment id *)

Module KeyFacts.
Import PyDate PyDateFacts PyStrptimeFacts PyDictFacts BookingFacts.
Import CalendarFacts PrintFacts OverflowFacts.

(** A text that parses as a date and is a key of a schedule of the
    shape is the printed form of the date. *)
Lemma shape_key_printed today qs sched date d :
  valid today = true -> toordinal today + 6 <= MAXORDINAL ->
  calendar_shape today qs sched ->
  strptime_date date = Ret d -> In date (PyDict.keys sched) ->
  date = strftime d.
Proof.
  intros V L (K & _) P I. rewrite K in I. apply in_map_iff in I.
  destruct I as (d' & <- & I).
  destruct (days_from_week today V L) as (F & _). rewrite Forall_forall in F.
  destruct (Z_lt_le_dec (year d') 1000) as [Y|Y].
  - rewrite (strptime_unpadded d' (F d' I) Y) in P. discriminate.
  - rewrite (strptime_strftime d' (F d' I) Y) in P. congruence.
Qed.

Import PyUuid.








End KeyFacts.
Import KeyFacts.

(** X15.  Dates are looked up as text.  In the schedule of the module,
    whatever requests it has served, a text that [strptime] accepts as
    a date but that is not the form [strftime] prints (a month or a day
    without its leading zero; before the year 1000 every such text,
    as [strftime] then prints none that [strptime] accepts) is no key:
    the report for it is the one of a date without slots, although the
    day may have slots, and no booking for it succeeds or changes the
    schedule. *)
Theorem X15_dates_are_looked_up_as_text
  (today0 today : date) (s0 : schedule) (qs : list request) (date : string)
  (d : PyDate.date) :
  valid today0 = true -> module_load today0 = Ret s0 ->
  strptime_date date = Ret d -> date <> strftime d ->
  PyDict.contains (run s0 qs) date = false
  /\ (ltb d today = false ->
      list_appointment_availabilities today (run s0 qs) date
      = Ret (empty_report date))
  /\ (forall uuid4 st et name type r sched',
        book_medical_appointment uuid4 (run s0 qs) date st et name type
        = Some (Ret (r, sched')) ->
        status_of r = Some (VStr "error") /\ sched' = run s0 qs).
Proof.
  intros V M P N.
  destruct (module_load_ret _ _ V M) as (L & _).
  pose proof (run_shape today0 s0 qs V M) as S.
  assert (PyDict.get (run s0 qs) date = None) as G.
  { destruct (PyDict.get (run s0 qs) date) eqn:G; [|reflexivity].
    exfalso. apply N.
    apply (shape_key_printed today0 qs (run s0 qs)); auto.
    apply get_In_keys. congruence. }
  split; [|split].
  - unfold PyDict.contains. now rewrite G.
  - intros Lt. unfold list_appointment_availabilities.
    now rewrite P, Lt, G.
  - intros uuid4 st et name type r sched' B. apply book_inv in B.
    destruct B as [(-> & E & _)|(a & b & daily & slots & _ & _ & _ & _ & G'
                                 & _)]; [auto|congruence].
Qed.

(** The first of July written without the zeros. *)
Lemma X15_witness :
  PyDict.contains (run scenario_schedule []) "2024-7-1" = false.
Proof.
  refine (proj1 (X15_dates_are_looked_up_as_text jul1 jul1 scenario_schedule
                   [] "2024-7-1" jul1 _ _ _ _)).
  - reflexivity.
  - vm_compute. reflexivity.
  - vm_compute. reflexivity.
  - vm_compute. discriminate.
Defined.


(** ** The order of two bookings *)

Module OrderFacts.
Import PyDate PyDateFacts PyStrptimeFacts PyDictFacts SpanFacts BookingFacts.
Import GridFacts.

(** Two assignments to different keys, the first of them to a key that
    is there, can be made in either order. *)
Lemma set_comm {V : Type} (d : PyDict.dict V) k k' v v' :
  k <> k' -> PyDict.get d k <> None ->
  PyDict.set (PyDict.set d k v) k' v' = PyDict.set (PyDict.set d k' v') k v.
Proof.
  intros N. induction d as [|[k0 v0] r IH]; simpl; [congruence|].
  destruct (String.eqb_spec k k0) as [->|Nk].
  - intros _. destruct (String.eqb_spec k' k0) as [->|Nk']; [congruence|].
    simpl. rewrite String.eqb_refl.
    destruct (String.eqb_spec k' k0); [congruence | reflexivity].
  - intros P. destruct (String.eqb_spec k' k0) as [->|Nk']; simpl.
    + rewrite String.eqb_refl.
      destruct (String.eqb_spec k k0); [congruence | reflexivity].
    + destruct (String.eqb_spec k k0); [congruence|].
      destruct (String.eqb_spec k' k0); [congruence|].
      now rewrite IH.
Qed.

Lemma commit_cons daily s slots info :
  commit daily (s :: slots) info = commit (PyDict.set daily s info) slots info.
Proof. reflexivity. Qed.

Lemma commit_set_comm daily slots info s v :
  ~ In s slots -> PyDict.get daily s <> None ->
  commit (PyDict.set daily s v) slots info
  = PyDict.set (commit daily slots info) s v.
Proof.
  revert daily. induction slots as [|x xs IH]; intros daily N P;
    [reflexivity|].
  rewrite !commit_cons.
  assert (s <> x) as Nx by (intros ->; apply N; simpl; auto).
  rewrite (set_comm daily s x v info) by assumption.
  apply IH; [intros I; apply N; simpl; auto|].
  rewrite get_set. destruct (String.eqb x s); congruence.
Qed.

(** The commits of two spans that share no slot, the slots of the first
    being keys of the day, can be made in either order. *)
Lemma commit_comm daily slots1 info1 slots2 info2 :
  (forall s, In s slots1 -> ~ In s slots2) ->
  Forall (fun s => PyDict.get daily s <> None) slots1 ->
  commit (commit daily slots1 info1) slots2 info2
  = commit (commit daily slots2 info2) slots1 info1.
Proof.
  revert daily. induction slots1 as [|x xs IH]; intros daily D F;
    [reflexivity|].
  inversion F as [|? ? Px Pxs]; subst.
  rewrite !commit_cons, IH.
  - rewrite commit_set_comm; [reflexivity | apply D; simpl; auto | assumption].
  - intros s I. apply D. simpl. auto.
  - rewrite Forall_forall in Pxs |- *. intros s I. rewrite get_set.
    destruct (String.eqb x s); [discriminate | auto].
Qed.

(** The slots that are free after a commit were free before it and are
    none of its slots. *)
Lemma free_after_commit daily slots name type other :
  Forall (fun s => PyDict.get (commit daily slots (booking_info name type)) s
                   = Some "available") other ->
  Forall (fun s => PyDict.get daily s = Some "available") other
  /\ forall s, In s other -> ~ In s slots.
Proof.
  rewrite !Forall_forall. intros F. split.
  - intros s I. specialize (F s I). rewrite commit_get in F.
    destruct (in_dec string_dec s slots); [|assumption].
    injection F as F. now apply booking_info_not_available in F.
  - intros s I Is. specialize (F s I). rewrite commit_get_in in F by assumption.
    injection F as F. now apply booking_info_not_available in F.
Qed.

(** The slots that were free and are none of a commit are free after
    it. *)
Lemma free_before_commit daily slots info other :
  Forall (fun s => PyDict.get daily s = Some "available") other ->
  (forall s, In s other -> ~ In s slots) ->
  Forall (fun s => PyDict.get (commit daily slots info) s = Some "available")
    other.
Proof.
  rewrite !Forall_forall. intros F D s I.
  rewrite commit_get_notin by auto. auto.
Qed.

(** A successful call, taken apart. *)
Lemma book_success uuid4 sched date st et name type r sched' :
  book_medical_appointment uuid4 sched date st et name type
  = Some (Ret (r, sched')) ->
  status_of r = Some (VStr "success") ->
  exists a b daily slots,
    PyStr.strip name <> ""
    /\ strptime_datetime (date ++ " " ++ st) = Ret a
    /\ strptime_datetime (date ++ " " ++ et) = Ret b
    /\ dt_ltb a b = true
    /\ PyDict.get sched date = Some daily
    /\ calc_required_time_slots a b = Some (Ret slots)
    /\ Forall (fun s => PyDict.get daily s = Some "available") slots
    /\ sched' = PyDict.set sched date
                  (commit daily slots (booking_info name type))
    /\ r = booking_success_result (booking_id uuid4) name type date st et
             slots.
Proof.
  intros B S. apply book_inv in B.
  destruct B as [(_ & E & _)|(a & b & daily & slots & H)]; [congruence|].
  exists a, b, daily, slots. rewrite <- first_conflict_none. exact H.
Qed.

(** A call whose checks pass on free slots. *)
Lemma book_free uuid4 sched date st et name type a b daily slots :
  PyStr.strip name <> "" ->
  strptime_datetime (date ++ " " ++ st) = Ret a ->
  strptime_datetime (date ++ " " ++ et) = Ret b ->
  dt_ltb a b = true ->
  PyDict.get sched date = Some daily ->
  calc_required_time_slots a b = Some (Ret slots) ->
  Forall (fun s => PyDict.get daily s = Some "available") slots ->
  book_medical_appointment uuid4 sched date st et name type
  = Some (Ret (booking_success_result (booking_id uuid4) name type date
                 st et slots,
               PyDict.set sched date
                 (commit daily slots (booking_info name type)))).
Proof.
  intros Hn Ha Hb L G C F.
  rewrite (book_after_checks _ _ _ _ _ _ _ a b daily slots) by assumption.
  apply first_conflict_none in F. now rewrite F.
Qed.

Lemma present_of_free (daily : PyDict.dict string) slots :
  Forall (fun s => PyDict.get daily s = Some "available") slots ->
  Forall (fun s => PyDict.get daily s <> None) slots.
Proof.
  rewrite !Forall_forall. intros F s I. rewrite (F s I). discriminate.
Qed.

End OrderFacts.
Import OrderFacts.

(** X17.  Two bookings that succeed one after the other succeed in the
    other order as well, with the same two answers and the same
    schedule at the end. *)
Theorem X17_two_bookings_in_either_order
  (u1 u2 : N) (sched s1 s12 : schedule)
  (d1 st1 et1 n1 : string) (t1 : option string)
  (d2 st2 et2 n2 : string) (t2 : option string)
  (r1 r2 : PyDict.dict pyval) :
  book_medical_appointment u1 sched d1 st1 et1 n1 t1 = Some (Ret (r1, s1)) ->
  status_of r1 = Some (VStr "success") ->
  book_medical_appointment u2 s1 d2 st2 et2 n2 t2 = Some (Ret (r2, s12)) ->
  status_of r2 = Some (VStr "success") ->
  exists s2,
    book_medical_appointment u2 sched d2 st2 et2 n2 t2 = Some (Ret (r2, s2))
    /\ book_medical_appointment u1 s2 d1 st1 et1 n1 t1
       = Some (Ret (r1, s12)).
Proof.
  intros B1 S1 B2 S2.
  destruct (book_success _ _ _ _ _ _ _ _ _ B1 S1)
    as (a1 & b1 & daily1 & slots1 & N1 & Pa1 & Pb1 & L1 & G1 & C1 & F1
        & -> & ->).
  destruct (book_success _ _ _ _ _ _ _ _ _ B2 S2)
    as (a2 & b2 & daily2 & slots2 & N2 & Pa2 & Pb2 & L2 & G2 & C2 & F2
        & -> & ->).
  clear B1 B2 S1 S2. rewrite get_set in G2.
  destruct (String.eqb_spec d1 d2) as [<-|Nd].
  - injection G2 as <-.
    destruct (free_after_commit _ _ _ _ _ F2) as (F2' & D).
    eexists. split.
    + apply (book_free u2 sched d1 st2 et2 n2 t2 a2 b2 daily1 slots2);
        assumption.
    + rewrite (book_free u1 _ d1 st1 et1 n1 t1 a1 b1
                 (commit daily1 slots2 (booking_info n2 t2)) slots1);
        try assumption.
      * rewrite !set_set_same. do 4 f_equal.
        apply commit_comm; [exact D | now apply present_of_free].
      * apply get_set_same.
      * apply free_before_commit; [assumption|].
        intros s I1 I2. exact (D s I2 I1).
  - eexists. split.
    + apply (book_free u2 sched d2 st2 et2 n2 t2 a2 b2 daily2 slots2);
        assumption.
    + rewrite (book_free u1 _ d1 st1 et1 n1 t1 a1 b1 daily1 slots1);
        try assumption.
      * do 3 f_equal. apply set_comm; [congruence|]. congruence.
      * rewrite get_set_other by congruence. assumption.
Qed.

(** Jane Doe's booking of 09:00-11:00 and John Roe's of 11:00-12:00. *)
Lemma X17_witness :
  exists s2,
    book_medical_appointment 1 scenario_schedule "2024-07-01" "11:00" "12:00"
      "John Roe" (Some "follow-up")
    = Some (Ret (booking_success_result (booking_id 1) "John Roe"
                   (Some "follow-up") "2024-07-01" "11:00" "12:00"
                   ["11:00"], s2))
    /\ book_medical_appointment 0 s2 "2024-07-01" "09:00" "11:00" "Jane Doe"
         (Some "consultation")
       = Some (Ret (booking_success_result (booking_id 0) "Jane Doe"
                      (Some "consultation") "2024-07-01" "09:00" "11:00"
                      ["09:00"; "10:00"], scenario_booked_twice)).
Proof.
  apply (X17_two_bookings_in_either_order 0 1 scenario_schedule
           scenario_booked).
  - vm_compute. reflexivity.
  - reflexivity.
  - vm_compute. reflexivity.
  - reflexivity.
Defined.

(** ** Before the year 1000 *)

Module ShortYearFacts.
Import PyDate PyDateFacts PyStrptimeFacts PyDictFacts CalendarFacts.
Import PrintFacts MoveFacts KeyFacts.

(** Before the year 1000 the zero-filled text of a date is not what
    [strftime] prints for it. *)
Lemma isoformat_not_printed d :
  valid d = true -> year d < 1000 -> isoformat d <> strftime d.
Proof.
  intros V Y E. pose proof (strptime_isoformat d V) as P.
  rewrite E, (strptime_unpadded d V Y) in P. discriminate.
Qed.

End ShortYearFacts.
Import ShortYearFacts.

(** X18.  A day of the schedule that lies before the year 1000 cannot be
    asked for.  Its day schedule, with the nine office hours, is stored
    under the text [strftime] prints, whose year has fewer than four
    digits; [list_appointment_availabilities] answers that text with
    the format error, and answers the date written YYYY-MM-DD (when it
    is not past) with the report of a date without slots. *)
Theorem X18_days_before_the_year_1000
  (today0 today : date) (s0 : schedule) (qs : list request) (k : Z)
  (d : date) :
  valid today0 = true -> module_load today0 = Ret s0 ->
  0 <= k < 7 -> add_days today0 k = Ret d -> year d < 1000 ->
  (exists daily,
      PyDict.get (run s0 qs) (strftime d) = Some daily
      /\ PyDict.keys daily = available_time_slots)
  /\ list_appointment_availabilities today (run s0 qs) (strftime d)
     = Ret (error_result
              "Invalid date format. Please provide date in YYYY-MM-DD format."
              "INVALID_DATE_FORMAT")
  /\ (ltb d today = false ->
      list_appointment_availabilities today (run s0 qs) (isoformat d)
      = Ret (empty_report (isoformat d))).
Proof.
  intros V M Hk A Y.
  pose proof (run_shape today0 s0 qs V M) as S.
  destruct (module_load_ret _ _ V M) as (L & _).
  assert (0 <= k) as Hk0 by lia.
  destruct (InitFacts.add_days_ret _ _ _ V Hk0 A) as (Vd & _).
  split; [|split].
  - destruct (shape_day _ _ _ _ _ S Hk A) as (daily & G & Kd & _).
    exists daily. auto.
  - unfold list_appointment_availabilities.
    now rewrite (strptime_unpadded d Vd Y).
  - intros Lt. unfold list_appointment_availabilities.
    rewrite (strptime_isoformat d Vd), Lt.
    destruct (PyDict.get (run s0 qs) (isoformat d)) eqn:G; [|reflexivity].
    exfalso. apply (isoformat_not_printed d Vd Y).
    apply (shape_key_printed today0 qs (run s0 qs)); auto.
    + now apply strptime_isoformat.
    + apply get_In_keys. congruence.
Qed.

(** The module loaded on the first of June 999. *)
Lemma X18_witness :
  list_appointment_availabilities (mkdate 999 6 1)
    (run (match module_load (mkdate 999 6 1) with
          | Ret s => s
          | Raise _ => []
          end) [])
    (isoformat (mkdate 999 6 1))
  = Ret (empty_report (isoformat (mkdate 999 6 1))).
Proof.
  refine (proj2 (proj2 (X18_days_before_the_year_1000 (mkdate 999 6 1)
                          (mkdate 999 6 1) _ [] 0 (mkdate 999 6 1)
                          _ _ _ _ _)) _).
  - reflexivity.
  - vm_compute. reflexivity.
  - lia.
  - reflexivity.
  - simpl. lia.
  - reflexivity.
Defined.
